(** * cronevents: the recurrence grammar, the due-ness evaluator, the
    scheduler's update step and its pass over the table, registration, and
    the log batcher

    A shallow embedding of [cronevents/event_manager.py] and
    [cronevents/event.py].

    Conventions of the model.
    - Text is [string]: characters are 7-bit ASCII, as the grammar's own
      words are.  [lower], [strip], [split] ... are Python's [str] methods
      of the same names.
    - Numbers are [Z].  [time.time()] and every timestamp are taken at a
      resolution of one second; [float(w)] is read on integer literals and
      taken exactly, which is what a double holds below 2^53: the
      statements on the amounts of a clause bound them.
    - A row is a Python [dict]: a [gmap] from column name to [value].
    - The store is a collaborator: the table is a [gmap] from id to row,
      an upsert replaces the row of an id, and a statement handed to
      [query] is text, on which the store answers as it will; what is
      asked of it is said where it is used.  [json.loads] and [invoke]
      are collaborators too.
    - A Python call either returns or raises: [outcome].  The functions
      that call themselves ([query_syntax_checker], [parse_time], [ready])
      carry the depth of calls still allowed, and raise [RecursionError]
      when it is used up. *)

From Stdlib Require Import ZArith Lia List Bool Ascii String.
From Stdlib Require Import DecimalString.
From stdpp Require Import gmap strings.

Local Open Scope string_scope.
Local Open Scope Z_scope.

(** ** Python's text primitives *)

Module Py.

(** [str.isspace] on ASCII: tab, line feed, vertical tab, form feed,
    carriage return, the four separators 28..31, and the blank. *)
Definition is_space (c : ascii) : bool :=
  let n := nat_of_ascii c in
  ((9 <=? n)%nat && (n <=? 13)%nat) || ((28 <=? n)%nat && (n <=? 32)%nat).

Definition is_digit (c : ascii) : bool :=
  let n := nat_of_ascii c in (48 <=? n)%nat && (n <=? 57)%nat.

Definition lower_char (c : ascii) : ascii :=
  let n := nat_of_ascii c in
  if (65 <=? n)%nat && (n <=? 90)%nat then ascii_of_nat (n + 32) else c.

(** [s.lower()] *)
Fixpoint lower (s : string) : string :=
  match s with
  | EmptyString => EmptyString
  | String c s' => String (lower_char c) (lower s')
  end.

(** [s.startswith(p)] *)
Fixpoint startswith (s p : string) {struct p} : bool :=
  match p with
  | EmptyString => true
  | String a p' =>
      match s with
      | EmptyString => false
      | String b s' => Ascii.eqb a b && startswith s' p'
      end
  end.

(** [s.endswith(p)]: some suffix of [s] is [p]. *)
Fixpoint endswith (s p : string) {struct s} : bool :=
  String.eqb s p ||
  match s with
  | EmptyString => false
  | String _ s' => endswith s' p
  end.

(** [p in s] *)
Fixpoint contains (p s : string) {struct s} : bool :=
  startswith s p ||
  match s with
  | EmptyString => false
  | String _ s' => contains p s'
  end.

(** What follows the prefix [p] of [s], when [s] starts with [p]. *)
Fixpoint removeprefix (p s : string) {struct p} : option string :=
  match p with
  | EmptyString => Some s
  | String a p' =>
      match s with
      | EmptyString => None
      | String b s' => if Ascii.eqb a b then removeprefix p' s' else None
      end
  end.

(** [s.partition(p)] at the leftmost occurrence: the text before it and the
    text after it, or [None] when [p] does not occur. *)
Fixpoint cut (p s : string) {struct s} : option (string * string) :=
  match removeprefix p s with
  | Some r => Some (EmptyString, r)
  | None =>
      match s with
      | EmptyString => None
      | String c s' =>
          match cut p s' with
          | Some (a, b) => Some (String c a, b)
          | None => None
          end
      end
  end.

(** [s.split(p)] for a separator [p] that is not empty (every separator of
    this program is a constant): leftmost occurrences, not overlapping.  The
    first argument bounds the number of cuts; [String.length s] is enough. *)
Fixpoint split_upto (n : nat) (p s : string) {struct n} : list string :=
  match n with
  | O => [s]
  | S n' =>
      match cut p s with
      | None => [s]
      | Some (a, b) => a :: split_upto n' p b
      end
  end.

Definition split (p s : string) : list string :=
  split_upto (String.length s) p s.

(** [s.count(p)], occurrences that do not overlap. *)
Definition count (p s : string) : nat := Nat.pred (List.length (split p s)).

(** [r.join(l)] *)
Fixpoint join (r : string) (l : list string) : string :=
  match l with
  | [] => EmptyString
  | [x] => x
  | x :: l' => x ++ r ++ join r l'
  end.

(** [s.replace(p, r)] *)
Definition replace (p r s : string) : string := join r (split p s).

(** [s.replace(p, r, 1)] *)
Definition replace_first (p r s : string) : string :=
  match cut p s with
  | Some (a, b) => a ++ r ++ b
  | None => s
  end.

Fixpoint lstrip (s : string) : string :=
  match s with
  | EmptyString => EmptyString
  | String c s' => if is_space c then lstrip s' else s
  end.

Fixpoint rstrip (s : string) : string :=
  match s with
  | EmptyString => EmptyString
  | String c s' =>
      match rstrip s' with
      | EmptyString => if is_space c then EmptyString else String c EmptyString
      | r => String c r
      end
  end.

(** [s.strip()] *)
Definition strip (s : string) : string := rstrip (lstrip s).

(** [s.split()]: the maximal runs of characters that are not blank. *)
Fixpoint split_ws (s : string) : list string :=
  match s with
  | EmptyString => []
  | String c s' =>
      if is_space c then split_ws s'
      else
        match s' with
        | EmptyString => [String c EmptyString]
        | String d _ =>
            if is_space d then String c EmptyString :: split_ws s'
            else
              match split_ws s' with
              | w :: ws => String c w :: ws
              | [] => [String c EmptyString]
              end
        end
  end.

(** [l[0]] and [l[-1]] on the lists [split] returns, which are never empty. *)
Definition first (l : list string) : string := hd EmptyString l.
Definition final (l : list string) : string := List.last l EmptyString.

(** The digits of an integer literal, underscores allowed between digits:
    [digits_value acc seen s] reads [s] after [acc]; [seen] says that the
    character before was a digit. *)
Fixpoint digits_value (acc : Z) (seen : bool) (s : string) : option Z :=
  match s with
  | EmptyString => if seen then Some acc else None
  | String c s' =>
      if is_digit c then
        digits_value (10 * acc + Z.of_nat (nat_of_ascii c - 48)) true s'
      else if Ascii.eqb c "_" then
        (if seen then digits_value acc false s' else None)
      else None
  end.

(** The blanks [int] skips around a literal: tab to carriage return, and
    the blank.  The separators 28..31, which [strip] takes off, it does not
    skip. *)
Definition is_c_space (c : ascii) : bool :=
  let n := nat_of_ascii c in
  ((9 <=? n)%nat && (n <=? 13)%nat) || (n =? 32)%nat.

Fixpoint skip_left (s : string) : string :=
  match s with
  | EmptyString => EmptyString
  | String c s' => if is_c_space c then skip_left s' else s
  end.

Fixpoint skip_right (s : string) : string :=
  match s with
  | EmptyString => EmptyString
  | String c s' =>
      match skip_right s' with
      | EmptyString => if is_c_space c then EmptyString else String c EmptyString
      | r => String c r
      end
  end.

(** The number of digits of a literal. *)
Fixpoint digit_count (s : string) : nat :=
  match s with
  | EmptyString => O
  | String c s' => if is_digit c then S (digit_count s') else digit_count s'
  end.

(** [sys.get_int_max_str_digits()], the default. *)
Definition int_max_str_digits : nat := 4300.

(** [int(s)]: blanks around, an optional sign, digits, 4300 of them at
    most.  [None] is [ValueError]. *)
Definition int (s : string) : option Z :=
  match skip_right (skip_left s) with
  | EmptyString => None
  | String c d =>
      if (int_max_str_digits <? digit_count (String c d))%nat then None
      else if Ascii.eqb c "+" then digits_value 0 false d
      else if Ascii.eqb c "-" then option_map Z.opp (digits_value 0 false d)
      else digits_value 0 false (String c d)
  end.

(** [float(s)], on integer literals: the words this program passes are the
    ones before a unit name, integer literals in every clause the validator
    accepts; [float] sets no limit on the digits.  The other literals of
    [float] (fractions, exponents, [inf], [nan]) are outside the model and
    read as a failure.  The value is taken exactly, which is what a double
    holds below 2^53 in absolute value and not above: the statements that
    read amounts keep them, and the sums made of them, below that. *)
Definition float (s : string) : option Z :=
  match skip_right (skip_left s) with
  | EmptyString => None
  | String c d =>
      if Ascii.eqb c "+" then digits_value 0 false d
      else if Ascii.eqb c "-" then option_map Z.opp (digits_value 0 false d)
      else digits_value 0 false (String c d)
  end.

(** [str(z)] *)
Definition str (z : Z) : string := NilZero.string_of_int (Z.to_int z).

End Py.

(** ** Results of a call *)

(** The exceptions this program meets.  [CronEventSyntaxError] carries its
    message. *)
Inductive exn : Type :=
  | CronEventSyntaxError (msg : string)
  | KeyError (key : string)
  | AttributeError
  | TypeError
  | ValueError
  | OverflowError
  | RecursionError
  | StoreError.

Inductive outcome (A : Type) : Type :=
  | Return (a : A)
  | Raise (e : exn).

Arguments Return {A} a.
Arguments Raise {A} e.

Definition bind {A B : Type} (m : outcome A) (k : A -> outcome B) : outcome B :=
  match m with
  | Return a => k a
  | Raise e => Raise e
  end.

Notation "x <- m ;; k" := (bind m (fun x => k))
  (at level 100, m at next level, right associativity).
Notation "m ;;; k" := (bind m (fun _ => k))
  (at level 100, right associativity).

(** [try: body  except Exception: handler] *)
Definition try_except {A : Type} (body : outcome A) (handler : exn -> outcome A)
  : outcome A :=
  match body with
  | Return a => Return a
  | Raise e => handler e
  end.

(** A call one level deeper, when the interpreter still allows one. *)
Definition call {A B : Type} (self : option (A -> outcome B)) (a : A) : outcome B :=
  match self with
  | Some f => f a
  | None => Raise RecursionError
  end.

(** [for x in l: body(x)], left to right, stopping at the first raise. *)
Fixpoint for_each {A : Type} (body : A -> outcome unit) (l : list A) : outcome unit :=
  match l with
  | [] => Return tt
  | x :: l' => body x ;;; for_each body l'
  end.

(** ** [event_manager.py]: constants *)

Definition DAYS_OF_THE_WEEK : list string :=
  ["monday"; "tuesday"; "wednesday"; "thursday"; "friday"; "saturday"; "sunday"].

Definition STARTING_TOKENS : list string := ["every"; "in"; "on"].

(** [sys.getrecursionlimit()], the default. *)
Definition recursion_limit : nat := 1000.

(** [is_int] *)
Definition is_int (value : string) : bool :=
  match Py.int value with Some _ => true | None => false end.

(** [try_number(value)], with [_type=float]: the number, or
    [on_fail_return_value]. *)
Definition try_number (value : string) (on_fail_return_value : Z) : Z :=
  match Py.float value with Some v => v | None => on_fail_return_value end.

(** ** The validator *)

Definition syntax_error {A : Type} (msg : string) : outcome A :=
  Raise (CronEventSyntaxError msg).

(** [int(x)] inside the [try] of the clock checker. *)
Definition int_or_ValueError (x : string) : outcome Z :=
  match Py.int x with Some z => Return z | None => Raise ValueError end.

(** [23 < hour < 0], Python's chained comparison. *)
Definition chained_lt (a x b : Z) : bool := (a <? x) && (x <? b).

(** [query_at_time_syntax_checker] *)
Definition query_at_time_syntax_checker (at_ : string) : outcome unit :=
  (if Py.contains "am" at_ then
     if Py.contains "pm" at_ then syntax_error "Only one am/pm is allowed"
     else if negb (Py.endswith at_ "am")
     then syntax_error "Invalid am format near `am`"
     else Return tt
   else Return tt) ;;;
  has_pm <- (if Py.contains "pm" at_ then
               if negb (Py.endswith at_ "pm")
               then syntax_error "Invalid pm format near `pm`"
               else Return true
             else Return false) ;;
  let at_ := Py.strip (Py.replace "pm" "" (Py.replace "am" "" at_)) in
  (if (2 <? Py.count ":" at_)%nat
   then syntax_error "Invalid time format. Max use of `:` is 2"
   else Return tt) ;;;
  fields <-
    (if (Py.count ":" at_ =? 2)%nat then
       match Py.split ":" at_ with
       | [h; m; s] => Return (h, m, s)
       | _ => Raise ValueError
       end
     else if (Py.count ":" at_ =? 1)%nat then
       match Py.split ":" at_ with
       | [h; m] => Return (h, m, "0")
       | _ => Raise ValueError
       end
     else Return (at_, "0", "0")) ;;
  let '(hour, minute, second) := fields in
  hms <-
    try_except
      (h <- int_or_ValueError hour ;;
       let h := if has_pm : bool then h + 12 else h in
       m <- int_or_ValueError minute ;;
       s <- int_or_ValueError second ;;
       Return (h, m, s))
      (fun _ => syntax_error ("Non-int value for time found: `" ++ at_ ++ "`")) ;;
  let '(hour, minute, second) := hms in
  (if chained_lt 23 hour 0
   then syntax_error ("Invalid hour value: `" ++ Py.str hour ++ "`. Must be 23 < hour < 0")
   else Return tt) ;;;
  (if chained_lt 59 minute 0
   then syntax_error ("Invalid minute value: `" ++ Py.str minute ++ "`. Must be 59 < minute < 0")
   else Return tt) ;;;
  (if chained_lt 59 second 0
   then syntax_error ("Invalid second value: `" ++ Py.str second ++ "`. Must be 59 < second < 0")
   else Return tt).

Definition units : list string :=
  let units := ["day"; "hour"; "minute"; "second"] in
  List.app units (map (fun u => u ++ "s") units).

Definition is_unit (token : string) : bool :=
  existsb (String.eqb token) units.

(** [tokens[:tokens.index('minus')]] *)
Fixpoint before_minus (tokens : list string) : list string :=
  match tokens with
  | [] => []
  | t :: ts => if String.eqb t "minus" then [] else t :: before_minus ts
  end.

(** [tokens[tokens.index('minus') + 1:]] *)
Fixpoint after_minus (tokens : list string) : list string :=
  match tokens with
  | [] => []
  | t :: ts => if String.eqb t "minus" then ts else after_minus ts
  end.

(** [tokens.remove('minus')]: the first one. *)
Fixpoint remove_minus (tokens : list string) : list string :=
  match tokens with
  | [] => []
  | t :: ts => if String.eqb t "minus" then ts else t :: remove_minus ts
  end.

(** The two checks on one side of [minus]. *)
Definition check_side (side query : string) (tokens : list string) : outcome unit :=
  let has_unit := existsb is_unit tokens in
  let has_number := existsb is_int tokens in
  if negb has_unit
  then syntax_error ("No unit found in " ++ side ++ " minus `" ++ query ++ "`")
  else if negb has_number
  then syntax_error ("No number found in " ++ side ++ " minus `" ++ query ++ "`")
  else Return tt.

(** The loop over the tokens, a number and a unit in turn; it returns the
    last [on_number]. *)
Fixpoint check_tokens (on_number : bool) (tokens : list string) : outcome bool :=
  match tokens with
  | [] => Return on_number
  | token :: rest =>
      if on_number then
        if negb (is_int token)
        then syntax_error ("Expected number, got `" ++ token ++ "`")
        else check_tokens false rest
      else
        if negb (is_unit token)
        then syntax_error ("Expected unit, got `" ++ token ++ "`. Available units "
                           ++ Py.join ", " units)
        else check_tokens true rest
  end.

(** The loop over the week days: the first day found in [query] decides. *)
Fixpoint check_days (query : string) (days : list string) : outcome bool :=
  match days with
  | [] => Return false
  | day :: rest =>
      if Py.contains day query then
        if (1 <? Py.count day query)%nat
        then syntax_error ("Only one " ++ day ++ " is allowed")
        else if negb (String.eqb "" (Py.strip (Py.replace day "" query)))
        then syntax_error
               ("Invalid format. Using day of the week cannot contain other values. (remove: `"
                ++ Py.replace day "" query ++ "` from `" ++ query ++ "`")
        else Return true
      else check_days query rest
  end.

(** The first starting token that [query.strip()] begins with is taken out
    of [query], once. *)
Fixpoint remove_starting_token (query : string) (tokens : list string) : string :=
  match tokens with
  | [] => query
  | token :: rest =>
      if Py.startswith (Py.strip query) (token ++ " ")
      then Py.replace_first (token ++ " ") "" query
      else remove_starting_token query rest
  end.

(** [query_syntax_checker], for a query with no [||]. *)
Definition check_clause (query : string) : outcome unit :=
  let query := Py.lower query in
  (if negb (existsb (fun token => Py.startswith (Py.strip query) (token ++ " "))
                    STARTING_TOKENS)
   then syntax_error ("Query must start with one: " ++ Py.join ", " STARTING_TOKENS)
   else Return tt) ;;;
  let query := remove_starting_token query STARTING_TOKENS in
  query <-
    (if Py.contains "@" query then
       if (1 <? Py.count "@" query)%nat then syntax_error "Only one @ is allowed"
       else
         match Py.split "@" query with
         | [query; at_] => query_at_time_syntax_checker at_ ;;; Return query
         | _ => Raise ValueError
         end
     else Return query) ;;
  is_day <- check_days query DAYS_OF_THE_WEEK ;;
  if is_day : bool then Return tt
  else
    let tokens := map Py.strip (Py.split_ws query) in
    tokens <-
      (if existsb (String.eqb "minus") tokens then
         check_side "before" query (before_minus tokens) ;;;
         check_side "after" query (after_minus tokens) ;;;
         Return (remove_minus tokens)
       else Return tokens) ;;
    on_number <- check_tokens true tokens ;;
    if negb on_number
    then syntax_error
           ("Expected unit, got end of query. Please add a unit or remove the last number. Units: "
            ++ Py.join ", " units)
    else Return tt.

(** [query_syntax_checker] on a string, [depth] calls deep at most. *)
Fixpoint query_syntax_checker_at (depth : nat) (query : string) : outcome unit :=
  if Py.contains "||" query then
    for_each
      (fun q =>
         match
           call (match depth with
                 | O => None
                 | S d => Some (query_syntax_checker_at d)
                 end) (Py.strip q)
         with
         | Raise (CronEventSyntaxError e) =>
             syntax_error ("Error in query `" ++ q ++ "`: " ++ e)
         | r => r
         end)
      (Py.split "||" query)
  else check_clause query.

(** ** Rows *)

(** What a column of a row can hold: text, an aware [datetime] (its instant
    in seconds since the epoch, and its [utcoffset()] in seconds), [None],
    or an integer. *)
Inductive value : Type :=
  | VStr (s : string)
  | VDatetime (epoch : Z) (utcoffset : Z)
  | VNone
  | VInt (z : Z).

(** [row[key]] *)
Definition getitem (row : gmap string value) (key : string) : outcome value :=
  match row !! key with
  | Some v => Return v
  | None => Raise (KeyError key)
  end.

(** [query_syntax_checker] *)
Definition query_syntax_checker (query : value) : outcome unit :=
  match query with
  | VStr q => query_syntax_checker_at recursion_limit q
  | _ => syntax_error "Query must be a string"
  end.

(** ** Durations and clock values *)

Definition NL : string := String (ascii_of_nat 10) EmptyString.
Definition TAB : string := String (ascii_of_nat 9) EmptyString.

(** [get_word_before_word]: [txt.split(word)] raises [ValueError] on the
    empty separator, and the empty word is in every text. *)
Definition get_word_before_word (word txt : string) : outcome string :=
  if negb (Py.contains word txt) then Return ""
  else if String.eqb word "" then Raise ValueError
  else
    Return
      (Py.strip (Py.final (Py.split TAB
        (Py.strip (Py.final (Py.split NL
          (Py.strip (Py.final (Py.split " "
            (Py.strip (Py.first (Py.split word txt)))))))))))).

(** One [if unit in s: v += seconds * try_number(...)] of [parse_time]. *)
Definition add_unit (unit_name : string) (seconds : Z) (s : string) (v : Z)
  : outcome Z :=
  if Py.contains unit_name s then
    word <- get_word_before_word unit_name s ;;
    Return (v + seconds * try_number word 1)
  else Return v.

(** [parse_time], [depth] calls deep at most. *)
Fixpoint parse_time_at (depth : nat) (s : string) : outcome Z :=
  ms <- (if Py.contains "minus" s then
           m <- call (match depth with
                      | O => None
                      | S d => Some (parse_time_at d)
                      end) (Py.final (Py.split "minus" s)) ;;
           Return (m, Py.first (Py.split "minus" s))
         else Return (0, s)) ;;
  let '(m, s) := ms in
  v <- add_unit "day" 86400 s 0 ;;
  v <- add_unit "hour" 3600 s v ;;
  v <- add_unit "minute" 60 s v ;;
  v <- add_unit "second" 1 s v ;;
  Return ((if 0 <? v then v else 86400) - m).

Definition parse_time (s : string) : outcome Z := parse_time_at recursion_limit s.

(** A variable that holds an [int] on one path and a [str] on another. *)
Inductive int_or_str : Type :=
  | IsInt (z : Z)
  | IsStr (s : string).

(** [int(x)] *)
Definition int_of (x : int_or_str) : outcome Z :=
  match x with
  | IsInt z => Return z
  | IsStr s => int_or_ValueError s
  end.

(** [force_int]: [try_number(x, _type=int, on_fail_return_value=0)] *)
Definition force_int (x : int_or_str) : Z :=
  match int_of x with Return z => z | Raise _ => 0 end.

(** [datetime.timedelta(hours=, minutes=, seconds=)], in seconds: its days
    must lie within 999999999 of zero. *)
Definition timedelta (hours minutes seconds : Z) : outcome Z :=
  let t := hours * 3600 + minutes * 60 + seconds in
  if (-999999999 <=? t / 86400) && (t / 86400 <=? 999999999)
  then Return t else Raise OverflowError.

(** [parse_time_timedelta] *)
Definition parse_time_timedelta (s : string) : outcome Z :=
  let query := Py.final (Py.split "@" s) in
  let q := Py.first (Py.split "pm" (Py.first (Py.split "am" (Py.lower query)))) in
  fields <-
    (if (Py.count ":" q =? 0)%nat then
       Return (IsInt (force_int (IsStr q)), IsInt 0, IsInt 0)
     else if (Py.count ":" q =? 1)%nat then
       match map Py.strip (Py.split ":" q) with
       | [hr; _min] => Return (IsStr hr, IsStr _min, IsInt 0)
       | _ => Raise ValueError
       end
     else if (Py.count ":" q =? 2)%nat then
       match map Py.strip (Py.split ":" q) with
       | [hr; _min; sec] => Return (IsStr hr, IsStr _min, IsStr sec)
       | _ => Raise ValueError
       end
     else Return (IsInt 0, IsInt 0, IsInt 0)) ;;
  let '(hr, _min, sec) := fields in
  hr <- (if Py.contains "pm" (Py.lower query) then
           h <- int_of hr ;;
           if h <? 12 then Return (IsInt (force_int hr + 12)) else Return hr
         else Return hr) ;;
  timedelta (force_int hr) (force_int _min) (force_int sec).

(** ** Calendar *)

(** The day number of an instant in UTC, its second of the day, and the
    day of the week ([strftime('%A').lower()]; the epoch was a Thursday). *)
Definition utc_date (t : Z) : Z := t / 86400.
Definition time_of_day (t : Z) : Z := t mod 86400.
Definition weekday_name (t : Z) : string :=
  nth (Z.to_nat ((utc_date t + 3) mod 7)) DAYS_OF_THE_WEEK "".

(** [datetime.fromtimestamp(t).date()], the date on the host's clock:
    [tz t] is the host's offset from UTC at [t], in seconds. *)
Definition local_date (tz : Z -> Z) (t : Z) : Z := (t + tz t) / 86400.

(** [date.min] and [date.max] as day numbers (years 1 to 9999). *)
Definition date_min : Z := -719162.
Definition date_max : Z := 2932896.

(** [(d - datetime.timedelta(days=days)).date()] on a date [d]. *)
Definition date_minus_days (d days : Z) : outcome Z :=
  if negb ((-999999999 <=? days) && (days <=? 999999999)) then Raise OverflowError
  else if (date_min <=? d - days) && (d - days <=? date_max) then Return (d - days)
  else Raise OverflowError.

Definition digit_of (c : ascii) : Z := Z.of_nat (nat_of_ascii c - 48).

(** What [%H], [%M] and [%S] read: one or two digits. *)
Definition two_digits (x : string) : option Z :=
  match x with
  | String a EmptyString =>
      if Py.is_digit a then Some (digit_of a) else None
  | String a (String b EmptyString) =>
      if Py.is_digit a && Py.is_digit b then Some (10 * digit_of a + digit_of b)
      else None
  | _ => None
  end.

(** [datetime.strptime(today + f' {hr}:{_min}:{sec}', '%Y-%m-%d %H:%M:%S')]
    in UTC: the instant of that clock time on the UTC date of [now]. *)
Definition strptime_today (now : Z) (hr _min sec : string) : outcome Z :=
  match two_digits hr, two_digits _min, two_digits sec with
  | Some h, Some m, Some s =>
      if (h <=? 23) && (m <=? 59) && (s <=? 59)
      then Return (utc_date now * 86400 + h * 3600 + m * 60 + s)
      else Raise ValueError
  | _, _, _ => Raise ValueError
  end.

(** [force_zero] *)
Definition force_zero (x : string) : string :=
  if (String.length x =? 1)%nat then "0" ++ x else x.

(** ** The due-ness evaluator *)

(** [(row['last'] + (row['last'].utcoffset() or timedelta(0))).timestamp()] *)
Definition last_timestamp (last : value) : outcome Z :=
  match last with
  | VDatetime epoch utcoffset => Return (epoch + utcoffset)
  | VStr _ => Raise AttributeError
  | VNone => Raise AttributeError
  | VInt _ => Raise AttributeError
  end.

(** [s.lower()] on a column. *)
Definition lower_of (v : value) : outcome string :=
  match v with
  | VStr s => Return (Py.lower s)
  | _ => Raise AttributeError
  end.

(** [for q in queries: if ready(...): return True] and [return False]. *)
Fixpoint any_ready (ready : gmap string value -> outcome bool)
    (row : gmap string value) (queries : list string) : outcome bool :=
  match queries with
  | [] => Return false
  | q :: rest =>
      b <- ready (<["query" := VStr (Py.strip q)]> row) ;;
      if b : bool then Return true else any_ready ready row rest
  end.

(** The branch of [ready] for a week day. *)
Definition ready_weekday (now last : Z) (query : string) : outcome bool :=
  if Z.abs ((now - last) / 86400) <? 5 then Return false
  else if Py.contains (weekday_name now) query then
    if Py.contains "@" query then
      t <- parse_time_timedelta query ;;
      Return (t <=? time_of_day now)
    else Return true
  else Return false.

(** The branch of [ready] for a duration with a clock. *)
Definition ready_at_clock (tz : Z -> Z) (now last : Z) (query : string)
  : outcome bool :=
  time_to <-
    (if existsb (fun token => Py.startswith (Py.lower query) (token ++ " "))
                STARTING_TOKENS
     then parse_time (Py.first (Py.split "@" query))
     else Return (86400 - 30)) ;;
  let query := Py.final (Py.split "@" query) in
  let q := Py.first (Py.split "pm" (Py.first (Py.split "am" (Py.lower query)))) in
  fields <-
    (if (Py.count ":" q =? 0)%nat then
       Return (Py.strip (match Py.int q with
                         | Some v => Py.str v
                         | None => "0"
                         end), "0", "0")
     else if (Py.count ":" q =? 1)%nat then
       match map Py.strip (Py.split ":" q) with
       | [hr; _min] => Return (hr, _min, "0")
       | _ => Raise ValueError
       end
     else if (Py.count ":" q =? 2)%nat then
       match map Py.strip (Py.split ":" q) with
       | [hr; _min; sec] => Return (hr, _min, sec)
       | _ => Raise ValueError
       end
     else Return ("0", "0", "0")) ;;
  let '(hr, _min, sec) := fields in
  hr <- (if Py.contains "pm" (Py.lower query) then
           h <- int_or_ValueError hr ;;
           if h <? 12 then Return (Py.str (h + 12)) else Return hr
         else Return hr) ;;
  let '(hr, _min, sec) := (force_zero hr, force_zero _min, force_zero sec) in
  time_to_execute <- strptime_today now hr _min sec ;;
  let days := (time_to - 1) / 86400 in
  shifted <- date_minus_days (local_date tz now) days ;;
  let enough_time_past := local_date tz last <? shifted in
  Return ((time_to_execute <? now) && enough_time_past).

(** The body of [ready], inside its [try]; [self] is [ready] one call
    deeper. *)
Definition ready_body (self : option (gmap string value -> outcome bool))
    (tz : Z -> Z) (now : Z) (row : gmap string value) : outcome bool :=
  qv <- getitem row "query" ;;
  query <- lower_of qv ;;
  if Py.contains "||" query then
    any_ready (call self) row (Py.split "||" query)
  else
    lv <- getitem row "last" ;;
    last <- last_timestamp lv ;;
    if existsb (fun d => Py.contains d query) DAYS_OF_THE_WEEK then
      ready_weekday now last query
    else if negb (Py.contains "@" query) then
      raw <- getitem row "query" ;;
      match raw with
      | VStr raw =>
          t <- parse_time raw ;;
          Return (t <? now - last)
      | _ => Raise TypeError
      end
    else ready_at_clock tz now last query.

(** [ready]: whatever the body raises is caught, and the answer is then
    [False]. *)
Fixpoint ready_at (depth : nat) (tz : Z -> Z) (now : Z)
    (row : gmap string value) : outcome bool :=
  try_except
    (ready_body (match depth with
                 | O => None
                 | S d => Some (ready_at d tz now)
                 end) tz now row)
    (fun _ => Return false).

Definition ready (tz : Z -> Z) (now : Z) (row : gmap string value) : outcome bool :=
  ready_at recursion_limit tz now row.

(** ** The store and the scheduler's step on one row *)

(** The table [cronevents] of the store: rows keyed by their [id] column;
    an upsert replaces the row of that key.  The store itself is a
    collaborator outside this repository.  The key of a row is its [id], a
    text (or a number, written in decimal). *)
Definition row_id (row : gmap string value) : outcome string :=
  v <- getitem row "id" ;;
  match v with
  | VStr i => Return i
  | VInt z => Return (Py.str z)
  | _ => Raise TypeError
  end.

(** [get_db().upload_table('cronevents', [row], id_column='id')] *)
Definition upload_table (db : gmap string (gmap string value))
    (row : gmap string value) : outcome (gmap string (gmap string value)) :=
  i <- row_id row ;;
  Return (<[i := row]> db).

(** The text of [f"delete from cronevents where id = '{row["id"]}'"]: the
    id is put between the quotes as it is. *)
Definition delete_statement (i : string) : string :=
  "delete from cronevents where id = '" ++ i ++ "'".

Section Scheduler.

(** [json.loads]: the value a text holds, or an exception. *)
Variable json : Type.
Variable json_loads : value -> outcome json.

(** [invoke(module, func, args, kwargs)]: the launch of the execution, a
    collaborator; it returns or raises. *)
Variable invoke : value -> value -> json -> json -> outcome unit.

(** [get_db().query(sql)]: what the store makes of a statement, and the
    table it leaves. *)
Variable db_query :
  gmap string (gmap string value) -> string
  -> outcome (gmap string (gmap string value)).

(** The host's offset from UTC. *)
Variable tz : Z -> Z.

(** [get_db().query(f"delete from cronevents where id = '{row["id"]}'")] *)
Definition delete_row (db : gmap string (gmap string value))
    (row : gmap string value) : outcome (gmap string (gmap string value)) :=
  i <- row_id row ;;
  db_query db (delete_statement i).

(** [update]: [t] is [time.time()] when it runs. *)
Definition update (t : Z) (db : gmap string (gmap string value))
    (row : gmap string value) : outcome (gmap string (gmap string value)) :=
  qv <- getitem row "query" ;;
  query <- lower_of qv ;;
  if Py.startswith (Py.strip query) "every" then
    upload_table db (<["last" := VDatetime t 0]> row)
  else if existsb (fun pre => Py.startswith (Py.strip query) pre)
                  ["in"; "on"; "this"; "next"] then
    delete_row db row
  else Return db.

(** [run] *)
Definition run (row : gmap string value) : outcome unit :=
  module <- getitem row "module" ;;
  func <- getitem row "func" ;;
  args_text <- getitem row "args" ;;
  args <- json_loads args_text ;;
  kwargs_text <- getitem row "kwargs" ;;
  kwargs <- json_loads kwargs_text ;;
  invoke module func args kwargs.

(** The body of the loop of [main] on one row: [now] is the clock when
    [ready] reads it, [t] when [update] does. *)
Definition process_row (now t : Z) (db : gmap string (gmap string value))
    (row : gmap string value) : outcome (gmap string (gmap string value)) :=
  match
    (qv <- getitem row "query" ;;
     query_syntax_checker qv ;;;
     due <- ready tz now row ;;
     if due : bool then run row ;;; update t db row else Return db)
  with
  | Raise (CronEventSyntaxError _) => delete_row db row
  | r => r
  end.

End Scheduler.

Arguments run {json} json_loads invoke row.
Arguments process_row {json} json_loads invoke db_query tz now t db row.

(** ** [event.py]: the log batcher *)

Module EventLogger.

(** One row of the table [cron_events_log]. *)
Record log_row : Type := {
  row_event_id : string;
  row_index : Z;
  row_line : string;
  row_utc_time : Z
}.

(** The logger and the world it runs in.  [buffer_log] and the three
    counters are the model's own: [flushes] lists the batches handed to
    [upload], one entry per call; [clock_reads] and [store_calls] count the
    calls of [time.time()] and of the store, [connections] the calls of
    [get_db()] after the first. *)
Record state : Type := {
  current_index : Z;
  last_log : Z;
  table : gmap (string * Z) log_row;
  clock_reads : nat;
  store_calls : nat;
  connections : nat;
  flushes : list (list (string * Z))
}.

(** A method: from a state to a result and the state it leaves. *)
Definition prog (A : Type) : Type := state -> outcome A * state.

Definition ret {A : Type} (a : A) : prog A := fun s => (Return a, s).

Definition raise {A : Type} (e : exn) : prog A := fun s => (Raise e, s).

Definition and_then {A B : Type} (m : prog A) (k : A -> prog B) : prog B :=
  fun s =>
    match m s with
    | (Return a, s') => k a s'
    | (Raise e, s') => (Raise e, s')
    end.

(** [try: m  except: h] *)
Definition except {A : Type} (m : prog A) (h : prog A) : prog A :=
  fun s =>
    match m s with
    | (Return a, s') => (Return a, s')
    | (Raise _, s') => h s'
    end.

Notation "x <~ m ;; k" := (and_then m (fun x => k))
  (at level 100, m at next level, right associativity).
Notation "m ;;, k" := (and_then m (fun _ => k))
  (at level 100, right associativity).

Section Logger.

(** The clock: the value of the [n]-th call of [time.time()]. *)
Variable clock : nat -> Z.

(** The store: whether its [n]-th call succeeds. *)
Variable store_ok : nat -> bool.

Variable event_id : string.

(** [time.time()] *)
Definition time_time : prog Z :=
  fun s =>
    (Return (clock (clock_reads s)),
     {| current_index := current_index s; last_log := last_log s;
        table := table s; clock_reads := S (clock_reads s);
        store_calls := store_calls s; connections := connections s;
        flushes := flushes s |}).

(** A call of the store that writes [rows] when it succeeds. *)
Definition store_call (rows : list log_row) : prog unit :=
  fun s =>
    let s' tbl :=
      {| current_index := current_index s; last_log := last_log s;
         table := tbl; clock_reads := clock_reads s;
         store_calls := S (store_calls s); connections := connections s;
         flushes := flushes s |} in
    if store_ok (store_calls s)
    then (Return tt,
          s' (fold_left (fun tbl r => <[(row_event_id r, row_index r) := r]> tbl)
                        rows (table s)))
    else (Raise StoreError, s' (table s)).

(** [self.db = cronevents.event_manager.get_db()] *)
Definition reconnect : prog unit :=
  fun s =>
    (Return tt,
     {| current_index := current_index s; last_log := last_log s;
        table := table s; clock_reads := clock_reads s;
        store_calls := store_calls s; connections := S (connections s);
        flushes := flushes s |}).

Definition set_current_index (i : Z) : prog unit :=
  fun s =>
    (Return tt,
     {| current_index := i; last_log := last_log s;
        table := table s; clock_reads := clock_reads s;
        store_calls := store_calls s; connections := connections s;
        flushes := flushes s |}).

Definition set_last_log (t : Z) : prog unit :=
  fun s =>
    (Return tt,
     {| current_index := current_index s; last_log := t;
        table := table s; clock_reads := clock_reads s;
        store_calls := store_calls s; connections := connections s;
        flushes := flushes s |}).

Definition note_flush (logs : list (string * Z)) : prog unit :=
  fun s =>
    (Return tt,
     {| current_index := current_index s; last_log := last_log s;
        table := table s; clock_reads := clock_reads s;
        store_calls := store_calls s; connections := connections s;
        flushes := List.app (flushes s) [logs] |}).

(** [upload_logs]: the upsert by [(event_id, index)], then the index
    statement. *)
Definition upload_logs (logs : list log_row) : prog unit :=
  match logs with
  | [] => ret tt
  | _ => store_call logs ;;, store_call []
  end.

(** [list(self.create_row(logs))] *)
Fixpoint create_row (logs : list (string * Z)) : prog (list log_row) :=
  match logs with
  | [] => ret []
  | (log, _) :: rest =>
      i <~ (fun s => (Return (current_index s + 1), s)) ;;
      set_current_index i ;;,
      now <~ time_time ;;
      rows <~ create_row rest ;;
      ret ({| row_event_id := event_id; row_index := i; row_line := log;
              row_utc_time := now |} :: rows)
  end.

(** [upload] *)
Definition upload (logs : list (string * Z)) : prog unit :=
  note_flush logs ;;,
  table <~ create_row logs ;;
  except (upload_logs table)
         (reconnect ;;, upload_logs table).

(** The loop of [logger] over the lines the queue delivers; the end of the
    list is the [None] that [stop_logger] puts after them. *)
Fixpoint logger_loop (queue : list string) (current_log : list (string * Z))
  : prog unit :=
  match queue with
  | [] =>
      match current_log with
      | [] => ret tt
      | _ => upload current_log
      end
  | log :: queue' =>
      t <~ time_time ;;
      let current_log := List.app current_log [(log, t)] in
      now <~ time_time ;;
      last <~ (fun s => (Return (last_log s), s)) ;;
      if (1 <? now - last) || (100 <? List.length current_log)%nat then
        upload current_log ;;,
        t' <~ time_time ;;
        set_last_log t' ;;,
        logger_loop queue' []
      else logger_loop queue' current_log
  end.

(** [logger] *)
Definition logger (queue : list string) : prog unit := logger_loop queue [].

(** [EventLogger(event_id)]: the state [__init__] leaves. *)
Definition init : state :=
  {| current_index := -1; last_log := clock 0%nat; table := ∅;
     clock_reads := 1; store_calls := 0; connections := 0; flushes := [] |}.

End Logger.

End EventLogger.

(** ** [event_manager.py]: the loop of [main] *)

Section Manager.

(** [json.loads], the launcher at each row, the store's [query], the
    host's offset from UTC, and the clock: [clock n] is its [n]-th
    reading. *)
Variable json : Type.
Variable json_loads : value -> outcome json.
Variable invoke : nat -> value -> value -> json -> json -> outcome unit.
Variable db_query :
  gmap string (gmap string value) -> string
  -> outcome (gmap string (gmap string value)).
Variable tz : Z -> Z.
Variable clock : nat -> Z.

(** The [for] loop of [main] over the rows that [download_table] returned,
    [n] rows being done.  A row reads the clock in [ready] and in [update].
    What a row raises, a [CronEventSyntaxError] apart, leaves the loop for
    the handler of [main], which prints it: the table keeps what the rows
    before have written. *)
Fixpoint main_rows (n : nat) (db : gmap string (gmap string value))
    (rows : list (gmap string value))
  : outcome unit * gmap string (gmap string value) :=
  match rows with
  | [] => (Return tt, db)
  | row :: rest =>
      match process_row json_loads (invoke n) db_query tz
                        (clock (2 * n)) (clock (2 * n + 1)) db row with
      | Return db' => main_rows (S n) db' rest
      | Raise e => (Raise e, db)
      end
  end.

End Manager.

Arguments main_rows {json} json_loads invoke db_query tz clock n db rows.

(** ** [event_manager.py]: registration *)

(** [f'{module}|{func}'] *)
Definition event_key (module func : string) : string :=
  module ++ "|" ++ func.

(** The row [create_event] writes; [args] and [kwargs] are the texts that
    [json.dumps] gives, [t] is [time.time()]. *)
Definition event_row (module func args kwargs query : string) (t : Z)
  : gmap string value :=
  <["id" := VStr (event_key module func)]>
    (<["query" := VStr query]>
       (<["last" := VDatetime t 0]>
          (<["module" := VStr module]>
             (<["func" := VStr func]>
                (<["args" := VStr args]>
                   (<["kwargs" := VStr kwargs]> ∅)))))).

(** [create_event] *)
Definition create_event (t : Z) (db : gmap string (gmap string value))
    (module func args kwargs query : string)
  : outcome (gmap string (gmap string value)) :=
  upload_table db (event_row module func args kwargs query t).

(** [db.upload_table('cronevents', vals, id_column='id')], row by row. *)
Fixpoint upload_rows (db : gmap string (gmap string value))
    (rows : list (gmap string value))
  : outcome (gmap string (gmap string value)) :=
  match rows with
  | [] => Return db
  | row :: rest => db' <- upload_table db row ;; upload_rows db' rest
  end.

(** [query != vals[0]['query']], [query] being a [str]. *)
Definition differs (query : string) (stored : value) : bool :=
  match stored with
  | VStr q => negb (String.eqb query q)
  | _ => true
  end.

Section Registration.

(** [REGISTER_CRON_EVENT] *)
Variable register : bool.

(** [db.download_table(sql="select * from cronevents where module=... and
    func=...")]: what the store answers for a module and a function. *)
Variable download :
  gmap string (gmap string value) -> string -> string
  -> outcome (list (gmap string value)).

(** The decorator [event(query, module, func, args, kwargs)] applied to a
    function whose file and name are [_module] and [_func]; it answers the
    table it leaves.  [args] and [kwargs] are the texts of
    [json.dumps(args or [])] and [json.dumps(kwargs or {})]. *)
Definition event (t : Z) (db : gmap string (gmap string value))
    (query : string) (module func : option string) (_module _func : string)
    (args kwargs : string) : outcome (gmap string (gmap string value)) :=
  if register then
    query_syntax_checker (VStr query) ;;;
    let module := match module with Some m => m | None => _module end in
    let func := match func with Some f => f | None => _func end in
    let vals := match download db module func with
                | Return vals => vals
                | Raise _ => []
                end in
    match vals with
    | first :: rest =>
        stored <- getitem first "query" ;;
        let first := if differs query stored
                     then <["last" := VDatetime t 0]> first else first in
        let first := <["query" := VStr query]> first in
        let first := <["args" := VStr args]> first in
        let first := <["kwargs" := VStr kwargs]> first in
        upload_rows db (first :: rest)
    | [] => create_event t db module func args kwargs query
    end
  else Return db.

End Registration.

(** * The vocabulary of the statements *)

(** A message of one of the three range tests. *)
Definition is_range_error (msg : string) : bool :=
  Py.startswith msg "Invalid hour value"
  || Py.startswith msg "Invalid minute value"
  || Py.startswith msg "Invalid second value".

(** The test [logger] makes after it has put a line in its buffer:
    [time.time() - self.last_log > 1 or len(current_log) > 100]. *)
Definition flush_due (last_log now : Z) (current_log : list (string * Z)) : bool :=
  (1 <? now - last_log) || (100 <? List.length current_log)%nat.

(** A row with another expression: [{**row, 'query': q}]. *)
Definition with_query (row : gmap string value) (q : string) : gmap string value :=
  <["query" := VStr q]> row.

(** The answer of [ready] as a truth value. *)
Definition due (tz : Z -> Z) (now : Z) (row : gmap string value) : bool :=
  match ready tz now row with
  | Return b => b
  | Raise _ => false
  end.



(** A result that is a return or a [CronEventSyntaxError]. *)
Definition returns_or_syntax_error {A : Type} (r : outcome A) : Prop :=
  match r with
  | Return _ => True
  | Raise (CronEventSyntaxError _) => True
  | Raise _ => False
  end.

(** The message holds one of the words of the expression. *)
Definition cites_a_word (msg query : string) : bool :=
  existsb (fun word => Py.contains word msg) (Py.split_ws query).

(** The two messages of the loop over the tokens. *)
Definition expected_number (token : string) : string :=
  "Expected number, got `" ++ token ++ "`".

Definition expected_unit (token : string) : string :=
  "Expected unit, got `" ++ token ++ "`. Available units " ++ Py.join ", " units.

(** The words of the duration body: the expression in lower case, without
    its starting token and its clock suffix, split at blanks. *)
Definition body_words (q : string) : list string :=
  let query := remove_starting_token (Py.lower q) STARTING_TOKENS in
  map Py.strip (Py.split_ws (if Py.contains "@" query
                             then Py.first (Py.split "@" query)
                             else query)).

(** ** Clauses as the grammar builds them *)

Inductive time_unit : Type := Day | Hour | Minute | Second.

Definition unit_name (u : time_unit) : string :=
  match u with
  | Day => "day"
  | Hour => "hour"
  | Minute => "minute"
  | Second => "second"
  end.

Definition unit_seconds (u : time_unit) : Z :=
  match u with
  | Day => 86400
  | Hour => 3600
  | Minute => 60
  | Second => 1
  end.

(** One (integer, unit) pair: the integer as it is written, the unit, and
    whether the unit is written in the plural. *)
Record term : Type := {
  amount : string;
  unit_of : time_unit;
  plural : bool
}.

Definition unit_word (t : term) : string :=
  unit_name (unit_of t) ++ (if plural t then "s" else "").

Definition term_text (t : term) : string :=
  " " ++ amount t ++ " " ++ unit_word t.

Fixpoint terms_text (ts : list term) : string :=
  match ts with
  | [] => ""
  | t :: ts' => term_text t ++ terms_text ts'
  end.

(** A word: no blank in it. *)
Definition is_word (w : string) : bool :=
  forallb (fun c => negb (Py.is_space c)) (list_ascii_of_string w).

(** The integer of a pair is a word that [int] reads. *)
Definition well_formed_term (t : term) : Prop :=
  is_int (amount t) = true /\ is_word (amount t) = true.

Definition amount_value (t : term) : Z :=
  match Py.int (amount t) with Some z => z | None => 0 end.

(** The sum of value * unitSeconds over the pairs. *)
Definition sum_seconds (ts : list term) : Z :=
  fold_right (fun t acc => amount_value t * unit_seconds (unit_of t) + acc) 0 ts.

(** A duration clause without clock suffix: a starting token, the pairs, and
    the pairs after [minus] when there is one. *)
Record duration_clause : Type := {
  start : string;
  body : list term;
  minus : option (list term)
}.

Definition clause_text (c : duration_clause) : string :=
  start c ++ terms_text (body c)
  ++ match minus c with
     | Some ms => " minus" ++ terms_text ms
     | None => ""
     end.

Definition well_formed (c : duration_clause) : Prop :=
  In (start c) STARTING_TOKENS
  /\ Forall well_formed_term (body c)
  /\ match minus c with
     | Some ms => Forall well_formed_term ms
     | None => True
     end.

(** A sum of seconds, or one day when it is not positive. *)
Definition or_one_day (v : Z) : Z := if 0 <? v then v else 86400.

(** durationSeconds: the sum over the pairs, less the sum over the pairs
    after [minus], each replaced by one day when it is not positive. *)
Definition duration_seconds (c : duration_clause) : Z :=
  or_one_day (sum_seconds (body c))
  - match minus c with
    | Some ms => or_one_day (sum_seconds ms)
    | None => 0
    end.

(** Each unit is named at most once. *)
Definition each_unit_once (ts : list term) : Prop :=
  List.NoDup (map unit_of ts).

(** The amounts the doubles of [parse_time] hold as they are written: up
    to 10^9 in absolute value, so that the products by the seconds of the
    units, and their sums, stay below 2^53. *)
Definition max_amount : Z := 1000000000.

Definition small_amounts (ts : list term) : Prop :=
  Forall (fun t => Z.abs (amount_value t) <= max_amount) ts.

Definition small_clause (c : duration_clause) : Prop :=
  small_amounts (body c)
  /\ match minus c with
     | Some ms => small_amounts ms
     | None => True
     end.

(** The characters of an integer literal. *)
Definition number_char (c : ascii) : bool :=
  Py.is_digit c || Ascii.eqb c "+" || Ascii.eqb c "-" || Ascii.eqb c "_".

Definition number_chars (w : string) : bool :=
  forallb number_char (list_ascii_of_string w).

(** No character of [w] is [x]. *)
Definition avoids (x : ascii) (w : string) : bool :=
  forallb (fun c => negb (Ascii.eqb x c)) (list_ascii_of_string w).

(** What may follow a word in a clause: the end, or a blank. *)
Definition at_boundary (s : string) : Prop :=
  s = "" \/ exists s', s = String " " s'.

Definition same_unit (u v : time_unit) : bool :=
  match u, v with
  | Day, Day | Hour, Hour | Minute, Minute | Second, Second => true
  | _, _ => false
  end.

(** The integer written before the first mention of a unit. *)
Fixpoint amount_of (u : time_unit) (ts : list term) : option string :=
  match ts with
  | [] => None
  | t :: ts' => if same_unit (unit_of t) u then Some (amount t) else amount_of u ts'
  end.

(** The patterns [ready] looks for that no duration body holds. *)
Definition foreign_patterns : list string :=
  "||" :: "@" :: "minus" :: DAYS_OF_THE_WEEK.

(** The value [parse_time] reads for a unit: the integer before its first
    mention, 0 when the unit is not named. *)
Definition unit_amount (u : time_unit) (ts : list term) : Z :=
  match amount_of u ts with
  | Some w => match Py.int w with Some z => z | None => 0 end
  | None => 0
  end.

(** The sum [parse_time] makes, unit by unit. *)
Definition sum_by_unit (ts : list term) : Z :=
  86400 * unit_amount Day ts + 3600 * unit_amount Hour ts
  + 60 * unit_amount Minute ts + 1 * unit_amount Second ts.

(** durationSeconds as [parse_time] counts it: on either side of [minus]
    each unit counts once, with the integer of its first mention, and a
    side whose sum is not positive counts one day. *)
Definition first_mention_seconds (c : duration_clause) : Z :=
  or_one_day (sum_by_unit (body c))
  - match minus c with
    | Some ms => or_one_day (sum_by_unit ms)
    | None => 0
    end.

(** The instant [ready] takes for lastFired: the stored instant with its
    own offset from UTC added once more, which is the stored instant for a
    row stored in UTC, as [update] stores it. *)
Definition last_fired (epoch utcoffset : Z) : Z := epoch + utcoffset.



(** A week-day clause: the starting token, the day, and the clock text after
    [@] when there is one. *)
Definition weekday_clause_text (start day : string) (clock : option string)
  : string :=
  start ++ " " ++ day
  ++ match clock with Some k => " @ " ++ k | None => "" end.

(** The expression names the week day [day] and no other. *)
Definition names_day (query day : string) : bool :=
  forallb (fun d => Bool.eqb (Py.contains d query) (String.eqb d day))
          DAYS_OF_THE_WEEK.

(** Whole days from [last] to [now], as [timedelta.days] counts them. *)
Definition days_between (now last : Z) : Z := (now - last) / 86400.

(** The UTC time of day of [now] has reached the clock value of the
    expression; an unreadable clock value is never reached. *)
Definition clock_reached (query : string) (now : Z) : bool :=
  match parse_time_timedelta query with
  | Return t => t <=? time_of_day now
  | Raise _ => false
  end.

(** The word [get_word_before_word] answers. *)
Definition word_read (word txt : string) : string :=
  match get_word_before_word word txt with
  | Return w => w
  | Raise _ => ""
  end.

(** What one unit adds to the seconds read so far. *)
Definition read_unit (unit_name : string) (seconds : Z) (s : string) (v : Z)
  : Z :=
  if Py.contains unit_name s
  then v + seconds * try_number (word_read unit_name s) 1
  else v.

(** What [parse_time] reads in a text it does not cut: the sum over the four
    units, or one day when that sum is not positive. *)
Definition units_value (s : string) : Z :=
  or_one_day
    (read_unit "second" 1 s
       (read_unit "minute" 60 s
          (read_unit "hour" 3600 s (read_unit "day" 86400 s 0)))).

(** The seconds of an expression: with [minus], what stands before the
    first [minus] less what stands after the last one. *)
Definition parsed_duration (s : string) : Z :=
  if Py.contains "minus" s
  then units_value (Py.first (Py.split "minus" s))
       - units_value (Py.final (Py.split "minus" s))
  else units_value s.

(** An expression that [ready] takes as a plain duration: no [||], no week
    day and no [@] in its lower case. *)
Definition plain_duration (q : string) : bool :=
  negb (Py.contains "||" (Py.lower q))
  && negb (existsb (fun d => Py.contains d (Py.lower q)) DAYS_OF_THE_WEEK)
  && negb (Py.contains "@" (Py.lower q)).

(** The words of a list of pairs, as [split] gives them. *)
Definition pair_words (ts : list term) : list string :=
  flat_map (fun t => [amount t; unit_word t]) ts.

(** Words that are an integer and a unit in turn. *)
Fixpoint number_unit_pairs (words : list string) : bool :=
  match words with
  | [] => true
  | number :: unit_ :: rest =>
      is_int number && is_unit unit_ && number_unit_pairs rest
  | _ => false
  end.

(** The duration body of an expression: its lower case without the starting
    token, up to [@] when there is one. *)
Definition body_text (q : string) : string :=
  let query := remove_starting_token (Py.lower q) STARTING_TOKENS in
  if Py.contains "@" query then Py.first (Py.split "@" query) else query.

(** The body holds a week day and nothing else but blanks. *)
Definition lone_weekday (body : string) : bool :=
  existsb (fun day => Py.contains day body
                      && String.eqb "" (Py.strip (Py.replace day "" body)))
          DAYS_OF_THE_WEEK.

(** The daily clause at the full hour [h]. *)
Definition daily_at_hour (h : Z) : string :=
  "every 1 day @ " ++ Py.str h ++ ":00:00".

(** The table has got the lines [lines] of the event [event_id] under the
    indices that follow [after], one by one, and nothing else has changed
    in it: [old] is the table before. *)
Definition stored_lines (event_id : string) (after : Z) (lines : list string)
    (old new : gmap (string * Z) EventLogger.log_row) : Prop :=
  (forall (k : nat) (line : string),
      nth_error lines k = Some line ->
      exists r, new !! (event_id, after + 1 + Z.of_nat k) = Some r
                /\ EventLogger.row_event_id r = event_id
                /\ EventLogger.row_index r = after + 1 + Z.of_nat k
                /\ EventLogger.row_line r = line)
  /\ (forall (e : string) (i : Z),
         e <> event_id \/ i <= after
         \/ after + Z.of_nat (List.length lines) < i ->
         new !! (e, i) = old !! (e, i)).

(** A word that [int] reads. *)
Definition integer_word (w : string) : bool := is_int w && is_word w.

(** The store's contract for the statement of [delete_row]: with an id
    that holds no quote, the row of that id is deleted and no other. *)
Definition deletes_by_id
    (db_query : gmap string (gmap string value) -> string
                -> outcome (gmap string (gmap string value))) : Prop :=
  forall (db : gmap string (gmap string value)) (i : string),
    avoids "'" i = true ->
    db_query db (delete_statement i) = Return (delete i db).

(** A store that keeps this contract and refuses every other statement: a
    literal cut short by a quote inside the id leaves text that is no SQL. *)
Definition plain_store (db : gmap string (gmap string value)) (sql : string)
  : outcome (gmap string (gmap string value)) :=
  match Py.removeprefix "delete from cronevents where id = '" sql with
  | Some rest =>
      match Py.cut "'" rest with
      | Some (i, EmptyString) => Return (delete i db)
      | _ => Raise StoreError
      end
  | None => Raise StoreError
  end.

(** The message for a number that no unit follows. *)
Definition dangling_number : string :=
  "Expected unit, got end of query. Please add a unit or remove the last number. Units: "
  ++ Py.join ", " units.

(** The clock text as the clock checker reads its fields: without [am] and
    [pm], trimmed. *)
Definition clock_digits (at_ : string) : string :=
  Py.strip (Py.replace "pm" "" (Py.replace "am" "" at_)).

(** The messages of the validator that hold no part of the expression. *)
Definition fixed_messages : list string :=
  [ "Query must start with one: every, in, on";
    "Only one @ is allowed";
    "Only one am/pm is allowed";
    "Invalid am format near `am`";
    "Invalid pm format near `pm`";
    "Invalid time format. Max use of `:` is 2";
    dangling_number ].

(** The messages of the validator that hold a part of the duration body
    [body]: one of its words, the body itself, or a week day found in it. *)
Definition cites_body (body msg : string) : Prop :=
  (exists word, In word (map Py.strip (Py.split_ws body))
                /\ (msg = expected_number word \/ msg = expected_unit word))
  \/ (exists side, In side ["before"; "after"]
        /\ (msg = "No unit found in " ++ side ++ " minus `" ++ body ++ "`"
            \/ msg = "No number found in " ++ side ++ " minus `" ++ body ++ "`"))
  \/ (exists day, In day DAYS_OF_THE_WEEK
        /\ Py.contains day body = true
        /\ (msg = "Only one " ++ day ++ " is allowed"
            \/ msg = "Invalid format. Using day of the week cannot contain other values. (remove: `"
                     ++ Py.replace day "" body ++ "` from `" ++ body ++ "`")).

(** The messages of the validator that hold a part of the clause [q]: a
    part of its duration body, or the clock text after [@]. *)
Definition cites_fragment (q msg : string) : Prop :=
  cites_body (body_text q) msg
  \/ (exists at_,
        Py.split "@" (remove_starting_token (Py.lower q) STARTING_TOKENS)
        = [body_text q; at_]
        /\ msg = "Non-int value for time found: `" ++ clock_digits at_ ++ "`").

(** The words the loop over the tokens goes through: the words of the
    duration body without the first [minus]. *)
Definition loop_words (q : string) : list string :=
  remove_minus (body_words q).

(** The clause [q] passes every check the validator makes before its loop
    over the tokens: it holds no [||], begins with a starting token and a
    blank, its clock suffix, when it has one, passes the clock checker, its
    body names no week day, and with [minus] among its words there is a
    unit and an integer on either side. *)
Definition reaches_token_loop (q : string) : Prop :=
  let query := remove_starting_token (Py.lower q) STARTING_TOKENS in
  Py.contains "||" q = false
  /\ existsb (fun token => Py.startswith (Py.strip (Py.lower q)) (token ++ " "))
             STARTING_TOKENS = true
  /\ (Py.contains "@" query = true ->
      exists body at_, Py.split "@" query = [body; at_]
                       /\ query_at_time_syntax_checker at_ = Return tt)
  /\ (forall day, In day DAYS_OF_THE_WEEK ->
                  Py.contains day (body_text q) = false)
  /\ (existsb (String.eqb "minus") (body_words q) = true ->
      forall side,
        In side [before_minus (body_words q); after_minus (body_words q)] ->
        existsb is_unit side = true /\ existsb is_int side = true).

(** * Properties *)

(** ** The clock checker's range tests *)

Lemma chained_lt_empty (a x b : Z) : b <= a + 1 -> chained_lt a x b = false.
Proof.
  intros Hba. unfold chained_lt.
  destruct (Z.ltb_spec a x) as [Hax | Hax]; [| reflexivity].
  destruct (Z.ltb_spec x b) as [Hxb | Hxb]; [lia | reflexivity].
Qed.

(** C8. Whatever the clock suffix, and whatever the size of the hour,
    minute and second it holds, the checker never raises one of the three
    range errors: the tests [23 < hour < 0], [59 < minute < 0] and
    [59 < second < 0] are false for every integer. *)
Theorem range_checks_unreachable :
  (forall hour minute second : Z,
      chained_lt 23 hour 0 = false /\ chained_lt 59 minute 0 = false
      /\ chained_lt 59 second 0 = false)
  /\ forall at_ : string,
      match query_at_time_syntax_checker at_ with
      | Raise (CronEventSyntaxError msg) => is_range_error msg = false
      | _ => True
      end.
Proof.
  split.
  - intros. repeat split; apply chained_lt_empty; lia.
  - intros at_. unfold query_at_time_syntax_checker, int_or_ValueError.
    repeat
      (cbn [bind try_except syntax_error negb];
       rewrite ?chained_lt_empty by lia;
       try match goal with
         | |- context [Py.split ":" ?x] =>
             destruct (Py.split ":" x) as [| ? [| ? [| ? [| ? ?]]]]
         | |- context [match Py.int ?x with _ => _ end] => destruct (Py.int x)
         | |- context [if ?b then _ else _] => destruct b
         end);
      solve [exact I | reflexivity].
Qed.

(** ** The evaluator never raises *)

Lemma ready_at_unfold (depth : nat) (tz : Z -> Z) (now : Z)
    (row : gmap string value) :
  ready_at depth tz now row =
  try_except
    (ready_body (match depth with
                 | O => None
                 | S d => Some (ready_at d tz now)
                 end) tz now row)
    (fun _ => Return false).
Proof. destruct depth; reflexivity. Qed.

(** Rows with a field missing or of the wrong type, and clock suffixes that
    do not parse, make the body of [ready] raise. *)
Example ready_body_raises :
  ready_body None (fun _ => 0) 0 ∅ = Raise (KeyError "query")
  /\ ready_body None (fun _ => 0) 0 (<["query" := VNone]> ∅) = Raise AttributeError
  /\ ready_body None (fun _ => 0) 0
       (<["query" := VStr "every 1 day"]> (<["last" := VStr "yesterday"]> ∅))
     = Raise AttributeError
  /\ ready_body None (fun _ => 0) 0
       (<["query" := VStr "every 1 day @ x:30pm"]> (<["last" := VDatetime 0 0]> ∅))
     = Raise ValueError
  /\ ready_body None (fun _ => 0) 0
       (<["query" := VStr "every 1 day @ 25:00"]> (<["last" := VDatetime 0 0]> ∅))
     = Raise ValueError.
Proof. repeat split; vm_compute; reflexivity. Qed.


(** ** The log batcher *)

Section LoggerFacts.

Import EventLogger.

Variable clock : nat -> Z.
Variable store_ok : nat -> bool.
Variable event_id : string.

Lemma create_row_returns (logs : list (string * Z)) (s : state) :
  exists rows s',
    create_row clock event_id logs s = (Return rows, s')
    /\ flushes s' = flushes s /\ store_calls s' = store_calls s
    /\ connections s' = connections s /\ table s' = table s
    /\ last_log s' = last_log s
    /\ map row_line rows = map fst logs.
Proof.
  revert s. induction logs as [| [log t] logs IH]; intros s.
  - exists [], s. cbn. auto 10.
  - cbn [create_row]. unfold and_then, set_current_index, time_time, ret. cbn.
    match goal with |- context [create_row _ _ logs ?s1] =>
      destruct (IH s1) as (rows & s' & Hrun & Hf & Hc & Hn & Ht & Hl & Hrows)
    end.
    rewrite Hrun. cbn.
    eexists _, s'. split; [reflexivity |]. cbn in *.
    rewrite Hrows. auto 10.
Qed.

Lemma upload_logs_frame (rows : list log_row) (s : state) :
  let r := upload_logs store_ok rows s in
  flushes (snd r) = flushes s /\ connections (snd r) = connections s
  /\ last_log (snd r) = last_log s
  /\ (store_calls s <= store_calls (snd r) <= store_calls s + 2)%nat.
Proof.
  destruct rows as [| row rows]; cbn.
  - repeat split; lia.
  - unfold and_then, store_call.
    destruct (store_ok (store_calls s)); cbn;
      [destruct (store_ok (S (store_calls s))) |]; cbn; repeat split; lia.
Qed.

Lemma upload_run (logs : list (string * Z)) (s : state) :
  exists rows s1,
    create_row clock event_id logs (snd (note_flush logs s)) = (Return rows, s1)
    /\ map row_line rows = map fst logs
    /\ flushes s1 = List.app (flushes s) [logs]
    /\ connections s1 = connections s /\ store_calls s1 = store_calls s
    /\ last_log s1 = last_log s
    /\ upload clock store_ok event_id logs s =
       match upload_logs store_ok rows s1 with
       | (Return a, s2) => (Return a, s2)
       | (Raise _, s2) => upload_logs store_ok rows (snd (reconnect s2))
       end.
Proof.
  destruct (create_row_returns logs (snd (note_flush logs s)))
    as (rows & s1 & Hrun & Hf & Hc & Hn & Ht & Hl & Hrows).
  exists rows, s1. cbn in Hrun, Hf, Hc, Hn, Hl.
  repeat (split; [assumption |]).
  unfold upload, and_then, except, note_flush, reconnect. cbn beta iota.
  rewrite Hrun.
  destruct (upload_logs store_ok rows s1) as [[[] | e] s2]; reflexivity.
Qed.


Lemma upload_returns_when_store_ok (logs : list (string * Z)) (s : state) :
  (forall n, store_ok n = true) ->
  exists s', upload clock store_ok event_id logs s = (Return tt, s')
             /\ flushes s' = List.app (flushes s) [logs]
             /\ last_log s' = last_log s.
Proof.
  intros Hok.
  destruct (upload_run logs s) as (rows & s1 & _ & _ & Hf & _ & _ & Hl & Hup).
  pose proof (upload_logs_frame rows s1) as (Hf' & _ & Hl' & _).
  rewrite Hup.
  assert (Hret : fst (upload_logs store_ok rows s1) = Return tt).
  { destruct rows; cbn; [reflexivity |].
    unfold and_then, store_call. rewrite ?Hok. cbn. rewrite ?Hok. reflexivity. }
  destruct (upload_logs store_ok rows s1) as [[[] | e] s2]; cbn in *; [| discriminate].
  exists s2. rewrite Hf', Hl'. auto.
Qed.

End LoggerFacts.

(** The state after the two readings of the clock that [logger] makes when
    it takes a line. *)
Lemma logger_loop_line (clock : nat -> Z) (store_ok : nat -> bool)
    (event_id log : string) (queue : list string)
    (buf : list (string * Z)) (s : EventLogger.state) :
  let t := clock (EventLogger.clock_reads s) in
  let now := clock (S (EventLogger.clock_reads s)) in
  let batch := List.app buf [(log, t)] in
  let s2 := snd (EventLogger.time_time clock (snd (EventLogger.time_time clock s))) in
  EventLogger.logger_loop clock store_ok event_id (log :: queue) buf s =
  if flush_due (EventLogger.last_log s) now batch then
    match EventLogger.upload clock store_ok event_id batch s2 with
    | (Return _, s3) =>
        EventLogger.logger_loop clock store_ok event_id queue []
          (snd (EventLogger.set_last_log (clock (EventLogger.clock_reads s3))
                  (snd (EventLogger.time_time clock s3))))
    | (Raise e, s3) => (Raise e, s3)
    end
  else EventLogger.logger_loop clock store_ok event_id queue batch s2.
Proof.
  cbn [EventLogger.logger_loop]. unfold flush_due.
  unfold EventLogger.and_then at 1. unfold EventLogger.time_time at 1.
  cbn beta iota.
  unfold EventLogger.and_then at 1. unfold EventLogger.time_time at 1.
  cbn beta iota.
  unfold EventLogger.and_then at 1. cbn beta iota.
  unfold EventLogger.time_time at 1 2. cbn [snd fst].
  cbn [EventLogger.clock_reads EventLogger.last_log].
  destruct (_ || _); [| reflexivity].
  unfold EventLogger.and_then at 1.
  destruct (EventLogger.upload _ _ _ _ _) as [[[] | e] s3]; reflexivity.
Qed.

Lemma logger_loop_complete (clock : nat -> Z) (event_id : string)
    (queue : list string) :
  forall (buf : list (string * Z)) (s : EventLogger.state),
    (List.length buf <= 100)%nat ->
    exists s' new,
      EventLogger.logger_loop clock (fun _ => true) event_id queue buf s
      = (Return tt, s')
      /\ EventLogger.flushes s' = List.app (EventLogger.flushes s) new
      /\ map fst (concat new) = List.app (map fst buf) queue
      /\ Forall (fun batch => (1 <= List.length batch <= 101)%nat) new.
Proof.
  induction queue as [| log queue IH]; intros buf s Hbuf.
  - destruct buf as [| entry buf].
    + exists s, []. cbn. rewrite app_nil_r. auto.
    + cbn [EventLogger.logger_loop].
      destruct (upload_returns_when_store_ok clock (fun _ => true) event_id
                  (entry :: buf) s) as (s' & Hrun & Hf & _); [reflexivity |].
      exists s', [entry :: buf]. rewrite Hrun, Hf. cbn [concat].
      rewrite !app_nil_r. repeat split; trivial.
      constructor; [cbn in *; lia | constructor].
  - rewrite logger_loop_line.
    set (batch := List.app buf [(log, clock (EventLogger.clock_reads s))]).
    assert (Hlen : List.length batch = S (List.length buf)).
    { unfold batch. rewrite length_app. cbn. lia. }
    destruct (flush_due _ _ batch) eqn:Hdue.
    + match goal with |- context [EventLogger.upload _ _ _ _ ?s2] =>
        destruct (upload_returns_when_store_ok clock (fun _ => true) event_id
                    batch s2) as (s3 & Hrun & Hf & _); [reflexivity |]
      end.
      rewrite Hrun.
      match goal with |- context [EventLogger.logger_loop _ _ _ queue [] ?s4] =>
        destruct (IH [] s4) as (s' & new & Hloop & Hf' & Hcat & Hall);
          [cbn; lia |]
      end.
      exists s', (batch :: new). rewrite Hloop. cbn in Hf', Hf.
      rewrite Hf', Hf. cbn [concat].
      split; [reflexivity |]. split; [now rewrite <- app_assoc |].
      split; [| constructor; [lia | assumption]].
      rewrite List.map_app, Hcat. unfold batch. rewrite List.map_app.
      cbn [map fst app]. now rewrite <- app_assoc.
    + assert (Hsmall : (List.length batch <= 100)%nat).
      { unfold flush_due in Hdue. apply orb_false_iff in Hdue as [_ Hn].
        apply Nat.ltb_ge in Hn. exact Hn. }
      match goal with |- context [EventLogger.logger_loop _ _ _ queue batch ?s2] =>
        destruct (IH batch s2 Hsmall) as (s' & new & Hloop & Hf' & Hcat & Hall)
      end.
      exists s', new. rewrite Hloop. cbn in Hf'. rewrite Hf', Hcat.
      split; [reflexivity |]. split; [reflexivity |]. split; [| assumption].
      unfold batch. rewrite List.map_app. cbn [map fst app].
      now rewrite <- app_assoc.
Qed.

(** A store that fails twice and then works: the worker ends at the first
    flush, and the line that follows is never read. *)
Lemma second_failure_ends_logger :
  let clock := fun n : nat => 2 * Z.of_nat n in
  let store_ok := fun n : nat => (2 <=? n)%nat in
  let r := EventLogger.logger clock store_ok "e" ["a"; "b"]
             (EventLogger.init clock) in
  fst r = Raise StoreError
  /\ EventLogger.flushes (snd r) = [[("a", 2)]]
  /\ EventLogger.table (snd r) = ∅
  /\ EventLogger.store_calls (snd r) = 2%nat.
Proof. vm_compute. auto. Qed.

(** C10, as the code has it.  A call of [upload] makes one attempt; when it
    fails, [upload] takes a new store handle once and makes a second attempt
    with the same rows, and the result of that attempt is the result of
    [upload]: at most two attempts, one reconnection, four calls of the
    store.  When the second attempt fails too, the exception leaves
    [upload] and ends [logger]: no line after it is read. *)
Theorem upload_retries_once (clock : nat -> Z) (store_ok : nat -> bool)
    (event_id : string) :
  (forall (logs : list (string * Z)) (s : EventLogger.state),
      let r := EventLogger.upload clock store_ok event_id logs s in
      (exists rows s1,
          EventLogger.create_row clock event_id logs
            (snd (EventLogger.note_flush logs s)) = (Return rows, s1)
          /\ r = match EventLogger.upload_logs store_ok rows s1 with
                 | (Return a, s2) => (Return a, s2)
                 | (Raise _, s2) =>
                     EventLogger.upload_logs store_ok rows
                       (snd (EventLogger.reconnect s2))
                 end)
      /\ (EventLogger.connections (snd r) <= S (EventLogger.connections s))%nat
      /\ (EventLogger.store_calls (snd r) <= EventLogger.store_calls s + 4)%nat
      /\ match fst r with
         | Raise _ => EventLogger.connections (snd r)
                      = S (EventLogger.connections s)
         | Return _ => True
         end)
  /\ (forall (log : string) (queue : list string) (buf : list (string * Z))
         (s : EventLogger.state),
         let t := clock (EventLogger.clock_reads s) in
         let now := clock (S (EventLogger.clock_reads s)) in
         let batch := List.app buf [(log, t)] in
         let s2 := snd (EventLogger.time_time clock
                          (snd (EventLogger.time_time clock s))) in
         if flush_due (EventLogger.last_log s) now batch then
           match EventLogger.upload clock store_ok event_id batch s2 with
           | (Raise e, s3) =>
               EventLogger.logger_loop clock store_ok event_id (log :: queue) buf s
               = (Raise e, s3)
           | _ => True
           end
         else True).
Proof.
  split.
  - intros logs s r.
    destruct (upload_run clock store_ok event_id logs s)
      as (rows & s1 & Hrun & _ & _ & Hc & Hn & _ & Hup).
    pose proof (upload_logs_frame store_ok rows s1) as (_ & Hc1 & _ & Hn1).
    split; [exists rows, s1; auto |].
    subst r. rewrite Hup.
    destruct (EventLogger.upload_logs store_ok rows s1) as [[[] | e] s2];
      cbn [snd fst] in *.
    + repeat split; lia.
    + pose proof (upload_logs_frame store_ok rows (snd (EventLogger.reconnect s2)))
        as (_ & Hc2 & _ & Hn2).
      cbn zeta in Hc2, Hn2. unfold EventLogger.reconnect in *.
      cbn [snd EventLogger.connections EventLogger.store_calls] in *.
      repeat split; try lia.
      match goal with |- match ?x with _ => _ end => destruct x end;
        [exact I | lia].
  - intros log queue buf s t now batch s2.
    pose proof (logger_loop_line clock store_ok event_id log queue buf s) as Hline.
    cbv zeta in Hline. fold t now batch s2 in Hline.
    destruct (flush_due _ now batch); [| exact I].
    destruct (EventLogger.upload clock store_ok event_id batch s2)
      as [[[] | e] s3]; [exact I | exact Hline].
Qed.

(** ** Facts about the text primitives *)

#[local] Arguments String.append !s1 s2 : simpl nomatch.

Lemma append_assoc (a b c : string) : (a ++ b) ++ c = a ++ (b ++ c).
Proof. induction a as [| x a IH]; cbn; [reflexivity | now rewrite IH]. Qed.

Lemma append_nil_r (a : string) : a ++ "" = a.
Proof. induction a as [| x a IH]; cbn; [reflexivity | now rewrite IH]. Qed.

Lemma length_append (a b : string) :
  String.length (a ++ b) = (String.length a + String.length b)%nat.
Proof. induction a as [| x a IH]; cbn; [reflexivity | now rewrite IH]. Qed.

Lemma startswith_nil (s : string) : Py.startswith s "" = true.
Proof. destruct s; reflexivity. Qed.

Lemma startswith_app (p s : string) : Py.startswith (p ++ s) p = true.
Proof.
  induction p as [| c p IH]; cbn; [reflexivity |].
  now rewrite Ascii.eqb_refl, IH.
Qed.

Lemma startswith_app_l (x y p : string) :
  Py.startswith x p = true -> Py.startswith (x ++ y) p = true.
Proof.
  revert x. induction p as [| c p IH]; intros x H; [apply startswith_nil |].
  destruct x as [| d x]; cbn in *; [discriminate |].
  apply andb_true_iff in H as [Hc Hp]. now rewrite Hc, IH.
Qed.

Lemma startswith_spec (s p : string) :
  Py.startswith s p = true <-> exists r, s = p ++ r.
Proof.
  split.
  - revert s. induction p as [| c p IH]; intros s H; [exists s; reflexivity |].
    destruct s as [| d s]; cbn in H; [discriminate |].
    apply andb_true_iff in H as [Hc Hp]. apply Ascii.eqb_eq in Hc as ->.
    destruct (IH s Hp) as [r ->]. now exists r.
  - intros [r ->]. apply startswith_app.
Qed.


Lemma removeprefix_spec (p s : string) :
  match Py.removeprefix p s with
  | Some r => s = p ++ r
  | None => Py.startswith s p = false
  end.
Proof.
  revert s. induction p as [| c p IH]; intros s; cbn; [reflexivity |].
  destruct s as [| d s]; [reflexivity |].
  destruct (Ascii.eqb_spec c d) as [-> | Hne]; cbn; [| reflexivity].
  specialize (IH s). destruct (Py.removeprefix p s); [now subst | exact IH].
Qed.

Lemma contains_app_r (p a b : string) :
  Py.contains p b = true -> Py.contains p (a ++ b) = true.
Proof.
  intros H. induction a as [| c a IH]; cbn; [exact H |].
  rewrite IH. apply orb_true_r.
Qed.

Lemma contains_app_l (p a b : string) :
  Py.contains p a = true -> Py.contains p (a ++ b) = true.
Proof.
  induction a as [| c a IH]; intros H.
  - destruct p; cbn in H; [| discriminate]. destruct b; reflexivity.
  - cbn [Py.contains] in H. apply orb_true_iff in H as [H | H].
    + change (String c a ++ b) with (String c (a ++ b)). cbn [Py.contains].
      change (String c (a ++ b)) with (String c a ++ b).
      now rewrite (startswith_app_l _ b _ H).
    + cbn. rewrite (IH H). apply orb_true_r.
Qed.

Lemma contains_spec (p s : string) :
  Py.contains p s = true <-> exists a b, s = a ++ p ++ b.
Proof.
  split.
  - induction s as [| c s IH]; cbn [Py.contains]; intros H.
    + rewrite orb_false_r in H. apply startswith_spec in H as [r ->].
      now exists "", r.
    + apply orb_true_iff in H as [H | H].
      * apply startswith_spec in H as [r ->]. now exists "", r.
      * destruct (IH H) as (a & b & ->). now exists (String c a), b.
  - intros (a & b & ->). apply contains_app_r, contains_app_l.
    destruct p; [reflexivity |]. cbn. rewrite Ascii.eqb_refl.
    destruct p; cbn; [reflexivity |].
    cbn. rewrite Ascii.eqb_refl.
    rewrite (proj2 (startswith_spec p p)); [reflexivity |].
    exists "". now rewrite append_nil_r.
Qed.

(** [cut] finds the leftmost occurrence. *)
Lemma cut_spec (p s : string) :
  match Py.cut p s with
  | Some (a, b) => s = a ++ p ++ b /\ (p <> "" -> Py.contains p a = false)
  | None => Py.contains p s = false
  end.
Proof.
  induction s as [| c s IH]; cbn [Py.cut Py.contains].
  - pose proof (removeprefix_spec p "") as Hp.
    destruct (Py.removeprefix p ""); [| now rewrite Hp].
    split; [exact Hp | intros Hne; destruct p; [congruence | reflexivity]].
  - pose proof (removeprefix_spec p (String c s)) as Hp.
    destruct (Py.removeprefix p (String c s)) as [r |].
    + split; [exact Hp | intros Hne; destruct p; [congruence | reflexivity]].
    + rewrite Hp. cbn [orb].
      destruct (Py.cut p s) as [[a b] |]; [| exact IH].
      destruct IH as [-> Hclean]. split; [reflexivity |].
      intros Hne. cbn [Py.contains]. rewrite (Hclean Hne), orb_false_r.
      destruct (Py.startswith (String c a) p) eqn:Hs; [| reflexivity].
      apply (startswith_app_l _ (p ++ b)) in Hs. cbn in Hs, Hp. congruence.
Qed.

Lemma cut_length (p s a b : string) :
  Py.cut p s = Some (a, b) ->
  String.length s = (String.length a + String.length p + String.length b)%nat.
Proof.
  intros H. pose proof (cut_spec p s) as Hs. rewrite H in Hs.
  destruct Hs as [-> _]. rewrite !length_append. lia.
Qed.

(** Enough cuts: the bound of [split_upto] does not matter once it reaches
    the length of the text. *)
Lemma split_upto_enough (p : string) (n : nat) :
  p <> "" -> forall (m : nat) (s : string),
    (String.length s <= n)%nat -> (String.length s <= m)%nat ->
    Py.split_upto n p s = Py.split_upto m p s.
Proof.
  intros Hp. induction n as [| n IH]; intros m s Hn Hm.
  - destruct s; [| cbn in Hn; lia].
    destruct m; cbn; [reflexivity |]. destruct p; [congruence | reflexivity].
  - destruct m as [| m].
    + destruct s; [| cbn in Hm; lia].
      cbn. destruct p; [congruence | reflexivity].
    + cbn [Py.split_upto].
      destruct (Py.cut p s) as [[a b] |] eqn:Hcut; [| reflexivity].
      pose proof (cut_length _ _ _ _ Hcut) as Hlen.
      assert (0 < String.length p)%nat by (destruct p; [congruence | cbn; lia]).
      f_equal. apply IH; lia.
Qed.

Lemma split_cut_none (p s : string) :
  Py.cut p s = None -> Py.split p s = [s].
Proof.
  intros H. unfold Py.split.
  destruct (String.length s); cbn; [reflexivity | now rewrite H].
Qed.

Lemma split_cut_some (p s a b : string) :
  p <> "" -> Py.cut p s = Some (a, b) -> Py.split p s = a :: Py.split p b.
Proof.
  intros Hp H. unfold Py.split.
  pose proof (cut_length _ _ _ _ H) as Hlen.
  assert (0 < String.length p)%nat by (destruct p; [congruence | cbn; lia]).
  destruct (String.length s) as [| n] eqn:Hs; [lia |].
  cbn [Py.split_upto]. rewrite H. f_equal.
  apply split_upto_enough; [assumption | lia | lia].
Qed.

(** No piece of [s.split(p)] holds [p]. *)
Lemma split_pieces_clean (p : string) :
  p <> "" -> forall (s x : string),
    In x (Py.split p s) -> Py.contains p x = false.
Proof.
  intros Hp s. remember (String.length s) as n eqn:Hn.
  revert s Hn. induction n as [n IH] using lt_wf_ind. intros s Hn x Hx.
  pose proof (cut_spec p s) as Hcut.
  destruct (Py.cut p s) as [[a b] |] eqn:Hc.
  - rewrite (split_cut_some _ _ _ _ Hp Hc) in Hx.
    destruct Hcut as [Hs Hclean]. destruct Hx as [<- | Hx]; [auto |].
    pose proof (cut_length _ _ _ _ Hc) as Hlen.
    assert (0 < String.length p)%nat by (destruct p; [congruence | cbn; lia]).
    apply (IH (String.length b)) with (s := b); [lia | reflexivity | exact Hx].
  - rewrite (split_cut_none _ _ Hc) in Hx. destruct Hx as [<- | []]. exact Hcut.
Qed.

Lemma is_space_lower_char (c : ascii) :
  Py.is_space (Py.lower_char c) = Py.is_space c.
Proof. destruct c as [[] [] [] [] [] [] [] []]; reflexivity. Qed.

Lemma lower_char_idem (c : ascii) :
  Py.lower_char (Py.lower_char c) = Py.lower_char c.
Proof. destruct c as [[] [] [] [] [] [] [] []]; reflexivity. Qed.

Lemma lower_char_bar (c : ascii) :
  Ascii.eqb "|" (Py.lower_char c) = Ascii.eqb "|" c.
Proof. destruct c as [[] [] [] [] [] [] [] []]; reflexivity. Qed.

Lemma lower_app (a b : string) : Py.lower (a ++ b) = Py.lower a ++ Py.lower b.
Proof. induction a as [| c a IH]; cbn; [reflexivity | now rewrite IH]. Qed.

Lemma lower_idem (s : string) : Py.lower (Py.lower s) = Py.lower s.
Proof.
  induction s as [| c s IH]; cbn; [reflexivity |].
  now rewrite lower_char_idem, IH.
Qed.

Lemma lower_lstrip (s : string) : Py.lower (Py.lstrip s) = Py.lstrip (Py.lower s).
Proof.
  induction s as [| c s IH]; cbn; [reflexivity |].
  rewrite is_space_lower_char. destruct (Py.is_space c); [exact IH | reflexivity].
Qed.

Lemma lower_rstrip (s : string) : Py.lower (Py.rstrip s) = Py.rstrip (Py.lower s).
Proof.
  induction s as [| c s IH]; cbn; [reflexivity |].
  rewrite <- IH, is_space_lower_char.
  destruct (Py.rstrip s); cbn; [destruct (Py.is_space c) |]; reflexivity.
Qed.

Lemma lower_strip (s : string) : Py.lower (Py.strip s) = Py.strip (Py.lower s).
Proof. unfold Py.strip. now rewrite lower_rstrip, lower_lstrip. Qed.

Lemma contains_bars_lower (s : string) :
  Py.contains "||" (Py.lower s) = Py.contains "||" s.
Proof.
  induction s as [| c s IH]; [reflexivity |].
  cbn [Py.lower Py.contains]. rewrite IH. f_equal.
  cbn [Py.startswith]. rewrite lower_char_bar.
  destruct s as [| d s]; cbn [Py.lower Py.startswith]; [reflexivity |].
  now rewrite lower_char_bar.
Qed.

Lemma rstrip_prefix (s : string) : exists w, s = Py.rstrip s ++ w.
Proof.
  induction s as [| c s [w IH]]; [now exists "" |].
  cbn. destruct (Py.rstrip s) eqn:Hr.
  - destruct (Py.is_space c); [now exists (String c s) |].
    exists s. reflexivity.
  - exists w. cbn in *. congruence.
Qed.

Lemma lstrip_suffix (s : string) : exists w, s = w ++ Py.lstrip s.
Proof.
  induction s as [| c s [w IH]]; [now exists "" |].
  cbn. destruct (Py.is_space c); [| now exists ""].
  exists (String c w). cbn. now rewrite <- IH.
Qed.

Lemma contains_strip (p s : string) :
  Py.contains p (Py.strip s) = true -> Py.contains p s = true.
Proof.
  unfold Py.strip. intros (a & b & H)%contains_spec.
  destruct (lstrip_suffix s) as [w1 H1].
  destruct (rstrip_prefix (Py.lstrip s)) as [w2 H2].
  apply contains_spec. exists (w1 ++ a), (b ++ w2).
  rewrite H1 at 1. rewrite H2 at 1. rewrite H.
  now rewrite !append_assoc.
Qed.

Lemma rstrip_cons (c : ascii) (s : string) :
  Py.is_space c = false -> Py.rstrip (String c s) = String c (Py.rstrip s).
Proof. intros H. cbn. rewrite H. destruct (Py.rstrip s); reflexivity. Qed.



(** ** Composition with [||] *)











Example or_one_true_one_false :
  let row : gmap string value := <["last" := VDatetime 0 0]> ∅ in
  due (fun _ => 0) 7201 (with_query row "every 2 hours") = true
  /\ due (fun _ => 0) 7201 (with_query row "every 3 hours") = false
  /\ due (fun _ => 0) 7201 (with_query row "every 2 hours || every 3 hours") = true
  /\ due (fun _ => 0) 7201 (with_query row "every 3 hours || every 2 hours") = true
  /\ due (fun _ => 0) 7201 (with_query row "every 3 hours || every 4 hours") = false.
Proof. vm_compute. auto. Qed.

(** ** The first word of an expression the validator accepts *)




Lemma rstrip_app_word (word u : string) :
  forallb (fun c => negb (Py.is_space c)) (list_ascii_of_string word) = true ->
  Py.rstrip (word ++ u) = word ++ Py.rstrip u.
Proof.
  induction word as [| c word IH]; intros H; [reflexivity |].
  cbn in H. apply andb_true_iff in H as [Hc Hw]. apply negb_true_iff in Hc.
  change (String c word ++ u) with (String c (word ++ u)).
  rewrite rstrip_cons by assumption. now rewrite IH.
Qed.



(** The first piece of a split is a prefix of the text. *)
Lemma split_first_prefix (p s : string) :
  p <> "" -> exists rest tail,
    Py.split p s = rest :: tail /\ exists w, s = rest ++ w.
Proof.
  intros Hp. pose proof (cut_spec p s) as Hcut.
  destruct (Py.cut p s) as [[a b] |] eqn:Hc.
  - exists a, (Py.split p b). split; [now apply split_cut_some |].
    exists (p ++ b). apply Hcut.
  - exists s, []. split; [now apply split_cut_none |].
    exists "". now rewrite append_nil_r.
Qed.



(** ** The validator's errors *)

Lemma clock_checker_outcome (at_ : string) :
  returns_or_syntax_error (query_at_time_syntax_checker at_).
Proof.
  unfold query_at_time_syntax_checker, int_or_ValueError, Py.count.
  repeat
    (cbn [bind try_except syntax_error negb returns_or_syntax_error
          List.length Nat.pred Nat.eqb Nat.ltb Nat.leb];
     rewrite ?chained_lt_empty by lia;
     try match goal with
       | H : false = true |- _ => discriminate H
       | H : true = false |- _ => discriminate H
       | |- context [Py.split ":" ?x] =>
           destruct (Py.split ":" x) as [| ? [| ? [| ? [| ? ?]]]]
       | |- context [match Py.int ?x with _ => _ end] => destruct (Py.int x)
       | |- context [if ?b then _ else _] => destruct b eqn:?
       end);
    try exact I.
Qed.

Lemma bind_outcome {A B : Type} (m : outcome A) (k : A -> outcome B) :
  returns_or_syntax_error m ->
  (forall a, returns_or_syntax_error (k a)) ->
  returns_or_syntax_error (bind m k).
Proof. destruct m as [a | e]; cbn; auto. Qed.

Lemma split_two (p s : string) :
  p <> "" -> Py.contains p s = true -> (1 <? Py.count p s)%nat = false ->
  exists a b, Py.split p s = [a; b].
Proof.
  intros Hp Hin Hcount. pose proof (cut_spec p s) as Hcut.
  destruct (Py.cut p s) as [[a b] |] eqn:Hc; [| congruence].
  unfold Py.count in Hcount. rewrite (split_cut_some _ _ _ _ Hp Hc) in *.
  destruct (split_first_prefix p b Hp) as (x & tail & Hb & _).
  rewrite Hb in *. destruct tail; [now exists a, x | discriminate].
Qed.

Lemma check_days_outcome (query : string) (days : list string) :
  returns_or_syntax_error (check_days query days).
Proof.
  induction days as [| day days IH]; cbn; [exact I |].
  repeat match goal with
         | |- context [if ?b then _ else _] => destruct b
         end; cbn; auto.
Qed.

Lemma check_side_outcome (side query : string) (tokens : list string) :
  returns_or_syntax_error (check_side side query tokens).
Proof.
  unfold check_side.
  repeat match goal with
         | |- context [if ?b then _ else _] => destruct b
         end; cbn; auto.
Qed.

Lemma check_tokens_outcome (tokens : list string) :
  forall on_number, returns_or_syntax_error (check_tokens on_number tokens).
Proof.
  induction tokens as [| token tokens IH]; intros on_number; cbn; [exact I |].
  repeat match goal with
         | |- context [if ?b then _ else _] => destruct b
         end; cbn; auto.
Qed.

Lemma check_clause_outcome (q : string) :
  returns_or_syntax_error (check_clause q).
Proof.
  unfold check_clause.
  apply bind_outcome; [destruct (negb _); exact I | intros _].
  set (query := remove_starting_token _ _).
  apply bind_outcome.
  - destruct (Py.contains "@" query) eqn:Hat; [| exact I].
    destruct (1 <? Py.count "@" query)%nat eqn:Hcount; [exact I |].
    destruct (split_two "@" query) as (a & b & ->); try assumption;
      [discriminate |].
    apply bind_outcome; [apply clock_checker_outcome | intros _; exact I].
  - intros body. apply bind_outcome; [apply check_days_outcome |].
    intros [|]; [exact I |].
    apply bind_outcome.
    + destruct (existsb _ _); [| exact I].
      apply bind_outcome; [apply check_side_outcome | intros _].
      apply bind_outcome; [apply check_side_outcome | intros _; exact I].
    + intros tokens.
      apply bind_outcome; [apply check_tokens_outcome |].
      intros on_number. destruct (negb on_number); exact I.
Qed.

Lemma checker_clause (depth : nat) (q : string) :
  Py.contains "||" q = false ->
  query_syntax_checker_at depth q = check_clause q.
Proof. intros H. destruct depth; cbn; now rewrite H. Qed.

(** One level of calls is enough: the pieces of a split at [||] hold no
    [||], so the validator never runs out of depth. *)
Lemma checker_outcome (depth : nat) (q : string) :
  returns_or_syntax_error (query_syntax_checker_at (S depth) q).
Proof.
  cbn [query_syntax_checker_at].
  destruct (Py.contains "||" q); [| apply check_clause_outcome].
  pose proof (split_pieces_clean "||" ltac:(discriminate) q) as Hclean.
  induction (Py.split "||" q) as [| piece pieces IH]; [exact I |].
  cbn [for_each]. apply bind_outcome.
  - cbn [call]. rewrite checker_clause.
    + pose proof (check_clause_outcome (Py.strip piece)) as H.
      destruct (check_clause (Py.strip piece)) as [[] | []]; cbn in *; auto.
    + destruct (Py.contains "||" (Py.strip piece)) eqn:Hc; [| reflexivity].
      apply contains_strip in Hc. rewrite Hclean in Hc; [discriminate | now left].
  - intros _. apply IH. intros x Hx. apply Hclean. now right.
Qed.

Lemma in_remove_minus (token : string) (tokens : list string) :
  In token (remove_minus tokens) -> In token tokens.
Proof.
  induction tokens as [| t tokens IH]; cbn; [auto |].
  destruct (String.eqb t "minus"); cbn; intuition.
Qed.

Lemma remove_minus_absent (tokens : list string) :
  existsb (String.eqb "minus") tokens = false -> remove_minus tokens = tokens.
Proof.
  induction tokens as [| t tokens IH]; [reflexivity |].
  cbn [existsb remove_minus]. intros [Ht Hrest]%orb_false_elim.
  rewrite String.eqb_sym in Ht. now rewrite Ht, IH.
Qed.

(** *** The loop over the tokens *)

Lemma check_tokens_skips_pairs (rest prefix : list string) :
  (number_unit_pairs prefix = true ->
   check_tokens true (List.app prefix rest) = check_tokens true rest)
  /\ (forall unit_ tail,
         prefix = unit_ :: tail -> is_unit unit_ = true ->
         number_unit_pairs tail = true ->
         check_tokens false (List.app prefix rest) = check_tokens true rest).
Proof.
  induction prefix as [| t p [IHn IHu]].
  - split; [reflexivity | discriminate].
  - split.
    + destruct p as [| u tail]; [discriminate |].
      cbn [number_unit_pairs]. intros H.
      apply andb_true_iff in H as [H Htail].
      apply andb_true_iff in H as [Hint Hunit].
      cbn [List.app check_tokens]. rewrite Hint. cbn [negb].
      exact (IHu u tail eq_refl Hunit Htail).
    + intros u tail [= -> ->] Hunit Htail.
      cbn [List.app check_tokens]. rewrite Hunit. cbn [negb]. now apply IHn.
Qed.

Lemma loop_expected_number (prefix rest : list string) (word : string) :
  number_unit_pairs prefix = true -> is_int word = false ->
  check_tokens true (List.app prefix (word :: rest))
  = syntax_error (expected_number word).
Proof.
  intros Hprefix Hword.
  rewrite (proj1 (check_tokens_skips_pairs _ _) Hprefix).
  cbn [check_tokens]. now rewrite Hword.
Qed.

Lemma loop_expected_unit (prefix rest : list string) (number word : string) :
  number_unit_pairs prefix = true -> is_int number = true ->
  is_unit word = false ->
  check_tokens true (List.app prefix (number :: word :: rest))
  = syntax_error (expected_unit word).
Proof.
  intros Hprefix Hnumber Hword.
  rewrite (proj1 (check_tokens_skips_pairs _ _) Hprefix).
  cbn [check_tokens]. now rewrite Hnumber, Hword.
Qed.

Lemma loop_dangling (prefix : list string) (number : string) :
  number_unit_pairs prefix = true -> is_int number = true ->
  check_tokens true (List.app prefix [number]) = Return false.
Proof.
  intros Hprefix Hnumber.
  rewrite (proj1 (check_tokens_skips_pairs _ _) Hprefix).
  cbn [check_tokens]. now rewrite Hnumber.
Qed.

Lemma loop_pairs (tokens : list string) :
  number_unit_pairs tokens = true -> check_tokens true tokens = Return true.
Proof.
  intros H. pose proof (proj1 (check_tokens_skips_pairs [] tokens) H) as Hloop.
  now rewrite List.app_nil_r in Hloop.
Qed.

Lemma check_days_none (body : string) (days : list string) :
  (forall day, In day days -> Py.contains day body = false) ->
  check_days body days = Return false.
Proof.
  induction days as [| day days IH]; [reflexivity |]. intros H.
  cbn [check_days]. rewrite (H day) by now left.
  apply IH. intros d Hd. apply H. now right.
Qed.

Lemma check_side_passes (side body : string) (tokens : list string) :
  existsb is_unit tokens = true -> existsb is_int tokens = true ->
  check_side side body tokens = Return tt.
Proof. intros Hu Hn. unfold check_side. now rewrite Hu, Hn. Qed.

(** A clause that passes the checks before the loop gets the answer of the
    loop. *)
Lemma check_clause_loop (q : string) :
  reaches_token_loop q ->
  check_clause q
  = (on_number <- check_tokens true (loop_words q) ;;
     if negb on_number then syntax_error dangling_number else Return tt).
Proof.
  intros (Hbars & Hstart & Hclock & Hdays & Hminus).
  unfold check_clause. cbv zeta. rewrite Hstart. cbn [negb bind].
  unfold loop_words, body_words, body_text in *. cbv zeta in *.
  set (query := remove_starting_token _ _) in *.
  match goal with
  | |- bind _ ?k = _ =>
      assert (Htail : forall body,
                 (forall day, In day DAYS_OF_THE_WEEK ->
                              Py.contains day body = false) ->
                 (existsb (String.eqb "minus") (map Py.strip (Py.split_ws body))
                  = true ->
                  forall side,
                    In side [before_minus (map Py.strip (Py.split_ws body));
                             after_minus (map Py.strip (Py.split_ws body))] ->
                    existsb is_unit side = true /\ existsb is_int side = true) ->
                 k body
                 = (on_number <- check_tokens true
                                   (remove_minus (map Py.strip (Py.split_ws body))) ;;
                    if negb on_number then syntax_error dangling_number
                    else Return tt))
  end.
  { intros body Hd Hm. cbn beta.
    rewrite (check_days_none body _ Hd). cbn [bind].
    destruct (existsb (String.eqb "minus") (map Py.strip (Py.split_ws body)))
      eqn:Hhas.
    - destruct (Hm eq_refl _ (or_introl eq_refl)) as [Hu Hn].
      destruct (Hm eq_refl _ (or_intror (or_introl eq_refl))) as [Hu' Hn'].
      rewrite (check_side_passes _ _ _ Hu Hn).
      rewrite (check_side_passes _ _ _ Hu' Hn'). reflexivity.
    - cbn [bind]. now rewrite (remove_minus_absent _ Hhas). }
  destruct (Py.contains "@" query) eqn:Hat.
  - destruct (Hclock eq_refl) as (body & at_ & Hsplit & Hok).
    assert (Hcount : (1 <? Py.count "@" query)%nat = false)
      by (unfold Py.count; now rewrite Hsplit).
    rewrite Hcount, Hsplit in *. cbn [Py.first hd] in *.
    rewrite Hok. cbn [bind]. now apply Htail.
  - cbn [bind]. now apply Htail.
Qed.

(** *** The messages *)

Lemma check_tokens_message (tokens : list string) :
  forall (on_number : bool) (msg : string),
    check_tokens on_number tokens = Raise (CronEventSyntaxError msg) ->
    exists word, In word tokens
                 /\ (msg = expected_number word \/ msg = expected_unit word).
Proof.
  induction tokens as [| token tokens IH]; intros on_number msg;
    [discriminate |].
  cbn [check_tokens]. destruct on_number.
  - destruct (is_int token); cbn [negb].
    + intros H. destruct (IH _ _ H) as (w & Hw & Hmsg).
      exists w. split; [now right | exact Hmsg].
    + intros [= <-]. exists token. split; [now left | now left].
  - destruct (is_unit token); cbn [negb].
    + intros H. destruct (IH _ _ H) as (w & Hw & Hmsg).
      exists w. split; [now right | exact Hmsg].
    + intros [= <-]. exists token. split; [now left | now right].
Qed.

Lemma check_days_message (body : string) (days : list string) (msg : string) :
  check_days body days = Raise (CronEventSyntaxError msg) ->
  exists day, In day days
    /\ Py.contains day body = true
    /\ (msg = "Only one " ++ day ++ " is allowed"
        \/ msg = "Invalid format. Using day of the week cannot contain other values. (remove: `"
                 ++ Py.replace day "" body ++ "` from `" ++ body ++ "`").
Proof.
  induction days as [| day days IH]; [discriminate |].
  cbn [check_days]. destruct (Py.contains day body) eqn:Hin.
  - destruct (1 <? Py.count day body)%nat.
    + intros [= <-]. exists day. split; [now left | split; [exact Hin | now left]].
    + destruct (String.eqb "" _); cbn [negb]; [discriminate |].
      intros [= <-]. exists day.
      split; [now left | split; [exact Hin | now right]].
  - intros H. destruct (IH H) as (d & Hd & Hrest).
    exists d. split; [now right | exact Hrest].
Qed.

Lemma check_side_message (side body : string) (tokens : list string)
    (msg : string) :
  check_side side body tokens = Raise (CronEventSyntaxError msg) ->
  msg = "No unit found in " ++ side ++ " minus `" ++ body ++ "`"
  \/ msg = "No number found in " ++ side ++ " minus `" ++ body ++ "`".
Proof.
  unfold check_side. destruct (existsb is_unit tokens); cbn [negb].
  - destruct (existsb is_int tokens); cbn [negb]; [discriminate |].
    intros [= <-]. now right.
  - intros [= <-]. now left.
Qed.

Lemma clock_checker_message (at_ msg : string) :
  query_at_time_syntax_checker at_ = Raise (CronEventSyntaxError msg) ->
  In msg fixed_messages
  \/ msg = "Non-int value for time found: `" ++ clock_digits at_ ++ "`".
Proof.
  unfold query_at_time_syntax_checker, int_or_ValueError, clock_digits,
    fixed_messages.
  repeat
    (cbn [bind try_except syntax_error negb];
     rewrite ?chained_lt_empty by lia;
     try match goal with
       | |- context [Py.split ":" ?x] =>
           destruct (Py.split ":" x) as [| ? [| ? [| ? [| ? ?]]]]
       | |- context [match Py.int ?x with _ => _ end] => destruct (Py.int x)
       | |- context [if ?b then _ else _] => destruct b
       end);
    intros H; try discriminate H; injection H as <-;
    first [now right | left; cbn [In]; tauto].
Qed.

Lemma check_clause_message (q msg : string) :
  check_clause q = Raise (CronEventSyntaxError msg) ->
  In msg fixed_messages \/ cites_fragment q msg.
Proof.
  unfold check_clause, cites_fragment, body_text. cbv zeta.
  destruct (existsb _ STARTING_TOKENS); cbn [negb bind];
    [| intros [= <-]; left; now left].
  set (query := remove_starting_token _ _).
  match goal with
  | |- bind _ ?k = _ -> _ =>
      assert (Htail : forall body,
                 k body = Raise (CronEventSyntaxError msg) ->
                 In msg fixed_messages \/ cites_body body msg)
  end.
  { intros body. cbn beta. unfold cites_body.
    destruct (check_days body DAYS_OF_THE_WEEK) as [[|] | e] eqn:Hdays;
      cbn [bind]; [discriminate | |].
    2:{ intros [= ->]. right. right. right.
        now apply check_days_message. }
    set (tokens := map Py.strip (Py.split_ws body)).
    assert (Hloop : forall l,
               (forall w, In w l -> In w tokens) ->
               (on_number <- check_tokens true l ;;
                if negb on_number
                then syntax_error
                       ("Expected unit, got end of query. Please add a unit or remove the last number. Units: "
                        ++ Py.join ", " units)
                else Return tt) = Raise (CronEventSyntaxError msg) ->
               In msg fixed_messages
               \/ (exists word, In word tokens
                     /\ (msg = expected_number word \/ msg = expected_unit word))
               \/ (exists side, In side ["before"; "after"]
                     /\ (msg = "No unit found in " ++ side ++ " minus `" ++ body ++ "`"
                         \/ msg = "No number found in " ++ side ++ " minus `"
                                  ++ body ++ "`"))
               \/ (exists day, In day DAYS_OF_THE_WEEK
                     /\ Py.contains day body = true
                     /\ (msg = "Only one " ++ day ++ " is allowed"
                         \/ msg = "Invalid format. Using day of the week cannot contain other values. (remove: `"
                                  ++ Py.replace day "" body ++ "` from `" ++ body ++ "`"))).
    { intros l Hl.
      destruct (check_tokens true l) as [[|] | e] eqn:Hc; cbn [bind negb].
      - discriminate.
      - intros [= <-]. left. unfold fixed_messages, dangling_number.
        cbn [In]. tauto.
      - intros [= ->]. right. left.
        destruct (check_tokens_message _ _ _ Hc) as (w & Hw & Hmsg).
        exists w. auto. }
    destruct (existsb (String.eqb "minus") tokens).
    - destruct (check_side "before" body _) as [[] | e] eqn:Hb; cbn [bind].
      2:{ intros [= ->]. right. right. left. exists "before".
          split; [now left | now apply (check_side_message _ _ _ _ Hb)]. }
      destruct (check_side "after" body _) as [[] | e] eqn:Ha; cbn [bind].
      2:{ intros [= ->]. right. right. left. exists "after".
          split; [right; now left | now apply (check_side_message _ _ _ _ Ha)]. }
      apply Hloop. intros w. apply in_remove_minus.
    - cbn [bind]. apply Hloop. auto. }
  destruct (Py.contains "@" query) eqn:Hat.
  2:{ cbn [bind]. intros H. destruct (Htail _ H); auto. }
  destruct (1 <? Py.count "@" query)%nat eqn:Hcount.
  { intros [= <-]. left. unfold fixed_messages. cbn [In]. tauto. }
  destruct (split_two "@" query) as (a & b & Hsplit); try assumption;
    [discriminate |].
  rewrite Hsplit. cbn [Py.first hd].
  destruct (query_at_time_syntax_checker b) as [[] | e] eqn:Hclock; cbn [bind].
  - intros H. destruct (Htail _ H); auto.
  - intros [= ->]. destruct (clock_checker_message _ _ Hclock) as [Hf | ->];
      [now left |].
    right. right. exists b. split; reflexivity.
Qed.

(** *** Expressions with [||] *)

Lemma piece_checked (q piece : string) :
  In piece (Py.split "||" q) ->
  forall depth, query_syntax_checker_at depth (Py.strip piece)
                = check_clause (Py.strip piece).
Proof.
  intros Hin depth. apply checker_clause.
  destruct (Py.contains "||" (Py.strip piece)) eqn:Hc; [| reflexivity].
  apply contains_strip in Hc.
  rewrite (split_pieces_clean "||" ltac:(discriminate) q piece Hin) in Hc.
  discriminate.
Qed.

(** The error of an expression with [||] is that of its first rejected
    piece. *)
Lemma composed_first_rejected_at (depth : nat) (q piece e : string)
    (before after : list string) :
  Py.contains "||" q = true ->
  Py.split "||" q = List.app before (piece :: after) ->
  (forall p, In p before -> check_clause (Py.strip p) = Return tt) ->
  check_clause (Py.strip piece) = Raise (CronEventSyntaxError e) ->
  query_syntax_checker_at (S depth) q
  = Raise (CronEventSyntaxError ("Error in query `" ++ piece ++ "`: " ++ e)).
Proof.
  intros Hq Hsplit Hbefore Hpiece.
  pose proof (piece_checked q) as Hclean. rewrite Hsplit in Hclean.
  cbn [query_syntax_checker_at]. rewrite Hq, Hsplit.
  clear Hq Hsplit.
  induction before as [| p before IH].
  - cbn [List.app for_each call].
    rewrite (Hclean piece (or_introl eq_refl)), Hpiece.
    reflexivity.
  - cbn [List.app for_each call].
    rewrite (Hclean p (or_introl eq_refl)), (Hbefore p (or_introl eq_refl)).
    cbn [bind]. apply IH.
    + intros x Hx. apply Hbefore. now right.
    + intros x Hx. apply Hclean. now right.
Qed.

Lemma composed_first_rejected (q piece e : string)
    (before after : list string) :
  Py.contains "||" q = true ->
  Py.split "||" q = List.app before (piece :: after) ->
  (forall p, In p before ->
             query_syntax_checker (VStr (Py.strip p)) = Return tt) ->
  query_syntax_checker (VStr (Py.strip piece))
  = Raise (CronEventSyntaxError e) ->
  query_syntax_checker (VStr q)
  = Raise (CronEventSyntaxError ("Error in query `" ++ piece ++ "`: " ++ e)).
Proof.
  intros Hq Hsplit Hbefore Hpiece.
  assert (Hin : forall p, In p (List.app before (piece :: after)) ->
                          In p (Py.split "||" q))
    by (intros p Hp; now rewrite Hsplit).
  unfold query_syntax_checker in *. change recursion_limit with (S 999).
  apply (composed_first_rejected_at 999 q piece e before after Hq Hsplit).
  - intros p Hp. rewrite <- (piece_checked q p) with (depth := recursion_limit).
    + now apply Hbefore.
    + apply Hin, in_or_app. now left.
  - rewrite <- (piece_checked q piece) with (depth := recursion_limit).
    + exact Hpiece.
    + apply Hin, in_or_app. right. now left.
Qed.

(** An expression with no starting token is rejected by a message that
    holds none of its words. *)
Lemma rejection_without_citation :
  query_syntax_checker (VStr "banana 2 hours")
  = Raise (CronEventSyntaxError "Query must start with one: every, in, on")
  /\ cites_a_word "Query must start with one: every, in, on" "banana 2 hours"
     = false.
Proof. split; vm_compute; reflexivity. Qed.

(** C7, as the code has it.  On every input the validator returns or raises
    a [CronEventSyntaxError], and nothing else.  The error of an expression
    with [||] is that of its first rejected piece: the piece as it stands
    between the [||], then the message of the piece.  For a clause that
    passes the checks made before the loop over the tokens, the loop stops
    at the first word that breaks the turn of integer and unit and names
    that word, in [Expected number] or in [Expected unit]; an integer
    left without a unit at the end gets a fixed message; words in turn
    throughout are accepted.  A clause with no starting token gets a
    fixed message.  Every message for a clause is one of seven fixed
    messages or holds a part of the clause: a word of its body, the body, a
    week day found in it, or the clock text.  [every banana hours] is
    rejected with [Expected number, got `banana`]. *)
Theorem validator_errors :
  (forall query : value, returns_or_syntax_error (query_syntax_checker query))
  /\ (forall (q piece e : string) (before after : list string),
         Py.contains "||" q = true ->
         Py.split "||" q = List.app before (piece :: after) ->
         (forall p, In p before ->
                    query_syntax_checker (VStr (Py.strip p)) = Return tt) ->
         query_syntax_checker (VStr (Py.strip piece))
         = Raise (CronEventSyntaxError e) ->
         query_syntax_checker (VStr q)
         = Raise (CronEventSyntaxError
                    ("Error in query `" ++ piece ++ "`: " ++ e)))
  /\ (forall (q word : string) (prefix rest : list string),
         reaches_token_loop q ->
         loop_words q = List.app prefix (word :: rest) ->
         number_unit_pairs prefix = true ->
         is_int word = false ->
         query_syntax_checker (VStr q)
         = Raise (CronEventSyntaxError (expected_number word)))
  /\ (forall (q number word : string) (prefix rest : list string),
         reaches_token_loop q ->
         loop_words q = List.app prefix (number :: word :: rest) ->
         number_unit_pairs prefix = true ->
         is_int number = true ->
         is_unit word = false ->
         query_syntax_checker (VStr q)
         = Raise (CronEventSyntaxError (expected_unit word)))
  /\ (forall (q number : string) (prefix : list string),
         reaches_token_loop q ->
         loop_words q = List.app prefix [number] ->
         number_unit_pairs prefix = true ->
         is_int number = true ->
         query_syntax_checker (VStr q)
         = Raise (CronEventSyntaxError dangling_number))
  /\ (forall q : string,
         reaches_token_loop q ->
         number_unit_pairs (loop_words q) = true ->
         query_syntax_checker (VStr q) = Return tt)
  /\ (forall q : string,
         Py.contains "||" q = false ->
         existsb (fun token => Py.startswith (Py.strip (Py.lower q)) (token ++ " "))
                 STARTING_TOKENS = false ->
         query_syntax_checker (VStr q)
         = Raise (CronEventSyntaxError
                    "Query must start with one: every, in, on"))
  /\ (forall q msg : string,
         Py.contains "||" q = false ->
         query_syntax_checker (VStr q) = Raise (CronEventSyntaxError msg) ->
         In msg fixed_messages \/ cites_fragment q msg)
  /\ query_syntax_checker (VStr "every banana hours")
     = Raise (CronEventSyntaxError (expected_number "banana")).
Proof.
  split.
  { intros [q | epoch utcoffset | | z]; cbn [query_syntax_checker]; try exact I.
    change recursion_limit with (S 999). apply checker_outcome. }
  split.
  { intros q piece e before after. apply composed_first_rejected. }
  assert (Hloop : forall q, reaches_token_loop q ->
             query_syntax_checker (VStr q)
             = (on_number <- check_tokens true (loop_words q) ;;
                if negb on_number then syntax_error dangling_number
                else Return tt)).
  { intros q Hq. unfold query_syntax_checker.
    rewrite checker_clause by apply Hq. now apply check_clause_loop. }
  split.
  { intros q word prefix rest Hq Hwords Hprefix Hword.
    rewrite (Hloop q Hq), Hwords.
    now rewrite (loop_expected_number _ _ _ Hprefix Hword). }
  split.
  { intros q number word prefix rest Hq Hwords Hprefix Hnumber Hword.
    rewrite (Hloop q Hq), Hwords.
    now rewrite (loop_expected_unit _ _ _ _ Hprefix Hnumber Hword). }
  split.
  { intros q number prefix Hq Hwords Hprefix Hnumber.
    rewrite (Hloop q Hq), Hwords.
    now rewrite (loop_dangling _ _ Hprefix Hnumber). }
  split.
  { intros q Hq Hpairs. rewrite (Hloop q Hq).
    now rewrite (loop_pairs _ Hpairs). }
  split.
  { intros q Hq Hstart. unfold query_syntax_checker.
    rewrite checker_clause by assumption.
    unfold check_clause. cbv zeta. now rewrite Hstart. }
  split.
  { intros q msg Hq. unfold query_syntax_checker.
    rewrite checker_clause by assumption. apply check_clause_message. }
  vm_compute. reflexivity.
Qed.

(** The word the loop names is the first that breaks the turn, not any
    word of that kind: in [every 2 hours banana 3 apple] it is [banana]. *)
Example first_offender_named :
  reaches_token_loop "every 2 hours banana 3 apple"
  /\ loop_words "every 2 hours banana 3 apple"
     = ["2"; "hours"; "banana"; "3"; "apple"]
  /\ query_syntax_checker (VStr "every 2 hours banana 3 apple")
     = Raise (CronEventSyntaxError (expected_number "banana"))
  /\ query_syntax_checker (VStr "every 2 hours || every 3 || every x")
     = Raise (CronEventSyntaxError
                ("Error in query ` every 3 `: " ++ dangling_number))
  /\ query_syntax_checker (VStr "every 2 apples")
     = Raise (CronEventSyntaxError (expected_unit "apples"))
  /\ query_syntax_checker (VStr "every 2 hours @ noon")
     = Raise (CronEventSyntaxError "Non-int value for time found: `noon`").
Proof.
  split.
  { unfold reaches_token_loop. cbv zeta.
    split; [reflexivity |]. split; [reflexivity |].
    split; [discriminate |].
    split.
    - intros day Hday. unfold DAYS_OF_THE_WEEK in Hday. cbn [In] in Hday.
      repeat (destruct Hday as [<- | Hday]); try contradiction; reflexivity.
    - discriminate. }
  repeat (split; [vm_compute; reflexivity |]).
  vm_compute. reflexivity.
Qed.

(** ** Words and integer literals *)

Lemma number_char_not_space (c : ascii) :
  number_char c = true -> Py.is_space c = false.
Proof.
  destruct c as [[] [] [] [] [] [] [] []]; cbn; intros H;
    solve [reflexivity | discriminate H].
Qed.

Lemma number_char_lower (c : ascii) :
  number_char c = true -> Py.lower_char c = c.
Proof.
  destruct c as [[] [] [] [] [] [] [] []]; cbn; intros H;
    solve [reflexivity | discriminate H].
Qed.

Lemma number_char_ne (x c : ascii) :
  number_char c = true -> number_char x = false -> Ascii.eqb x c = false.
Proof.
  intros Hc Hx. destruct (Ascii.eqb_spec x c) as [-> | Hne]; congruence.
Qed.

Lemma lstrip_word (w : string) : is_word w = true -> Py.lstrip w = w.
Proof.
  destruct w as [| c w]; [reflexivity |]. unfold is_word. cbn.
  intros [Hc _]%andb_true_iff. apply negb_true_iff in Hc. now rewrite Hc.
Qed.

Lemma rstrip_word (w : string) : is_word w = true -> Py.rstrip w = w.
Proof.
  unfold is_word. induction w as [| c w IH]; [reflexivity |]. cbn.
  intros [Hc Hw]%andb_true_iff. apply negb_true_iff in Hc.
  rewrite (IH Hw), Hc. destruct w; reflexivity.
Qed.

Lemma strip_word (w : string) : is_word w = true -> Py.strip w = w.
Proof.
  intros H. unfold Py.strip. rewrite lstrip_word by assumption.
  now apply rstrip_word.
Qed.

Lemma digits_value_chars (s : string) :
  forall acc seen, Py.digits_value acc seen s <> None -> number_chars s = true.
Proof.
  unfold number_chars.
  induction s as [| c s IH]; intros acc seen H; [reflexivity |].
  cbn [Py.digits_value] in H. cbn [list_ascii_of_string forallb].
  unfold number_char at 1.
  destruct (Py.is_digit c); cbn [orb andb]; [now apply IH in H |].
  destruct (Ascii.eqb c "_"); [| congruence].
  rewrite !orb_true_r. cbn [andb].
  destruct seen; [now apply IH in H | congruence].
Qed.

Lemma c_space_is_space (c : ascii) :
  Py.is_c_space c = true -> Py.is_space c = true.
Proof.
  destruct c as [[] [] [] [] [] [] [] []]; vm_compute; intros H;
    first [reflexivity | exact H].
Qed.

Lemma skip_left_word (w : string) : is_word w = true -> Py.skip_left w = w.
Proof.
  unfold is_word. destruct w as [| c w]; [reflexivity |].
  cbn [list_ascii_of_string forallb Py.skip_left].
  intros [Hc _]%andb_prop. apply negb_true_iff in Hc.
  destruct (Py.is_c_space c) eqn:Hs; [| reflexivity].
  now rewrite (c_space_is_space c Hs) in Hc.
Qed.

Lemma skip_right_word (w : string) : is_word w = true -> Py.skip_right w = w.
Proof.
  unfold is_word. induction w as [| c w IH]; [reflexivity |].
  cbn [list_ascii_of_string forallb Py.skip_right].
  intros [Hc Hw]%andb_prop. apply negb_true_iff in Hc.
  rewrite (IH Hw).
  destruct (Py.is_c_space c) eqn:Hs;
    [now rewrite (c_space_is_space c Hs) in Hc |].
  destruct w; reflexivity.
Qed.

Lemma int_word_chars (w : string) :
  is_int w = true -> is_word w = true -> number_chars w = true /\ w <> "".
Proof.
  unfold is_int, Py.int. intros Hint Hword.
  rewrite skip_left_word, skip_right_word in Hint by assumption.
  destruct w as [| c d]; [discriminate |]. split; [| discriminate].
  destruct (Py.int_max_str_digits <? Py.digit_count (String c d))%nat;
    [discriminate |].
  unfold number_chars. cbn [list_ascii_of_string forallb].
  destruct (Ascii.eqb c "+") eqn:Hplus.
  - unfold number_char at 1. rewrite Hplus, !orb_true_r. cbn [orb andb].
    apply (digits_value_chars d 0 false).
    destruct (Py.digits_value 0 false d); [discriminate | discriminate].
  - destruct (Ascii.eqb c "-") eqn:Hminus.
    + unfold number_char at 1. rewrite Hminus, !orb_true_r. cbn [orb andb].
      apply (digits_value_chars d 0 false).
      destruct (Py.digits_value 0 false d); [discriminate | discriminate].
    + apply (digits_value_chars (String c d) 0 false).
      destruct (Py.digits_value 0 false (String c d)); discriminate.
Qed.

Lemma lower_number_chars (w : string) :
  number_chars w = true -> Py.lower w = w.
Proof.
  unfold number_chars. induction w as [| c w IH]; [reflexivity |]. cbn.
  intros [Hc Hw]%andb_true_iff.
  now rewrite (number_char_lower c Hc), (IH Hw).
Qed.

Lemma number_chars_word (w : string) : number_chars w = true -> is_word w = true.
Proof.
  unfold number_chars, is_word. induction w as [| c w IH]; [reflexivity |].
  cbn. intros [Hc Hw]%andb_true_iff.
  now rewrite (number_char_not_space c Hc), (IH Hw).
Qed.

(** A pattern does not begin inside a text that avoids its first
    character. *)
Lemma contains_skip (x : ascii) (p w s : string) :
  avoids x w = true ->
  Py.contains (String x p) (w ++ s) = Py.contains (String x p) s.
Proof.
  unfold avoids. induction w as [| c w IH]; [reflexivity |].
  cbn [list_ascii_of_string forallb].
  intros [Hc Hw]%andb_true_iff. apply negb_true_iff in Hc.
  change (String c w ++ s) with (String c (w ++ s)).
  cbn [Py.contains Py.startswith]. now rewrite Hc, (IH Hw).
Qed.

Lemma cut_skip (x : ascii) (p w s : string) :
  avoids x w = true ->
  Py.cut (String x p) (w ++ s)
  = match Py.cut (String x p) s with
    | Some (a, b) => Some (w ++ a, b)
    | None => None
    end.
Proof.
  unfold avoids. induction w as [| c w IH].
  - intros _. cbn. destruct (Py.cut (String x p) s) as [[a b] |]; reflexivity.
  - cbn [list_ascii_of_string forallb].
    intros [Hc Hw]%andb_true_iff. apply negb_true_iff in Hc.
    change (String c w ++ s) with (String c (w ++ s)).
    cbn [Py.cut Py.removeprefix].
    rewrite Hc, (IH Hw).
    destruct (Py.cut (String x p) s) as [[a b] |]; reflexivity.
Qed.

Lemma number_chars_avoids (x : ascii) (w : string) :
  number_char x = false -> number_chars w = true -> avoids x w = true.
Proof.
  unfold number_chars, avoids. intros Hx.
  induction w as [| c w IH]; [reflexivity |]. cbn.
  intros [Hc Hw]%andb_true_iff.
  now rewrite (number_char_ne x c Hc Hx), (IH Hw).
Qed.

(** ** The text of a duration body *)

Lemma term_text_app (t : term) (s : string) :
  term_text t ++ s
  = String " " (amount t ++ String " " (unit_word t ++ s)).
Proof.
  unfold term_text. cbn. now rewrite !append_assoc.
Qed.

Lemma terms_text_boundary (ts : list term) (s : string) :
  at_boundary s -> at_boundary (terms_text ts ++ s).
Proof.
  destruct ts as [| t ts]; [easy |]. intros _. right.
  cbn [terms_text]. rewrite append_assoc, term_text_app. eauto.
Qed.

Lemma term_chars (t : term) :
  well_formed_term t -> number_chars (amount t) = true /\ amount t <> "".
Proof. intros [Hint Hword]. now apply int_word_chars. Qed.

Lemma contains_term (p : string) (t : term) (s : string) :
  In p foreign_patterns -> well_formed_term t -> at_boundary s ->
  Py.contains p (term_text t ++ s) = Py.contains p s.
Proof.
  intros Hp [Hchars _]%term_chars Hs. rewrite term_text_app.
  destruct t as [w u pl]. cbn [amount unit_of plural] in *.
  unfold foreign_patterns, DAYS_OF_THE_WEEK in Hp. cbn [In] in Hp.
  repeat (destruct Hp as [<- | Hp]); try contradiction;
    cbn [Py.contains Py.startswith Ascii.eqb Bool.eqb andb orb];
    (rewrite contains_skip by (apply number_chars_avoids; [reflexivity | assumption]));
    destruct u, pl, Hs as [-> | [s' ->]]; reflexivity.
Qed.

Lemma unit_name_head (u : time_unit) :
  exists x p, unit_name u = String x p /\ number_char x = false
              /\ Ascii.eqb x " " = false.
Proof. destruct u; cbn; eexists _, _; repeat split. Qed.

Lemma contains_unit_term (u : time_unit) (t : term) (s : string) :
  well_formed_term t -> at_boundary s ->
  Py.contains (unit_name u) (term_text t ++ s)
  = same_unit (unit_of t) u || Py.contains (unit_name u) s.
Proof.
  intros [Hchars _]%term_chars Hs. rewrite term_text_app.
  destruct t as [w v pl]. cbn [amount unit_of plural] in *.
  destruct u;
    cbn [unit_name Py.contains Py.startswith Ascii.eqb Bool.eqb andb orb];
    (rewrite contains_skip by (apply number_chars_avoids; [reflexivity | assumption]));
    destruct v, pl, Hs as [-> | [s' ->]]; reflexivity.
Qed.

Lemma cut_unit_term (u : time_unit) (t : term) (s : string) :
  well_formed_term t -> at_boundary s ->
  Py.cut (unit_name u) (term_text t ++ s)
  = if same_unit (unit_of t) u
    then Some (" " ++ amount t ++ " ", (if plural t then "s" else "") ++ s)
    else match Py.cut (unit_name u) s with
         | Some (a, b) => Some (term_text t ++ a, b)
         | None => None
         end.
Proof.
  intros [Hchars _]%term_chars Hs.
  assert (Hsplit : forall a, term_text t ++ a
            = String " " (amount t ++ String " " (unit_word t ++ a)))
    by (intros; apply term_text_app).
  rewrite Hsplit.
  destruct t as [w v pl]. cbn [amount unit_of plural] in *.
  assert (Hskip : forall x p r, number_char x = false ->
            Py.cut (String x p) (String " " (w ++ r))
            = match Py.removeprefix (String x p) (String " " (w ++ r)) with
              | Some r' => Some ("", r')
              | None =>
                  match
                    match Py.cut (String x p) r with
                    | Some (a, b) => Some (w ++ a, b)
                    | None => None
                    end
                  with
                  | Some (a, b) => Some (String " " a, b)
                  | None => None
                  end
              end).
  { intros x p r Hx. cbn [Py.cut]. rewrite cut_skip; [reflexivity |].
    now apply number_chars_avoids. }
  destruct u; cbn [unit_name]; rewrite Hskip by reflexivity;
    cbn [Py.removeprefix Ascii.eqb Bool.eqb];
    destruct v, pl, Hs as [-> | [s' ->]]; cbn;
    try reflexivity;
    try (rewrite append_assoc; reflexivity);
    match goal with
    | |- context [Py.cut ?p s'] =>
        destruct (Py.cut p s') as [[a b] |]; cbn;
        rewrite ?append_assoc; reflexivity
    end.
Qed.

Lemma terms_text_cons_app (t : term) (ts : list term) (s : string) :
  terms_text (t :: ts) ++ s = term_text t ++ (terms_text ts ++ s).
Proof. cbn [terms_text]. apply append_assoc. Qed.

Lemma contains_terms (p : string) (ts : list term) (s : string) :
  In p foreign_patterns -> Forall well_formed_term ts -> at_boundary s ->
  Py.contains p (terms_text ts ++ s) = Py.contains p s.
Proof.
  intros Hp Hts Hs. induction Hts as [| t ts Ht _ IH]; [reflexivity |].
  rewrite terms_text_cons_app, contains_term; auto using terms_text_boundary.
Qed.

Lemma contains_unit_terms (u : time_unit) (ts : list term) (s : string) :
  Forall well_formed_term ts -> at_boundary s ->
  Py.contains (unit_name u) (terms_text ts ++ s)
  = match amount_of u ts with
    | Some _ => true
    | None => Py.contains (unit_name u) s
    end.
Proof.
  intros Hts Hs. induction Hts as [| t ts Ht _ IH]; [reflexivity |].
  rewrite terms_text_cons_app, contains_unit_term;
    auto using terms_text_boundary.
  cbn [amount_of]. destruct (same_unit (unit_of t) u); [reflexivity | exact IH].
Qed.

Lemma cut_unit_terms (u : time_unit) (ts : list term) (s w : string) :
  Forall well_formed_term ts -> at_boundary s -> amount_of u ts = Some w ->
  exists A b,
    Py.cut (unit_name u) (terms_text ts ++ s) = Some (A ++ " " ++ w ++ " ", b).
Proof.
  intros Hts Hs. induction Hts as [| t ts Ht _ IH]; [discriminate |].
  cbn [amount_of]. intros Hw.
  rewrite terms_text_cons_app, cut_unit_term; auto using terms_text_boundary.
  destruct (same_unit (unit_of t) u).
  - injection Hw as <-. now exists "", ((if plural t then "s" else "") ++ terms_text ts ++ s).
  - destruct (IH Hw) as (A & b & ->). exists (term_text t ++ A), b.
    now rewrite append_assoc.
Qed.

(** The starting tokens hold no first character of a pattern. *)
Lemma start_avoids (start p : string) :
  In start STARTING_TOKENS ->
  In p foreign_patterns \/ (exists u, p = unit_name u) ->
  exists x p', p = String x p' /\ avoids x start = true.
Proof.
  unfold STARTING_TOKENS, foreign_patterns, DAYS_OF_THE_WEEK. cbn [In].
  intros Hstart [Hp | [u ->]].
  - repeat (destruct Hp as [<- | Hp]); try contradiction;
      repeat (destruct Hstart as [<- | Hstart]); try contradiction;
      eexists _, _; split; reflexivity.
  - destruct u; repeat (destruct Hstart as [<- | Hstart]); try contradiction;
      eexists _, _; split; reflexivity.
Qed.

(** ** The word before a unit *)

Lemma cut_none (p s : string) :
  Py.contains p s = false -> Py.cut p s = None.
Proof.
  intros H. pose proof (cut_spec p s) as Hcut.
  destruct (Py.cut p s) as [[a b] |]; [| reflexivity].
  destruct Hcut as [-> _].
  rewrite (proj2 (contains_spec p (a ++ p ++ b))) in H; [discriminate | eauto].
Qed.

Lemma split_absent (p s : string) :
  Py.contains p s = false -> Py.split p s = [s].
Proof. intros H. apply split_cut_none. now apply cut_none. Qed.

Lemma split_nonempty (p s : string) : Py.split p s <> [].
Proof. unfold Py.split. destruct (String.length s); cbn; [easy |].
  destruct (Py.cut p s) as [[a b] |]; easy. Qed.

Lemma final_cons (x : string) (l : list string) :
  l <> [] -> Py.final (x :: l) = Py.final l.
Proof. destruct l; [congruence | reflexivity]. Qed.

Lemma contains_space_avoids (w : string) :
  avoids " " w = true -> Py.contains " " w = false.
Proof.
  intros H. rewrite <- (append_nil_r w). rewrite contains_skip by assumption.
  reflexivity.
Qed.

Lemma final_split_space (A w : string) :
  avoids " " w = true -> Py.final (Py.split " " (A ++ " " ++ w)) = w.
Proof.
  intros Hw. pose proof (split_absent " " w (contains_space_avoids w Hw)) as Hsw.
  induction A as [| c A IH].
  - change ("" ++ " " ++ w) with (String " " w).
    rewrite (split_cut_some " " (String " " w) "" w); [| discriminate | reflexivity].
    now rewrite Hsw.
  - change (String c A ++ " " ++ w) with (String c (A ++ " " ++ w)).
    destruct (Ascii.eqb " " c) eqn:Hc.
    + apply Ascii.eqb_eq in Hc as <-.
      rewrite (split_cut_some " " _ "" (A ++ " " ++ w));
        [| discriminate | reflexivity].
      rewrite final_cons by apply split_nonempty. exact IH.
    + pose proof (cut_spec " " (A ++ " " ++ w)) as Hcut.
      destruct (Py.cut " " (A ++ " " ++ w)) as [[a b] |] eqn:Hab.
      * rewrite (split_cut_some " " _ (String c a) b); [| discriminate |].
        -- rewrite (split_cut_some " " _ a b) in IH; [| discriminate | exact Hab].
           rewrite final_cons in * by apply split_nonempty. exact IH.
        -- cbn [Py.cut Py.removeprefix]. now rewrite Hc, Hab.
      * rewrite (proj2 (contains_spec " " (A ++ " " ++ w))) in Hcut;
          [discriminate | eauto].
Qed.

Lemma rstrip_app_l (A x : string) :
  Py.rstrip x <> "" -> Py.rstrip (A ++ x) = A ++ Py.rstrip x.
Proof.
  intros Hx. induction A as [| c A IH]; [reflexivity |].
  change (String c A ++ x) with (String c (A ++ x)). cbn [Py.rstrip].
  rewrite IH. change (String c A ++ Py.rstrip x) with (String c (A ++ Py.rstrip x)).
  destruct (A ++ Py.rstrip x) eqn:Hr; [| reflexivity].
  destruct A; [cbn in Hr; congruence | discriminate].
Qed.

Lemma lstrip_before_word (A w : string) :
  is_word w = true -> w <> "" ->
  exists B, Py.lstrip (A ++ " " ++ w ++ " ") = B ++ w ++ " "
            /\ (B = "" \/ exists B', B = B' ++ " ").
Proof.
  intros Hw Hne. induction A as [| c A IH].
  - exists "". split; [| now left]. cbn.
    destruct w as [| d w]; [congruence |]. unfold is_word in Hw. cbn in Hw.
    apply andb_true_iff in Hw as [Hd _]. apply negb_true_iff in Hd.
    cbn. now rewrite Hd.
  - change (String c A ++ " " ++ w ++ " ") with (String c (A ++ " " ++ w ++ " ")).
    cbn [Py.lstrip]. destruct (Py.is_space c); [exact IH |].
    exists (String c A ++ " "). split; [| eauto].
    cbn. now rewrite !append_assoc.
Qed.

Lemma strip_word_space (w : string) :
  is_word w = true -> Py.rstrip (w ++ " ") = w.
Proof.
  intros Hw. rewrite rstrip_app_word by exact Hw. cbn. apply append_nil_r.
Qed.

Lemma word_after_blank (A w : string) :
  number_chars w = true -> w <> "" ->
  Py.final (Py.split " " (Py.strip (A ++ " " ++ w ++ " "))) = w.
Proof.
  intros Hchars Hne. pose proof (number_chars_word w Hchars) as Hword.
  assert (Hav : avoids " " w = true)
    by (apply number_chars_avoids; [reflexivity | assumption]).
  unfold Py.strip.
  destruct (lstrip_before_word A w Hword Hne) as (B & -> & HB).
  rewrite rstrip_app_l; rewrite strip_word_space by assumption; [| assumption].
  destruct HB as [-> | [B' ->]].
  - change ("" ++ w) with w.
    now rewrite split_absent by now apply contains_space_avoids.
  - rewrite append_assoc. now apply final_split_space.
Qed.

Lemma word_before (p txt A w b : string) :
  Py.contains p txt = true -> p <> "" ->
  Py.cut p txt = Some (A ++ " " ++ w ++ " ", b) ->
  number_chars w = true -> w <> "" ->
  get_word_before_word p txt = Return w.
Proof.
  intros Hin Hp Hcut Hchars Hne. unfold get_word_before_word.
  rewrite Hin. cbn [negb].
  replace (String.eqb p "") with false
    by (symmetry; now apply String.eqb_neq).
  f_equal.
  rewrite (split_cut_some p txt _ b Hp Hcut). cbn [Py.first hd].
  rewrite (word_after_blank A w Hchars Hne).
  pose proof (number_chars_word w Hchars) as Hword.
  rewrite (strip_word w Hword).
  assert (Hnl : Py.split NL w = [w]).
  { apply split_absent. rewrite <- (append_nil_r w).
    unfold NL. rewrite contains_skip; [reflexivity |].
    apply number_chars_avoids; [reflexivity | assumption]. }
  rewrite Hnl. cbn [Py.final List.last]. rewrite (strip_word w Hword).
  assert (Htab : Py.split TAB w = [w]).
  { apply split_absent. rewrite <- (append_nil_r w).
    unfold TAB. rewrite contains_skip; [reflexivity |].
    apply number_chars_avoids; [reflexivity | assumption]. }
  rewrite Htab. cbn [Py.final List.last]. exact (strip_word w Hword).
Qed.

(** ** [parse_time] on a duration body *)

Lemma amount_of_chars (u : time_unit) (ts : list term) (w : string) :
  Forall well_formed_term ts -> amount_of u ts = Some w ->
  number_chars w = true /\ w <> "" /\ is_int w = true.
Proof.
  intros Hts. induction Hts as [| t ts Ht _ IH]; [discriminate |].
  cbn [amount_of]. destruct (same_unit (unit_of t) u); [| exact IH].
  intros [= <-]. destruct (term_chars t Ht) as [Hc Hne].
  destruct Ht as [Hint _]. auto.
Qed.

Lemma float_of_int (w : string) (z : Z) :
  Py.int w = Some z -> Py.float w = Some z.
Proof.
  unfold Py.int, Py.float.
  destruct (Py.skip_right (Py.skip_left w)) as [| c d]; [discriminate |].
  now destruct (Py.int_max_str_digits <? Py.digit_count (String c d))%nat.
Qed.

Lemma read_unit_text (u : time_unit) (seconds v : Z) (pre : string)
    (ts : list term) (s : string) :
  pre = "" \/ In pre STARTING_TOKENS ->
  Forall well_formed_term ts -> at_boundary s ->
  Py.contains (unit_name u) s = false ->
  read_unit (unit_name u) seconds (pre ++ terms_text ts ++ s) v
  = v + seconds * unit_amount u ts.
Proof.
  intros Hpre Hts Hs Hnot.
  assert (Hav : exists x p, unit_name u = String x p /\ avoids x pre = true).
  { destruct Hpre as [-> | Hpre].
    - destruct u; eexists _, _; split; reflexivity.
    - apply start_avoids; eauto. }
  destruct Hav as (x & p & Hname & Hav).
  assert (Hin : Py.contains (unit_name u) (pre ++ terms_text ts ++ s)
                = match amount_of u ts with Some _ => true | None => false end).
  { rewrite Hname, contains_skip by assumption. rewrite <- Hname.
    rewrite contains_unit_terms by assumption.
    destruct (amount_of u ts); [reflexivity | exact Hnot]. }
  unfold read_unit, word_read, unit_amount. rewrite Hin.
  destruct (amount_of u ts) as [w |] eqn:Hw; [| lia].
  destruct (amount_of_chars u ts w Hts Hw) as (Hchars & Hne & Hint).
  destruct (cut_unit_terms u ts s w Hts Hs Hw) as (A & b & Hcut).
  assert (Hcut' : Py.cut (unit_name u) (pre ++ terms_text ts ++ s)
                  = Some ((pre ++ A) ++ " " ++ w ++ " ", b)).
  { rewrite Hname, cut_skip by assumption. rewrite <- Hname, Hcut.
    now rewrite append_assoc. }
  rewrite (word_before (unit_name u) _ (pre ++ A) w b); try assumption.
  - unfold try_number. unfold is_int in Hint.
    destruct (Py.int w) as [z |] eqn:Hz; [| discriminate].
    now rewrite (float_of_int w z Hz).
  - rewrite Hname. discriminate.
Qed.

Lemma read_unit_returns (unit_name : string) (seconds : Z) (s : string)
    (v : Z) :
  unit_name <> "" ->
  add_unit unit_name seconds s v = Return (read_unit unit_name seconds s v).
Proof.
  intros Hne. unfold add_unit, read_unit, word_read, get_word_before_word.
  destruct (Py.contains unit_name s); cbn [negb]; [| reflexivity].
  replace (String.eqb unit_name "") with false
    by (symmetry; now apply String.eqb_neq).
  reflexivity.
Qed.

Lemma parse_time_no_minus (depth : nat) (pre : string) (ts : list term)
    (s : string) :
  pre = "" \/ In pre STARTING_TOKENS ->
  Forall well_formed_term ts ->
  s = "" \/ s = " " ->
  Py.contains "minus" (pre ++ terms_text ts ++ s) = false ->
  parse_time_at depth (pre ++ terms_text ts ++ s)
  = Return (or_one_day (sum_by_unit ts)).
Proof.
  intros Hpre Hts Hs Hminus.
  assert (Hb : at_boundary s) by (destruct Hs as [-> | ->]; [left | right]; eauto).
  assert (Hnot : forall u, Py.contains (unit_name u) s = false)
    by (intros u; destruct Hs as [-> | ->]; destruct u; reflexivity).
  destruct depth; cbn [parse_time_at]; rewrite Hminus; cbn [bind];
    repeat (rewrite read_unit_returns by discriminate; cbn [bind]);
    change "day" with (unit_name Day); change "hour" with (unit_name Hour);
    change "minute" with (unit_name Minute);
    change "second" with (unit_name Second);
    rewrite !read_unit_text by auto;
    unfold or_one_day, sum_by_unit;
    rewrite Z.sub_0_r; do 2 f_equal; lia.
Qed.

Lemma amount_of_none (u : time_unit) (ts : list term) :
  ~ In u (map unit_of ts) -> amount_of u ts = None.
Proof.
  induction ts as [| t ts IH]; [reflexivity |]. cbn [map In amount_of].
  intros Hnot. destruct (same_unit (unit_of t) u) eqn:Hsame.
  - exfalso. apply Hnot. left. destruct (unit_of t), u; easy.
  - apply IH. tauto.
Qed.

(** When each unit is named once, the sum by unit is the sum over the
    pairs. *)
Lemma sum_by_unit_once (ts : list term) :
  each_unit_once ts -> sum_by_unit ts = sum_seconds ts.
Proof.
  unfold each_unit_once. induction ts as [| t ts IH]; [reflexivity |].
  cbn [map]. intros Hnodup. apply List.NoDup_cons_iff in Hnodup as [Hnot Hrest].
  specialize (IH Hrest). apply amount_of_none in Hnot.
  cbn [sum_seconds fold_right]. fold (sum_seconds ts). rewrite <- IH.
  unfold sum_by_unit, unit_amount, amount_value. cbn [amount_of].
  destruct t as [w u pl]. cbn [unit_of amount] in *.
  destruct u; cbn [same_unit unit_seconds]; rewrite Hnot; lia.
Qed.

Lemma cut_minus_term (t : term) (s : string) :
  well_formed_term t -> at_boundary s ->
  Py.cut "minus" (term_text t ++ s)
  = match Py.cut "minus" s with
    | Some (a, b) => Some (term_text t ++ a, b)
    | None => None
    end.
Proof.
  intros [Hchars _]%term_chars Hs.
  assert (Hsplit : forall a, term_text t ++ a
            = String " " (amount t ++ String " " (unit_word t ++ a)))
    by (intros; apply term_text_app).
  rewrite Hsplit.
  destruct t as [w v pl]. cbn [amount unit_of plural] in *.
  cbn [Py.cut Py.removeprefix Ascii.eqb Bool.eqb].
  rewrite cut_skip by (apply number_chars_avoids; [reflexivity | assumption]).
  destruct v, pl, Hs as [-> | [s' ->]]; cbn;
    try reflexivity;
    destruct (Py.cut "minus" s') as [[a b] |]; cbn;
    rewrite ?append_assoc; reflexivity.
Qed.

Lemma cut_minus_terms (ts : list term) (s : string) :
  Forall well_formed_term ts -> at_boundary s ->
  Py.cut "minus" (terms_text ts ++ s)
  = match Py.cut "minus" s with
    | Some (a, b) => Some (terms_text ts ++ a, b)
    | None => None
    end.
Proof.
  intros Hts Hs. induction Hts as [| t ts Ht _ IH].
  - cbn. destruct (Py.cut "minus" s) as [[a b] |]; reflexivity.
  - rewrite terms_text_cons_app, cut_minus_term;
      auto using terms_text_boundary.
    rewrite IH. destruct (Py.cut "minus" s) as [[a b] |]; [| reflexivity].
    now rewrite terms_text_cons_app.
Qed.

Lemma lower_terms_text (ts : list term) :
  Forall well_formed_term ts -> Py.lower (terms_text ts) = terms_text ts.
Proof.
  induction 1 as [| t ts Ht _ IH]; [reflexivity |].
  cbn [terms_text]. rewrite lower_app, IH. f_equal.
  destruct (term_chars t Ht) as [Hchars _].
  unfold term_text, unit_word. rewrite !lower_app.
  rewrite (lower_number_chars _ Hchars).
  destruct (unit_of t), (plural t); reflexivity.
Qed.

Lemma terms_text_nil_r (ts : list term) : terms_text ts ++ "" = terms_text ts.
Proof. apply append_nil_r. Qed.

Lemma contains_minus_body (pre : string) (ts : list term) (s : string) :
  pre = "" \/ In pre STARTING_TOKENS -> Forall well_formed_term ts ->
  at_boundary s ->
  Py.contains "minus" (pre ++ terms_text ts ++ s) = Py.contains "minus" s.
Proof.
  intros Hpre Hts Hs.
  assert (Hav : avoids "m" pre = true).
  { destruct Hpre as [-> | Hpre]; [reflexivity |].
    unfold STARTING_TOKENS in Hpre. cbn [In] in Hpre.
    repeat (destruct Hpre as [<- | Hpre]); try contradiction; reflexivity. }
  rewrite contains_skip by assumption.
  apply contains_terms; auto. unfold foreign_patterns. cbn. auto.
Qed.


Lemma parse_time_at_unfold (depth : nat) (s : string) :
  parse_time_at depth s =
  bind (if Py.contains "minus" s then
          bind (call (match depth with
                      | O => None
                      | S d => Some (parse_time_at d)
                      end) (Py.final (Py.split "minus" s)))
               (fun m => Return (m, Py.first (Py.split "minus" s)))
        else Return (0, s))
       (fun ms =>
          let '(m, s) := ms in
          Return ((if 0 <? read_unit "second" 1 s
                             (read_unit "minute" 60 s
                                (read_unit "hour" 3600 s
                                   (read_unit "day" 86400 s 0)))
                   then read_unit "second" 1 s
                          (read_unit "minute" 60 s
                             (read_unit "hour" 3600 s (read_unit "day" 86400 s 0)))
                   else 86400) - m)).
Proof.
  destruct depth; cbn [parse_time_at];
    (match goal with
     | |- bind ?m _ = _ => destruct m as [[m0 s0] | e]; cbn [bind];
                           [| reflexivity]
     end;
     repeat (rewrite read_unit_returns by discriminate; cbn [bind]);
     reflexivity).
Qed.

Lemma units_of_text (pre : string) (ts : list term) (s : string) :
  pre = "" \/ In pre STARTING_TOKENS ->
  Forall well_formed_term ts ->
  s = "" \/ s = " " ->
  read_unit "second" 1 (pre ++ terms_text ts ++ s)
    (read_unit "minute" 60 (pre ++ terms_text ts ++ s)
       (read_unit "hour" 3600 (pre ++ terms_text ts ++ s)
          (read_unit "day" 86400 (pre ++ terms_text ts ++ s) 0)))
  = sum_by_unit ts.
Proof.
  intros Hpre Hts Hs.
  assert (Hb : at_boundary s) by (destruct Hs as [-> | ->]; [left | right]; eauto).
  assert (Hnot : forall u, Py.contains (unit_name u) s = false)
    by (intros u; destruct Hs as [-> | ->]; destruct u; reflexivity).
  rewrite (read_unit_text Day) by auto.
  rewrite (read_unit_text Hour) by auto.
  rewrite (read_unit_text Minute) by auto.
  rewrite (read_unit_text Second) by auto.
  unfold sum_by_unit. lia.
Qed.

Lemma parse_time_minus (depth : nat) (pre : string) (ts ms : list term) :
  In pre STARTING_TOKENS ->
  Forall well_formed_term ts -> Forall well_formed_term ms ->
  parse_time_at (S depth) (pre ++ terms_text ts ++ " minus" ++ terms_text ms)
  = Return (or_one_day (sum_by_unit ts) - or_one_day (sum_by_unit ms)).
Proof.
  intros Hpre Hts Hms.
  assert (Hav : avoids "m" pre = true).
  { unfold STARTING_TOKENS in Hpre. cbn [In] in Hpre.
    repeat (destruct Hpre as [<- | Hpre]); try contradiction; reflexivity. }
  assert (Hcut : Py.cut "minus" (pre ++ terms_text ts ++ " minus" ++ terms_text ms)
                 = Some (pre ++ terms_text ts ++ " ", terms_text ms)).
  { rewrite cut_skip by assumption.
    rewrite cut_minus_terms; [| assumption | right; eauto].
    reflexivity. }
  assert (Hclean : Py.contains "minus" (terms_text ms) = false).
  { pose proof (contains_minus_body "" ms "" (or_introl eq_refl) Hms
                  (or_introl eq_refl)) as H.
    change (Py.contains "minus" (terms_text ms ++ "") = false) in H.
    now rewrite append_nil_r in H. }
  assert (Hsplit : Py.split "minus" (pre ++ terms_text ts ++ " minus" ++ terms_text ms)
                   = [pre ++ terms_text ts ++ " "; terms_text ms]).
  { rewrite (split_cut_some "minus" _ _ _ ltac:(discriminate) Hcut).
    now rewrite split_absent. }
  assert (Hin : Py.contains "minus"
                  (pre ++ terms_text ts ++ " minus" ++ terms_text ms) = true).
  { apply contains_spec. pose proof (cut_spec "minus"
      (pre ++ terms_text ts ++ " minus" ++ terms_text ms)) as Hs.
    rewrite Hcut in Hs. destruct Hs as [Hs _]. eauto. }
  assert (Hsuffix : parse_time_at depth (terms_text ms)
                    = Return (or_one_day (sum_by_unit ms))).
  { pose proof (parse_time_no_minus depth "" ms "" (or_introl eq_refl) Hms
                  (or_introl eq_refl)) as H.
    change ("" ++ terms_text ms ++ "") with (terms_text ms ++ "") in H.
    rewrite append_nil_r in H. exact (H Hclean). }
  rewrite parse_time_at_unfold, Hin, Hsplit.
  unfold Py.final, Py.first, call, List.last, hd.
  rewrite Hsuffix. unfold bind.
  rewrite units_of_text by auto. reflexivity.
Qed.

Lemma parse_time_clause (c : duration_clause) :
  well_formed c ->
  parse_time (clause_text c)
  = Return (or_one_day (sum_by_unit (body c))
            - match minus c with
              | Some ms => or_one_day (sum_by_unit ms)
              | None => 0
              end).
Proof.
  intros (Hstart & Hbody & Hminus). unfold parse_time, clause_text.
  destruct (minus c) as [ms |].
  - change recursion_limit with (S 999). now apply parse_time_minus.
  - rewrite (parse_time_no_minus _ (start c) (body c) ""); auto.
    + now rewrite Z.sub_0_r.
    + rewrite contains_minus_body; auto. now left.
Qed.

(** ** Duration clauses without clock suffix *)

Lemma contains_after_minus (p X : string) :
  In p foreign_patterns -> p <> "minus" -> at_boundary X ->
  Py.contains p (" minus" ++ X) = Py.contains p X.
Proof.
  unfold foreign_patterns, DAYS_OF_THE_WEEK. cbn [In].
  intros Hp Hne HX.
  repeat (destruct Hp as [<- | Hp]); try contradiction; try congruence;
    destruct HX as [-> | [X' ->]]; reflexivity.
Qed.

Lemma contains_nil_foreign (p : string) :
  In p foreign_patterns -> Py.contains p "" = false.
Proof.
  unfold foreign_patterns, DAYS_OF_THE_WEEK. cbn [In]. intros Hp.
  repeat (destruct Hp as [<- | Hp]); try contradiction; reflexivity.
Qed.

Lemma clause_absent (p : string) (c : duration_clause) :
  In p foreign_patterns -> p <> "minus" -> well_formed c ->
  Py.contains p (clause_text c) = false.
Proof.
  intros Hp Hne (Hstart & Hbody & Hminus). unfold clause_text.
  destruct (start_avoids (start c) p Hstart (or_introl Hp)) as (x & p' & -> & Hav).
  rewrite contains_skip by assumption.
  destruct (minus c) as [ms |].
  - rewrite contains_terms; [| assumption | assumption | right; eauto].
    rewrite contains_after_minus;
      [| assumption | assumption
       | rewrite <- (append_nil_r (terms_text ms));
         apply terms_text_boundary; now left].
    rewrite <- (append_nil_r (terms_text ms)).
    rewrite contains_terms; [| assumption | assumption | now left].
    now apply contains_nil_foreign.
  - rewrite contains_terms; [| assumption | assumption | now left].
    now apply contains_nil_foreign.
Qed.

Lemma lower_clause_text (c : duration_clause) :
  well_formed c -> Py.lower (clause_text c) = clause_text c.
Proof.
  intros (Hstart & Hbody & Hminus). unfold clause_text.
  rewrite !lower_app, lower_terms_text by assumption.
  assert (Hs : Py.lower (start c) = start c).
  { unfold STARTING_TOKENS in Hstart. cbn [In] in Hstart.
    repeat (destruct Hstart as [<- | Hstart]); try contradiction; reflexivity. }
  rewrite Hs. destruct (minus c) as [ms |]; [| reflexivity].
  rewrite lower_app, lower_terms_text by assumption. reflexivity.
Qed.

Lemma no_weekday_in_clause (c : duration_clause) :
  well_formed c ->
  existsb (fun d => Py.contains d (clause_text c)) DAYS_OF_THE_WEEK = false.
Proof.
  intros Hc.
  assert (H : forall d, In d DAYS_OF_THE_WEEK ->
                        Py.contains d (clause_text c) = false).
  { intros d Hd. apply clause_absent; [| | assumption].
    - unfold foreign_patterns. cbn [In]. auto.
    - unfold DAYS_OF_THE_WEEK in Hd. cbn [In] in Hd.
      repeat (destruct Hd as [<- | Hd]); try contradiction; discriminate. }
  induction DAYS_OF_THE_WEEK as [| d days IH]; [reflexivity |].
  cbn [existsb]. rewrite H by now left. apply IH. intros; apply H. now right.
Qed.

Lemma unit_amount_small (u : time_unit) (ts : list term) :
  small_amounts ts -> Z.abs (unit_amount u ts) <= max_amount.
Proof.
  unfold unit_amount. induction 1 as [| t ts Ht Hts IH]; cbn [amount_of].
  - unfold max_amount. lia.
  - destruct (same_unit (unit_of t) u); [exact Ht | exact IH].
Qed.

Lemma sum_by_unit_small (ts : list term) :
  small_amounts ts -> Z.abs (or_one_day (sum_by_unit ts)) <= 90061 * max_amount.
Proof.
  intros Hts.
  pose proof (unit_amount_small Day ts Hts).
  pose proof (unit_amount_small Hour ts Hts).
  pose proof (unit_amount_small Minute ts Hts).
  pose proof (unit_amount_small Second ts Hts).
  unfold or_one_day, sum_by_unit, max_amount in *.
  destruct (0 <? _); lia.
Qed.

(** C1, as the code has it.  A duration clause without clock suffix,
    written in lower case with one blank between its words and with
    integers up to 10^9 in absolute value, is due exactly when
    [now - lastFired > durationSeconds], lastFired being the stored instant
    with its offset from UTC added.  On either side of [minus] each unit
    counts once, with the integer of its first mention, and the side counts
    86400 when its sum is not positive.  When each unit is named at most
    once on either side, durationSeconds is the sum of value * unitSeconds
    over the pairs before [minus], less the same sum over the pairs after
    it, each replaced by 86400 when it is not positive.  All these numbers
    are below 2^53, where a double is exact. *)
Theorem duration_clause_due (tz : Z -> Z) (now : Z) (row : gmap string value)
    (c : duration_clause) (epoch utcoffset : Z) :
  well_formed c ->
  small_clause c ->
  row !! "query" = Some (VStr (clause_text c)) ->
  row !! "last" = Some (VDatetime epoch utcoffset) ->
  ready tz now row
  = Return (first_mention_seconds c <? now - last_fired epoch utcoffset)
  /\ (each_unit_once (body c) ->
      match minus c with Some ms => each_unit_once ms | None => True end ->
      first_mention_seconds c = duration_seconds c)
  /\ Z.abs (first_mention_seconds c) < 2 ^ 53.
Proof.
  intros Hc [Hsmall Hsmall'] Hq Hlast. split; [| split].
  - unfold ready. rewrite ready_at_unfold.
    unfold ready_body, getitem. rewrite Hq, Hlast.
    unfold bind at 1 2. unfold lower_of. rewrite (lower_clause_text c Hc).
    rewrite (clause_absent "||" c); [| unfold foreign_patterns; cbn; auto
                                     | discriminate | assumption].
    unfold bind at 1 2. unfold last_timestamp.
    rewrite (no_weekday_in_clause c Hc).
    rewrite (clause_absent "@" c); [| unfold foreign_patterns; cbn; auto
                                    | discriminate | assumption].
    unfold negb, bind at 1.
    rewrite (parse_time_clause c Hc). unfold bind, try_except.
    reflexivity.
  - intros Hbody Hminus.
    unfold first_mention_seconds, duration_seconds.
    rewrite (sum_by_unit_once _ Hbody).
    destruct (minus c) as [ms |]; [now rewrite (sum_by_unit_once _ Hminus) |].
    reflexivity.
  - unfold first_mention_seconds.
    pose proof (sum_by_unit_small _ Hsmall) as Hb.
    destruct (minus c) as [ms |].
    + pose proof (sum_by_unit_small _ Hsmall') as Hm.
      unfold max_amount in *. lia.
    + unfold max_amount in *. lia.
Qed.

Lemma duration_clause_due_witness :
  let c := {| start := "every";
              body := [{| amount := "2"; unit_of := Hour; plural := true |}];
              minus := None |} in
  let d := {| start := "every";
              body := [{| amount := "1"; unit_of := Day; plural := false |}];
              minus := Some [{| amount := "12"; unit_of := Hour;
                                plural := true |}] |} in
  let row := fun (q : duration_clause) (last : Z) =>
    <["query" := VStr (clause_text q)]> (<["last" := VDatetime last 0]>
      (∅ : gmap string value)) in
  clause_text c = "every 2 hours"
  /\ ready (fun _ => 0) (1000 + 7201) (row c 1000) = Return true
  /\ ready (fun _ => 0) (1000 + 7199) (row c 1000) = Return false
  /\ clause_text d = "every 1 day minus 12 hours"
  /\ ready (fun _ => 0) (1000 + 43200) (row d 1000) = Return false
  /\ ready (fun _ => 0) (1000 + 43201) (row d 1000) = Return true.
Proof.
  intros c d row.
  assert (Hc : well_formed c).
  { split; [vm_compute; auto | split; [| exact I]].
    repeat constructor. }
  assert (Hd : well_formed d).
  { split; [vm_compute; auto | split]; repeat constructor. }
  assert (Hsc : small_clause c).
  { split; [| exact I]. repeat constructor. vm_compute. discriminate. }
  assert (Hsd : small_clause d).
  { split; repeat constructor; vm_compute; discriminate. }
  split; [reflexivity |].
  split.
  { destruct (duration_clause_due (fun _ => 0) (1000 + 7201) (row c 1000) c
                1000 0 Hc Hsc) as [H _]; [reflexivity | reflexivity |].
    rewrite H. reflexivity. }
  split.
  { destruct (duration_clause_due (fun _ => 0) (1000 + 7199) (row c 1000) c
                1000 0 Hc Hsc) as [H _]; [reflexivity | reflexivity |].
    rewrite H. reflexivity. }
  split; [reflexivity |].
  split.
  { destruct (duration_clause_due (fun _ => 0) (1000 + 43200) (row d 1000) d
                1000 0 Hd Hsd) as [H _]; [reflexivity | reflexivity |].
    rewrite H. reflexivity. }
  destruct (duration_clause_due (fun _ => 0) (1000 + 43201) (row d 1000) d
              1000 0 Hd Hsd) as [H _]; [reflexivity | reflexivity |].
  rewrite H. reflexivity.
Defined.

(** A unit named twice counts once: the claim's sum does not hold. *)
Lemma repeated_unit_counts_once :
  let c := {| start := "every";
              body := [{| amount := "1"; unit_of := Hour; plural := false |};
                       {| amount := "1"; unit_of := Hour; plural := false |}];
              minus := None |} in
  let row : gmap string value :=
    <["query" := VStr (clause_text c)]> (<["last" := VDatetime 0 0]> ∅) in
  well_formed c
  /\ small_clause c
  /\ clause_text c = "every 1 hour 1 hour"
  /\ query_syntax_checker (VStr (clause_text c)) = Return tt
  /\ duration_seconds c = 7200
  /\ first_mention_seconds c = 3600
  /\ ready (fun _ => 0) 5000 row = Return true
  /\ (duration_seconds c <? 5000 - 0) = false.
Proof.
  intros c row. split; [| split].
  - split; [vm_compute; auto | split; [| exact I]]. repeat constructor.
  - split; [| exact I]. repeat constructor; vm_compute; discriminate.
  - repeat split; vm_compute; reflexivity.
Qed.

(** The boundaries the spec names. *)
Example duration_boundaries :
  let row := fun (q : string) (last : Z) =>
    <["query" := VStr q]> (<["last" := VDatetime last 0]>
      (∅ : gmap string value)) in
  ready (fun _ => 0) (5000 + 7201) (row "every 2 hours" 5000) = Return true
  /\ ready (fun _ => 0) (5000 + 7199) (row "every 2 hours" 5000) = Return false
  /\ ready (fun _ => 0) (5000 + 43200)
       (row "every 1 day minus 12 hours" 5000) = Return false
  /\ ready (fun _ => 0) (5000 + 43201)
       (row "every 1 day minus 12 hours" 5000) = Return true
  /\ ready (fun _ => 0) (5000 + 43199)
       (row "every 1 day minus 12 hours" 5000) = Return false.
Proof. vm_compute. auto 10. Qed.

(** [parse_time] is handed the expression as stored, not in lower case: a
    unit written in capitals is not found, and the clause counts as one
    day. *)
Example capital_unit_not_read :
  parse_time "every 2 HOURS" = Return 86400
  /\ query_syntax_checker (VStr "every 2 HOURS") = Return tt
  /\ ready (fun _ => 0) 7201
       (<["query" := VStr "every 2 HOURS"]> (<["last" := VDatetime 0 0]> ∅))
     = Return false.
Proof. vm_compute. auto. Qed.

(** [get_word_before_word] cuts at the blank, the line feed and the tab,
    and the validator at every blank character: with a carriage return
    between two pairs the validator sees four words, and [parse_time] reads
    [day] and the 2 as one word before [hour], which counts one hour. *)
Example carriage_return_between_pairs :
  let CR := String (ascii_of_nat 13) EmptyString in
  let q := "every 1 day" ++ CR ++ "2 hours" in
  query_syntax_checker (VStr q) = Return tt
  /\ parse_time q = Return 90000
  /\ parse_time "every 1 day 2 hours" = Return 93600.
Proof. vm_compute. auto. Qed.

(** ** Duration clauses with a clock suffix *)














Lemma local_date_utc (t : Z) : local_date (fun _ => 0) t = utc_date t.
Proof. unfold local_date, utc_date. now rewrite Z.add_0_r. Qed.


(** ** Week-day clauses *)

Lemma weekday_name_in (now : Z) : In (weekday_name now) DAYS_OF_THE_WEEK.
Proof.
  unfold weekday_name. apply nth_In.
  pose proof (Z.mod_pos_bound (utc_date now + 3) 7 ltac:(lia)) as Hb.
  unfold DAYS_OF_THE_WEEK. simpl. lia.
Qed.

Lemma names_day_spec (query day d : string) :
  names_day query day = true -> In d DAYS_OF_THE_WEEK ->
  Py.contains d query = String.eqb d day.
Proof.
  unfold names_day. rewrite forallb_forall. intros H Hd.
  now apply eqb_prop, H.
Qed.

Lemma names_day_some (query day : string) :
  names_day query day = true -> In day DAYS_OF_THE_WEEK ->
  existsb (fun d => Py.contains d query) DAYS_OF_THE_WEEK = true.
Proof.
  intros H Hd. apply existsb_exists. exists day. split; [assumption |].
  rewrite (names_day_spec _ _ _ H Hd). apply String.eqb_refl.
Qed.

(** The texts of week-day clauses name their day and no other. *)
Lemma weekday_text_names_day (start day : string) :
  In start STARTING_TOKENS -> In day DAYS_OF_THE_WEEK ->
  let plain := weekday_clause_text start day None in
  let timed := weekday_clause_text start day (Some "08:00:00") in
  Py.lower plain = plain /\ Py.lower timed = timed
  /\ Py.contains "||" plain = false /\ Py.contains "||" timed = false
  /\ Py.contains "@" plain = false /\ Py.contains "@" timed = true
  /\ names_day plain day = true /\ names_day timed day = true
  /\ query_syntax_checker (VStr plain) = Return tt
  /\ query_syntax_checker (VStr timed) = Return tt.
Proof.
  unfold STARTING_TOKENS, DAYS_OF_THE_WEEK. cbn [In].
  intros Hstart Hday.
  repeat (destruct Hstart as [<- | Hstart]); try contradiction;
    repeat (destruct Hday as [<- | Hday]); try contradiction;
    vm_compute; repeat split; reflexivity.
Qed.

(** C4, as the code has it.  An expression without [||] that names one
    week day is due exactly when the whole days between lastFired and now
    number five or more in absolute value, the UTC day of the week of now
    is the named day, and, with a clock suffix, the UTC time of day has
    reached the clock value. *)
Theorem weekday_clause_due (tz : Z -> Z) (now : Z) (row : gmap string value)
    (raw day : string) (epoch utcoffset : Z) :
  row !! "query" = Some (VStr raw) ->
  row !! "last" = Some (VDatetime epoch utcoffset) ->
  Py.contains "||" (Py.lower raw) = false ->
  In day DAYS_OF_THE_WEEK ->
  names_day (Py.lower raw) day = true ->
  ready tz now row
  = Return ((5 <=? Z.abs (days_between now (epoch + utcoffset)))
            && String.eqb (weekday_name now) day
            && (if Py.contains "@" (Py.lower raw)
                then clock_reached (Py.lower raw) now else true)).
Proof.
  intros Hq Hlast Hbars Hday Hnames.
  unfold ready. rewrite ready_at_unfold.
  unfold ready_body, getitem. rewrite Hq, Hlast.
  unfold bind at 1 2. unfold lower_of. rewrite Hbars.
  unfold bind at 1 2. unfold last_timestamp.
  rewrite (names_day_some _ _ Hnames Hday).
  unfold ready_weekday, days_between, clock_reached.
  rewrite (names_day_spec _ _ _ Hnames (weekday_name_in now)).
  rewrite Z.leb_antisym.
  destruct (Z.abs ((now - (epoch + utcoffset)) / 86400) <? 5); [reflexivity |].
  destruct (weekday_name now =? day)%string; [| reflexivity].
  destruct (Py.contains "@" (Py.lower raw)); [| reflexivity].
  destruct (parse_time_timedelta (Py.lower raw)); reflexivity.
Qed.

Lemma weekday_clause_due_witness :
  let row := fun last : Z =>
    (<["query" := VStr "on monday @ 8am"]>
       (<["last" := VDatetime last 0]> ∅) : gmap string value) in
  weekday_name 1705309200 = "monday"
  /\ parse_time_timedelta "on monday @ 8am" = Return 28800
  /\ ready (fun _ => 0) 1705309200 (row 1704358800) = Return true
  /\ ready (fun _ => 0) 1705302000 (row 1704358800) = Return false
  /\ ready (fun _ => 0) 1705309200 (row 1704963600) = Return false.
Proof.
  intros row. split; [reflexivity |]. split; [reflexivity |].
  assert (Hd : In "monday" DAYS_OF_THE_WEEK) by (vm_compute; auto).
  split; [| split].
  - rewrite (weekday_clause_due (fun _ => 0) 1705309200 (row 1704358800)
               "on monday @ 8am" "monday" 1704358800 0);
      reflexivity || exact Hd.
  - rewrite (weekday_clause_due (fun _ => 0) 1705302000 (row 1704358800)
               "on monday @ 8am" "monday" 1704358800 0);
      reflexivity || exact Hd.
  - rewrite (weekday_clause_due (fun _ => 0) 1705309200 (row 1704963600)
               "on monday @ 8am" "monday" 1704963600 0);
      reflexivity || exact Hd.
Defined.

(** A row whose lastFired lies six days after now is due on the named day:
    no day has elapsed since lastFired, and the code tests the absolute
    value of the day count. *)
Lemma later_last_is_due :
  let row : gmap string value :=
    <["query" := VStr "on monday"]>
      (<["last" := VDatetime (1705309200 + 6 * 86400) 0]> ∅) in
  query_syntax_checker (VStr "on monday") = Return tt
  /\ weekday_name 1705309200 = "monday"
  /\ days_between 1705309200 (1705309200 + 6 * 86400) = -6
  /\ (5 <=? days_between 1705309200 (1705309200 + 6 * 86400)) = false
  /\ ready (fun _ => 0) 1705309200 row = Return true.
Proof. vm_compute. repeat split; reflexivity. Qed.

(** The days counted are whole periods of 24 hours, not calendar dates:
    from Monday 23:00 to Saturday 01:00 the date has moved on five times,
    and the clause [on saturday] is not due. *)
Example whole_days_not_dates :
  let last := 1704067200 + 23 * 3600 in
  let now := 1704067200 + 5 * 86400 + 3600 in
  let row : gmap string value :=
    <["query" := VStr "on saturday"]> (<["last" := VDatetime last 0]> ∅) in
  weekday_name last = "monday" /\ weekday_name now = "saturday"
  /\ utc_date now - utc_date last = 5
  /\ days_between now last = 4
  /\ ready (fun _ => 0) now row = Return false.
Proof. vm_compute. repeat split; reflexivity. Qed.

(** The scenarios of the week-day clause. *)
Example weekday_scenarios :
  let row := fun (q : string) (last : Z) =>
    (<["query" := VStr q]> (<["last" := VDatetime last 0]> ∅)
       : gmap string value) in
  let monday := 1705276800 in
  ready (fun _ => 0) (monday + 3600) (row "every monday" (monday - 3 * 86400))
  = Return false
  /\ ready (fun _ => 0) (monday + 3600) (row "every monday" (monday - 7 * 86400))
     = Return true
  /\ ready (fun _ => 0) (monday + 86400 + 3600)
       (row "every monday" (monday - 7 * 86400)) = Return false
  /\ ready (fun _ => 0) (monday + 7 * 3600)
       (row "every monday @ 8am" (monday - 7 * 86400)) = Return false
  /\ ready (fun _ => 0) (monday + 8 * 3600)
       (row "every monday @ 8am" (monday - 7 * 86400)) = Return true.
Proof. vm_compute. repeat split; reflexivity. Qed.

(** ** [parse_time] on any text *)

Lemma final_in (l : list string) : l <> [] -> In (Py.final l) l.
Proof.
  unfold Py.final. induction l as [| x l IH]; [congruence |]. intros _.
  destruct l as [| y l]; [now left |].
  right. apply IH. discriminate.
Qed.

Lemma parse_time_at_plain (depth : nat) (s : string) :
  Py.contains "minus" s = false ->
  parse_time_at depth s = Return (units_value s).
Proof.
  intros Hminus. rewrite parse_time_at_unfold, Hminus.
  unfold bind, units_value, or_one_day. now rewrite Z.sub_0_r.
Qed.

Lemma final_piece_clean (p s : string) :
  p <> "" -> Py.contains p (Py.final (Py.split p s)) = false.
Proof.
  intros Hp. apply (split_pieces_clean p Hp s).
  apply final_in, split_nonempty.
Qed.

Lemma parse_time_at_value (depth : nat) (s : string) :
  parse_time_at (S depth) s = Return (parsed_duration s).
Proof.
  unfold parsed_duration.
  destruct (Py.contains "minus" s) eqn:Hminus;
    [| now apply parse_time_at_plain].
  rewrite parse_time_at_unfold, Hminus. unfold call.
  rewrite parse_time_at_plain by (apply final_piece_clean; discriminate).
  reflexivity.
Qed.

(** X1.  [parse_time] returns on every text, one call deep at most; with
    [minus] in the text, the seconds are those read before the first
    [minus] less those read after the last one, and what stands between two
    [minus] is not read. *)
Theorem parse_time_total (s : string) :
  parse_time s = Return (parsed_duration s)
  /\ (Py.contains "minus" s = true ->
      Py.contains "minus" (Py.final (Py.split "minus" s)) = false
      /\ parse_time (Py.final (Py.split "minus" s))
         = Return (units_value (Py.final (Py.split "minus" s)))).
Proof.
  unfold parse_time. change recursion_limit with (S 999).
  split; [apply parse_time_at_value |].
  intros _.
  split; [apply final_piece_clean; discriminate |].
  apply parse_time_at_plain, final_piece_clean. discriminate.
Qed.

Example parse_time_middle_skipped :
  parse_time "every 3 hours minus 1 hour minus 30 minutes" = Return (10800 - 1800)
  /\ parse_time "every minus" = Return 0
  /\ parse_time "" = Return 86400.
Proof. vm_compute. auto. Qed.

(** ** Plain durations *)

Lemma ready_plain_duration (tz : Z -> Z) (now : Z) (row : gmap string value)
    (q : string) (epoch utcoffset : Z) :
  plain_duration q = true ->
  row !! "query" = Some (VStr q) ->
  row !! "last" = Some (VDatetime epoch utcoffset) ->
  ready tz now row = Return (parsed_duration q <? now - (epoch + utcoffset)).
Proof.
  unfold plain_duration. intros Hplain Hq Hlast.
  apply andb_prop in Hplain as [Hplain Hat].
  apply andb_prop in Hplain as [Hbars Hdays].
  apply negb_true_iff in Hat, Hbars, Hdays.
  unfold ready. rewrite ready_at_unfold.
  unfold ready_body, getitem. rewrite Hq, Hlast.
  unfold bind at 1 2. unfold lower_of. rewrite Hbars.
  unfold bind at 1 2. unfold last_timestamp.
  rewrite Hdays, Hat. unfold negb, bind at 1.
  unfold parse_time. change recursion_limit with (S 999).
  rewrite parse_time_at_value. reflexivity.
Qed.

(** X2.  A plain duration that is due stays due: at any later instant, on a
    host of any time zone, [ready] answers true again as long as the row
    is not written. *)
Theorem due_stays_due (tz tz' : Z -> Z) (now now' : Z)
    (row : gmap string value) (q : string) (epoch utcoffset : Z) :
  plain_duration q = true ->
  row !! "query" = Some (VStr q) ->
  row !! "last" = Some (VDatetime epoch utcoffset) ->
  ready tz now row = Return true ->
  now <= now' ->
  ready tz' now' row = Return true.
Proof.
  intros Hplain Hq Hlast Hdue Hlater.
  rewrite (ready_plain_duration _ _ _ q epoch utcoffset) in Hdue by assumption.
  rewrite (ready_plain_duration _ _ _ q epoch utcoffset) by assumption.
  injection Hdue as Hdue. f_equal.
  apply Z.ltb_lt in Hdue. apply Z.ltb_lt. lia.
Qed.

Lemma due_stays_due_witness :
  let row : gmap string value :=
    <["query" := VStr "every 2 hours"]> (<["last" := VDatetime 1000 0]> ∅) in
  ready (fun _ => 7200) 90000 row = Return true.
Proof.
  intros row.
  apply (due_stays_due (fun _ => 0) (fun _ => 7200) 8201 90000 row
           "every 2 hours" 1000 0);
    [reflexivity | reflexivity | reflexivity | reflexivity | lia].
Defined.

(** A week-day clause does not stay due: the day after, it is not. *)
Example weekday_due_lapses :
  let row : gmap string value :=
    <["query" := VStr "every monday"]> (<["last" := VDatetime 1704067200 0]> ∅) in
  ready (fun _ => 0) 1705276800 row = Return true
  /\ ready (fun _ => 0) (1705276800 + 86400) row = Return false.
Proof. vm_compute. auto. Qed.

(** ** The validator on the texts of duration clauses *)

Lemma split_ws_blank (s : string) : Py.split_ws (String " " s) = Py.split_ws s.
Proof. reflexivity. Qed.

Lemma split_ws_word (w s : string) :
  is_word w = true -> w <> "" -> at_boundary s ->
  Py.split_ws (w ++ s) = w :: Py.split_ws s.
Proof.
  unfold is_word. intros Hw Hne Hs.
  induction w as [| c w IH]; [congruence |].
  cbn [list_ascii_of_string forallb] in Hw.
  apply andb_prop in Hw as [Hc Hw]. apply negb_true_iff in Hc.
  destruct w as [| d w].
  - cbn [String.append Py.split_ws]. rewrite Hc.
    destruct Hs as [-> | [s' ->]]; reflexivity.
  - specialize (IH Hw ltac:(discriminate)).
    change (String c (String d w) ++ s) with (String c (String d w ++ s)).
    cbn [Py.split_ws]. rewrite Hc.
    change (String d w ++ s) with (String d (w ++ s)) in *.
    cbn [list_ascii_of_string forallb] in Hw.
    apply andb_prop in Hw as [Hd _]. apply negb_true_iff in Hd.
    rewrite Hd, IH. reflexivity.
Qed.

Lemma unit_word_is_word (t : term) :
  is_word (unit_word t) = true /\ unit_word t <> ""
  /\ is_unit (unit_word t) = true
  /\ String.eqb "minus" (unit_word t) = false
  /\ Py.rstrip (unit_word t) = unit_word t.
Proof.
  unfold unit_word. destruct (unit_of t), (plural t);
    repeat split; try reflexivity; discriminate.
Qed.

Lemma amount_is_word (t : term) :
  well_formed_term t ->
  is_word (amount t) = true /\ amount t <> "" /\ is_int (amount t) = true
  /\ String.eqb "minus" (amount t) = false.
Proof.
  intros Ht. destruct (term_chars t Ht) as [Hchars Hne].
  destruct Ht as [Hint Hword]. repeat split; try assumption.
  apply String.eqb_neq. intros Heq. rewrite <- Heq in Hchars.
  discriminate Hchars.
Qed.

Lemma split_ws_terms (ts : list term) (s : string) :
  Forall well_formed_term ts -> at_boundary s ->
  Py.split_ws (terms_text ts ++ s) = List.app (pair_words ts) (Py.split_ws s).
Proof.
  intros Hts Hs. induction Hts as [| t ts Ht _ IH]; [reflexivity |].
  rewrite terms_text_cons_app, term_text_app.
  change (String " " (amount t ++ String " " (unit_word t ++ terms_text ts ++ s)))
    with (String " " (amount t ++ String " " (unit_word t ++ (terms_text ts ++ s)))).
  destruct (amount_is_word t Ht) as (Hw & Hne & _ & _).
  destruct (unit_word_is_word t) as (Hu & Hune & _ & _ & _).
  rewrite split_ws_blank, split_ws_word;
    [| assumption | assumption | right; eexists; reflexivity].
  rewrite split_ws_blank, split_ws_word;
    [| assumption | assumption | now apply terms_text_boundary].
  rewrite IH. reflexivity.
Qed.

Lemma strip_pair_words (ts : list term) :
  Forall well_formed_term ts -> map Py.strip (pair_words ts) = pair_words ts.
Proof.
  induction 1 as [| t ts Ht _ IH]; [reflexivity |].
  cbn [pair_words flat_map List.app map]. fold (pair_words ts).
  destruct (amount_is_word t Ht) as (Hw & _).
  destruct (unit_word_is_word t) as (Hu & _).
  now rewrite IH, (strip_word _ Hw), (strip_word _ Hu).
Qed.

Lemma pair_words_no_minus (ts : list term) :
  Forall well_formed_term ts ->
  existsb (String.eqb "minus") (pair_words ts) = false.
Proof.
  induction 1 as [| t ts Ht _ IH]; [reflexivity |].
  cbn [pair_words flat_map List.app existsb]. fold (pair_words ts).
  destruct (amount_is_word t Ht) as (_ & _ & _ & Hm).
  destruct (unit_word_is_word t) as (_ & _ & _ & Hum & _).
  now rewrite Hm, Hum, IH.
Qed.

Lemma minus_cut (l r : list string) :
  existsb (String.eqb "minus") l = false ->
  before_minus (List.app l ("minus" :: r)) = l
  /\ after_minus (List.app l ("minus" :: r)) = r
  /\ remove_minus (List.app l ("minus" :: r)) = List.app l r.
Proof.
  induction l as [| x l IH]; [now repeat split |].
  cbn [existsb]. intros [Hx Hl]%orb_false_elim.
  destruct (IH Hl) as (Hb & Ha & Hr).
  rewrite String.eqb_sym in Hx.
  cbn [List.app before_minus after_minus remove_minus]. rewrite Hx.
  now rewrite Hb, Ha, Hr.
Qed.

Lemma pair_words_sides (ts : list term) :
  ts <> [] -> Forall well_formed_term ts ->
  existsb is_unit (pair_words ts) = true
  /\ existsb is_int (pair_words ts) = true.
Proof.
  intros Hne Hts. destruct Hts as [| t ts Ht _]; [congruence |].
  cbn [pair_words flat_map List.app existsb].
  destruct (amount_is_word t Ht) as (_ & _ & Hint & _).
  destruct (unit_word_is_word t) as (_ & _ & Hunit & _).
  rewrite Hint, Hunit. split; [apply orb_true_r | reflexivity].
Qed.

Lemma check_tokens_pairs (ts : list term) (rest : list string) :
  Forall well_formed_term ts ->
  check_tokens true (List.app (pair_words ts) rest) = check_tokens true rest.
Proof.
  induction 1 as [| t ts Ht _ IH]; [reflexivity |].
  cbn [pair_words flat_map List.app check_tokens]. fold (pair_words ts).
  destruct (amount_is_word t Ht) as (_ & _ & Hint & _).
  destruct (unit_word_is_word t) as (_ & _ & Hunit & _).
  rewrite Hint, Hunit. cbn [negb]. exact IH.
Qed.

Lemma rstrip_app_clean (a b : string) :
  Py.rstrip b = b -> b <> "" -> Py.rstrip (a ++ b) = a ++ b.
Proof.
  intros Hb Hne. induction a as [| c a IH]; [exact Hb |].
  change (String c a ++ b) with (String c (a ++ b)).
  cbn [Py.rstrip]. rewrite IH.
  destruct (a ++ b) eqn:Hab; [| reflexivity].
  destruct a; [cbn in Hab; congruence | discriminate].
Qed.

Lemma rstrip_terms (ts : list term) :
  ts <> [] -> Py.rstrip (terms_text ts) = terms_text ts /\ terms_text ts <> "".
Proof.
  induction ts as [| t ts IH]; [congruence |]. intros _.
  destruct (unit_word_is_word t) as (_ & Hune & _ & _ & Hr).
  assert (Hterm : Py.rstrip (term_text t) = term_text t /\ term_text t <> "").
  { split; [| discriminate]. unfold term_text.
    rewrite <- !append_assoc. now apply rstrip_app_clean. }
  cbn [terms_text]. destruct ts as [| t' ts].
  - cbn [terms_text]. now rewrite append_nil_r.
  - destruct (IH ltac:(discriminate)) as [Hrest Hne]. split.
    + now apply rstrip_app_clean.
    + unfold term_text. discriminate.
Qed.

Lemma check_days_absent (query : string) (days : list string) :
  (forall d, In d days -> Py.contains d query = false) ->
  check_days query days = Return false.
Proof.
  induction days as [| d days IH]; [reflexivity |]. intros H.
  cbn [check_days]. rewrite (H d) by now left.
  apply IH. intros; apply H. now right.
Qed.

Lemma contains_suffix_false (p a b : string) :
  Py.contains p (a ++ b) = false -> Py.contains p b = false.
Proof.
  intros H. destruct (Py.contains p b) eqn:Hb; [| reflexivity].
  now rewrite (contains_app_r p a b Hb) in H.
Qed.

Lemma remove_token_text (start rest : string) :
  In start STARTING_TOKENS ->
  Py.strip (start ++ String " " rest) = start ++ String " " rest ->
  existsb (fun token => Py.startswith (Py.strip (start ++ String " " rest))
                                      (token ++ " ")) STARTING_TOKENS = true
  /\ remove_starting_token (start ++ String " " rest) STARTING_TOKENS = rest.
Proof.
  unfold STARTING_TOKENS. cbn [In remove_starting_token existsb].
  intros Hstart ->.
  repeat (destruct Hstart as [<- | Hstart]); try contradiction;
    split; reflexivity.
Qed.

(** The text of a clause is what [strip] leaves of it, and after its
    starting token come the words of its pairs. *)
Lemma clause_text_shape (c : duration_clause) :
  well_formed c -> body c <> [] -> minus c <> Some [] ->
  exists rest,
    clause_text c = start c ++ String " " rest
    /\ Py.strip (clause_text c) = clause_text c
    /\ map Py.strip (Py.split_ws rest)
       = List.app (pair_words (body c))
           match minus c with
           | Some ms => "minus" :: pair_words ms
           | None => []
           end.
Proof.
  intros (Hstart & Hbody & Hminus) Hne Hms. unfold clause_text.
  set (tail := match minus c with
               | Some ms => " minus" ++ terms_text ms
               | None => ""
               end).
  assert (Htail : at_boundary tail)
    by (subst tail; destruct (minus c); [right; eexists | left]; reflexivity).
  destruct (terms_text_boundary (body c) tail Htail) as [Hnil | [rest Hrest]].
  { destruct (body c) as [| t ts]; [congruence | discriminate]. }
  exists rest. rewrite Hrest. split; [reflexivity |].
  assert (Hclean : Py.rstrip (terms_text (body c) ++ tail)
                   = terms_text (body c) ++ tail
                   /\ terms_text (body c) ++ tail <> "").
  { destruct (rstrip_terms (body c) Hne) as [Hr Hn]. subst tail.
    destruct (minus c) as [ms |].
    - destruct (rstrip_terms ms) as [Hr' Hn']; [congruence |]. split.
      + apply rstrip_app_clean; [| discriminate].
        now apply rstrip_app_clean.
      + destruct (terms_text (body c)); [congruence | discriminate].
    - now rewrite append_nil_r. }
  rewrite Hrest in Hclean. destruct Hclean as [Hclean _]. split.
  - unfold Py.strip.
    assert (Hl : Py.lstrip (start c ++ String " " rest)
                 = start c ++ String " " rest).
    { unfold STARTING_TOKENS in Hstart. cbn [In] in Hstart.
      repeat (destruct Hstart as [<- | Hstart]); try contradiction;
        reflexivity. }
    rewrite Hl. apply rstrip_app_clean; [assumption | discriminate].
  - rewrite <- (split_ws_blank rest), <- Hrest.
    rewrite split_ws_terms by assumption. rewrite List.map_app.
    rewrite strip_pair_words by assumption. f_equal.
    subst tail. destruct (minus c) as [ms |]; [| reflexivity].
    change (" minus" ++ terms_text ms)
      with (String " " ("minus" ++ terms_text ms)).
    rewrite split_ws_blank, split_ws_word;
      [| reflexivity | discriminate
       | rewrite <- (append_nil_r (terms_text ms));
         apply terms_text_boundary; now left].
    rewrite <- (append_nil_r (terms_text ms)), split_ws_terms;
      [| assumption | now left].
    cbn [map Py.split_ws]. rewrite app_nil_r.
    rewrite strip_pair_words by assumption. reflexivity.
Qed.

Lemma check_clause_text (c : duration_clause) :
  well_formed c -> body c <> [] -> minus c <> Some [] ->
  check_clause (clause_text c) = Return tt.
Proof.
  intros Hc Hne Hms.
  destruct (clause_text_shape c Hc Hne Hms) as (rest & Htext & Hstrip & Hwords).
  assert (Habsent : forall p, In p foreign_patterns -> p <> "minus" ->
                              Py.contains p rest = false).
  { intros p Hp Hpm.
    pose proof (clause_absent p c Hp Hpm Hc) as H. rewrite Htext in H.
    apply contains_suffix_false in H.
    now apply (contains_suffix_false p " " rest) in H. }
  destruct Hc as (Hstart & Hbody & Hminus).
  unfold check_clause. cbv zeta.
  rewrite (lower_clause_text c (conj Hstart (conj Hbody Hminus))).
  rewrite Htext in Hstrip |- *.
  destruct (remove_token_text (start c) rest Hstart Hstrip) as [Hsome Hrest].
  rewrite Hsome, Hrest. cbn [negb bind].
  rewrite (Habsent "@") by (unfold foreign_patterns; cbn; auto; discriminate).
  cbn [bind].
  rewrite check_days_absent.
  2:{ intros d Hd. apply Habsent.
      - unfold foreign_patterns. cbn [In]. auto.
      - unfold DAYS_OF_THE_WEEK in Hd. cbn [In] in Hd.
        repeat (destruct Hd as [<- | Hd]); try contradiction; discriminate. }
  cbn [bind]. rewrite Hwords.
  destruct (minus c) as [ms |].
  - assert (Hmsne : ms <> []) by congruence.
    rewrite existsb_app, (pair_words_no_minus _ Hbody). cbn [existsb orb].
    rewrite String.eqb_refl. cbn [orb].
    destruct (minus_cut (pair_words (body c)) (pair_words ms)
                (pair_words_no_minus _ Hbody)) as (Hb & Ha & Hr).
    rewrite Hb, Ha, Hr. unfold check_side.
    destruct (pair_words_sides _ Hne Hbody) as [Hu Hn].
    destruct (pair_words_sides _ Hmsne Hminus) as [Hu' Hn'].
    rewrite Hu, Hn, Hu', Hn'. cbn [negb bind].
    rewrite check_tokens_pairs by assumption.
    rewrite <- (app_nil_r (pair_words ms)), check_tokens_pairs by assumption.
    reflexivity.
  - rewrite app_nil_r, (pair_words_no_minus _ Hbody). cbn [bind].
    rewrite <- (app_nil_r (pair_words (body c))), check_tokens_pairs
      by assumption.
    reflexivity.
Qed.

(** X3.  The validator accepts the text of every duration clause: a
    starting token, then one pair or more of an integer and a unit, then,
    optionally, [minus] and one pair or more. *)
Theorem well_formed_clause_accepted (c : duration_clause) :
  well_formed c -> body c <> [] -> minus c <> Some [] ->
  query_syntax_checker (VStr (clause_text c)) = Return tt.
Proof.
  intros Hc Hne Hms. unfold query_syntax_checker.
  rewrite checker_clause
    by (apply clause_absent;
        [unfold foreign_patterns; cbn; auto | discriminate | assumption]).
  now apply check_clause_text.
Qed.

Lemma well_formed_clause_accepted_witness :
  query_syntax_checker (VStr "every 1 day 2 hours minus 30 minutes") = Return tt.
Proof.
  apply (well_formed_clause_accepted
           {| start := "every";
              body := [{| amount := "1"; unit_of := Day; plural := false |};
                       {| amount := "2"; unit_of := Hour; plural := true |}];
              minus := Some [{| amount := "30"; unit_of := Minute;
                                plural := true |}] |}).
  - split; [vm_compute; auto | split]; repeat constructor.
  - discriminate.
  - discriminate.
Defined.

(** A clause whose [minus] part is the larger one: the validator takes it,
    and it is due at every pass. *)
Lemma parsed_duration_clause (c : duration_clause) :
  well_formed c ->
  parsed_duration (clause_text c)
  = or_one_day (sum_by_unit (body c))
    - match minus c with
      | Some ms => or_one_day (sum_by_unit ms)
      | None => 0
      end.
Proof.
  intros Hc. pose proof (parse_time_clause c Hc) as H.
  unfold parse_time in H. change recursion_limit with (S 999) in H.
  rewrite parse_time_at_value in H. now injection H.
Qed.

Lemma plain_duration_clause (c : duration_clause) :
  well_formed c -> plain_duration (clause_text c) = true.
Proof.
  intros Hc. unfold plain_duration. rewrite (lower_clause_text c Hc).
  rewrite (no_weekday_in_clause c Hc).
  rewrite !clause_absent;
    auto; try discriminate; unfold foreign_patterns; cbn; auto.
Qed.

(** X4.  A duration clause, with integers up to 10^9 in absolute value,
    whose part after [minus] counts more seconds than the part before it
    passes the validator, and [ready] answers true for it at every instant
    from lastFired on. *)
Theorem larger_minus_always_due (tz : Z -> Z) (now : Z)
    (row : gmap string value) (c : duration_clause) (epoch utcoffset : Z) :
  well_formed c -> body c <> [] -> minus c <> Some [] ->
  small_clause c ->
  each_unit_once (body c) ->
  match minus c with Some ms => each_unit_once ms | None => True end ->
  duration_seconds c < 0 ->
  row !! "query" = Some (VStr (clause_text c)) ->
  row !! "last" = Some (VDatetime epoch utcoffset) ->
  epoch + utcoffset <= now ->
  query_syntax_checker (VStr (clause_text c)) = Return tt
  /\ ready tz now row = Return true.
Proof.
  intros Hc Hne Hms Hsmall Honce Honce' Hneg Hq Hlast Hnow. split.
  - unfold query_syntax_checker.
    rewrite checker_clause
      by (apply clause_absent;
          [unfold foreign_patterns; cbn; auto | discriminate | assumption]).
    now apply check_clause_text.
  - rewrite (ready_plain_duration tz now row (clause_text c) epoch utcoffset);
      auto using plain_duration_clause.
    f_equal. apply Z.ltb_lt. rewrite (parsed_duration_clause c Hc).
    unfold duration_seconds in Hneg.
    rewrite (sum_by_unit_once _ Honce).
    destruct (minus c) as [ms |]; [| lia].
    rewrite (sum_by_unit_once _ Honce'). lia.
Qed.

Lemma larger_minus_always_due_witness :
  let c := {| start := "every";
              body := [{| amount := "1"; unit_of := Hour; plural := false |}];
              minus := Some [{| amount := "2"; unit_of := Hour;
                                plural := true |}] |} in
  let row : gmap string value :=
    <["query" := VStr (clause_text c)]> (<["last" := VDatetime 5000 0]> ∅) in
  clause_text c = "every 1 hour minus 2 hours"
  /\ query_syntax_checker (VStr (clause_text c)) = Return tt
  /\ ready (fun _ => 0) 5000 row = Return true.
Proof.
  intros c row. split; [reflexivity |].
  apply (larger_minus_always_due (fun _ => 0) 5000 row c 5000 0).
  - split; [vm_compute; auto | split]; repeat constructor.
  - discriminate.
  - discriminate.
  - split; repeat constructor; vm_compute; discriminate.
  - repeat constructor. intros [].
  - repeat constructor. intros [].
  - reflexivity.
  - reflexivity.
  - reflexivity.
  - lia.
Defined.

(** ** Expressions with [||] under the validator *)

Lemma for_each_ext {A : Type} (f g : A -> outcome unit) (l : list A) :
  (forall x, In x l -> f x = g x) -> for_each f l = for_each g l.
Proof.
  induction l as [| x l IH]; [reflexivity |]. intros H.
  cbn [for_each]. rewrite (H x) by now left.
  rewrite IH; [reflexivity |]. intros; apply H. now right.
Qed.

Lemma for_each_returns {A : Type} (f : A -> outcome unit) (l : list A) :
  for_each f l = Return tt <-> Forall (fun x => f x = Return tt) l.
Proof.
  induction l as [| x l IH]; [split; constructor |].
  cbn [for_each]. split.
  - destruct (f x) as [[] |] eqn:Hx; [| discriminate].
    cbn [bind]. intros H. constructor; [exact Hx | now apply IH].
  - intros H. inversion H as [| ? ? Hx Hl]; subst.
    rewrite Hx. cbn [bind]. now apply IH.
Qed.

Lemma piece_clean (q piece : string) :
  In piece (Py.split "||" q) -> Py.contains "||" (Py.strip piece) = false.
Proof.
  intros Hin.
  pose proof (split_pieces_clean "||" ltac:(discriminate) q piece Hin) as H.
  destruct (Py.contains "||" (Py.strip piece)) eqn:Hs; [| reflexivity].
  now rewrite (contains_strip _ _ Hs) in H.
Qed.

Lemma checker_composed (depth : nat) (q : string) :
  Py.contains "||" q = true ->
  query_syntax_checker_at (S depth) q
  = for_each
      (fun piece =>
         match check_clause (Py.strip piece) with
         | Raise (CronEventSyntaxError e) =>
             syntax_error ("Error in query `" ++ piece ++ "`: " ++ e)
         | r => r
         end)
      (Py.split "||" q).
Proof.
  intros Hq. cbn [query_syntax_checker_at]. rewrite Hq.
  apply for_each_ext. intros piece Hin. unfold call.
  now rewrite (checker_clause depth _ (piece_clean q piece Hin)).
Qed.

(** X5.  An expression with [||] passes the validator exactly when each of
    its pieces, trimmed, passes it on its own. *)
Theorem composed_validation (q : string) :
  Py.contains "||" q = true ->
  query_syntax_checker (VStr q) = Return tt
  <-> Forall (fun piece =>
                query_syntax_checker (VStr (Py.strip piece)) = Return tt)
             (Py.split "||" q).
Proof.
  intros Hq. unfold query_syntax_checker.
  change recursion_limit with (S 999).
  rewrite (checker_composed 999 q Hq), for_each_returns.
  rewrite !List.Forall_forall. split; intros H piece Hin.
  - rewrite (checker_clause _ _ (piece_clean q piece Hin)).
    specialize (H piece Hin).
    destruct (check_clause (Py.strip piece)) as [[] | []];
      try discriminate; reflexivity.
  - specialize (H piece Hin).
    rewrite (checker_clause _ _ (piece_clean q piece Hin)) in H.
    now rewrite H.
Qed.

Lemma composed_validation_witness :
  query_syntax_checker (VStr "every 2 hours || on monday @ 8am") = Return tt
  /\ query_syntax_checker (VStr "every 2 hours ||") <> Return tt.
Proof.
  split.
  - apply (composed_validation "every 2 hours || on monday @ 8am");
      [reflexivity |].
    repeat constructor.
  - intros H.
    apply (composed_validation "every 2 hours ||") in H; [| reflexivity].
    inversion H as [| ? ? _ Hrest]; subst.
    inversion Hrest as [| ? ? Hlast _]; subst.
    discriminate Hlast.
Defined.

(** ** The validator and the case of letters *)

Lemma length_lower (s : string) : String.length (Py.lower s) = String.length s.
Proof. induction s as [| c s IH]; [reflexivity |]. cbn. now rewrite IH. Qed.

Lemma removeprefix_bars_lower (s : string) :
  Py.removeprefix "||" (Py.lower s)
  = option_map Py.lower (Py.removeprefix "||" s).
Proof.
  destruct s as [| a [| b s]]; cbn [Py.lower Py.removeprefix option_map];
    rewrite ?lower_char_bar; try reflexivity.
  - destruct (Ascii.eqb "|" a); reflexivity.
  - destruct (Ascii.eqb "|" a); [| reflexivity].
    destruct (Ascii.eqb "|" b); reflexivity.
Qed.

Lemma cut_bars_lower (s : string) :
  Py.cut "||" (Py.lower s)
  = option_map (fun ab => (Py.lower (fst ab), Py.lower (snd ab)))
               (Py.cut "||" s).
Proof.
  induction s as [| c s IH].
  - reflexivity.
  - change (Py.lower (String c s)) with (String (Py.lower_char c) (Py.lower s)).
    cbn [Py.cut].
    change (String (Py.lower_char c) (Py.lower s)) with (Py.lower (String c s)).
    rewrite removeprefix_bars_lower.
    destruct (Py.removeprefix "||" (String c s)) as [r |]; [reflexivity |].
    cbn [option_map]. rewrite IH.
    destruct (Py.cut "||" s) as [[a b] |]; reflexivity.
Qed.

Lemma split_upto_bars_lower (n : nat) (s : string) :
  Py.split_upto n "||" (Py.lower s) = map Py.lower (Py.split_upto n "||" s).
Proof.
  revert s. induction n as [| n IH]; intros s; [reflexivity |].
  cbn [Py.split_upto]. rewrite cut_bars_lower.
  destruct (Py.cut "||" s) as [[a b] |]; [| reflexivity].
  cbn [option_map fst snd map]. now rewrite IH.
Qed.

Lemma split_bars_lower (s : string) :
  Py.split "||" (Py.lower s) = map Py.lower (Py.split "||" s).
Proof. unfold Py.split. rewrite length_lower. apply split_upto_bars_lower. Qed.

Lemma validation_by_pieces (q : string) :
  Py.contains "||" q = true ->
  query_syntax_checker (VStr q) = Return tt
  <-> Forall (fun piece =>
                query_syntax_checker (VStr (Py.strip piece)) = Return tt)
             (Py.split "||" q).
Proof.
  intros Hq. unfold query_syntax_checker.
  change recursion_limit with (S 999).
  rewrite (checker_composed 999 q Hq), for_each_returns.
  rewrite !List.Forall_forall. split; intros H piece Hin.
  - rewrite (checker_clause _ _ (piece_clean q piece Hin)).
    specialize (H piece Hin).
    destruct (check_clause (Py.strip piece)) as [[] | []];
      try discriminate; reflexivity.
  - specialize (H piece Hin).
    rewrite (checker_clause _ _ (piece_clean q piece Hin)) in H.
    now rewrite H.
Qed.

Lemma check_clause_lower (q : string) : check_clause (Py.lower q) = check_clause q.
Proof. unfold check_clause. now rewrite lower_idem. Qed.

(** X6.  The validator does not look at the case of letters: an expression
    passes exactly when its lower case does, and without [||] the two get
    the same answer, message and all. *)
Theorem validation_ignores_case (q : string) :
  (query_syntax_checker (VStr (Py.lower q)) = Return tt
   <-> query_syntax_checker (VStr q) = Return tt)
  /\ (Py.contains "||" q = false ->
      query_syntax_checker (VStr (Py.lower q)) = query_syntax_checker (VStr q)).
Proof.
  assert (Hplain : Py.contains "||" q = false ->
            query_syntax_checker (VStr (Py.lower q))
            = query_syntax_checker (VStr q)).
  { intros Hq. unfold query_syntax_checker.
    rewrite !checker_clause by now rewrite ?contains_bars_lower.
    apply check_clause_lower. }
  split; [| exact Hplain].
  destruct (Py.contains "||" q) eqn:Hq; [| now rewrite Hplain].
  rewrite (validation_by_pieces q Hq).
  rewrite (validation_by_pieces (Py.lower q))
    by now rewrite contains_bars_lower.
  rewrite split_bars_lower, List.Forall_map.
  rewrite !List.Forall_forall. split; intros H piece Hin; specialize (H piece Hin).
  - unfold query_syntax_checker in *.
    rewrite <- lower_strip in H.
    rewrite checker_clause in H
      by (rewrite contains_bars_lower; now apply (piece_clean q)).
    rewrite checker_clause by now apply (piece_clean q).
    now rewrite check_clause_lower in H.
  - unfold query_syntax_checker in *.
    rewrite <- lower_strip.
    rewrite checker_clause
      by (rewrite contains_bars_lower; now apply (piece_clean q)).
    rewrite checker_clause in H by now apply (piece_clean q).
    now rewrite check_clause_lower.
Qed.

Example case_of_letters :
  query_syntax_checker (VStr "Every 2 HOURS || ON Monday") = Return tt
  /\ query_syntax_checker (VStr "every 2 hours || on monday") = Return tt.
Proof. vm_compute. auto. Qed.

(** ** What the validator accepts *)

Lemma check_tokens_accepts (tokens : list string) :
  (check_tokens true tokens = Return true -> number_unit_pairs tokens = true)
  /\ (check_tokens false tokens = Return true ->
      exists unit_ rest, tokens = unit_ :: rest /\ is_unit unit_ = true
                         /\ number_unit_pairs rest = true).
Proof.
  induction tokens as [| token tokens [IHn IHu]].
  - split; [reflexivity | discriminate].
  - split; cbn [check_tokens].
    + destruct (is_int token) eqn:Hint; cbn [negb]; [| discriminate].
      intros H. destruct (IHu H) as (u & rest & -> & Hunit & Hrest).
      cbn [number_unit_pairs]. now rewrite Hint, Hunit, Hrest.
    + destruct (is_unit token) eqn:Hunit; cbn [negb]; [| discriminate].
      intros H. exists token, tokens. auto.
Qed.

Lemma check_days_found (query : string) (days : list string) :
  check_days query days = Return true ->
  existsb (fun day => Py.contains day query
                      && String.eqb "" (Py.strip (Py.replace day "" query)))
          days = true.
Proof.
  induction days as [| day days IH]; [discriminate |].
  cbn [check_days existsb].
  destruct (Py.contains day query).
  - destruct (1 <? Py.count day query)%nat; [discriminate |].
    destruct (String.eqb "" (Py.strip (Py.replace day "" query)));
      [reflexivity | discriminate].
  - intros H. now rewrite (IH H).
Qed.

Lemma check_clause_shape (q : string) :
  check_clause q = Return tt ->
  lone_weekday (body_text q) = true
  \/ number_unit_pairs (remove_minus (body_words q)) = true.
Proof.
  unfold check_clause, body_words, body_text, lone_weekday. cbv zeta.
  destruct (negb _); cbn [bind]; [discriminate |].
  set (query := remove_starting_token _ _).
  match goal with
  | |- bind _ ?k = Return tt -> _ =>
      assert (Htail : forall body,
                 k body = Return tt ->
                 existsb (fun day =>
                            Py.contains day body
                            && String.eqb "" (Py.strip (Py.replace day "" body)))
                         DAYS_OF_THE_WEEK = true
                 \/ number_unit_pairs
                      (remove_minus (map Py.strip (Py.split_ws body))) = true)
  end.
  { intros body. cbn beta.
    destruct (check_days body DAYS_OF_THE_WEEK) as [[|] | e] eqn:Hdays;
      cbn [bind]; [| | discriminate].
    { intros _. left. now apply check_days_found. }
    set (tokens := map Py.strip (Py.split_ws body)).
    destruct (existsb (String.eqb "minus") tokens) eqn:Hminus.
    - destruct (check_side "before" body _) as [[] | e]; cbn [bind];
        [| discriminate].
      destruct (check_side "after" body _) as [[] | e]; cbn [bind];
        [| discriminate].
      destruct (check_tokens true (remove_minus tokens)) as [[|] | e] eqn:Hloop;
        cbn [bind negb]; try discriminate.
      intros _. right. now apply check_tokens_accepts.
    - cbn [bind]. rewrite (remove_minus_absent _ Hminus).
      destruct (check_tokens true tokens) as [[|] | e] eqn:Hloop;
        cbn [bind negb]; try discriminate.
      intros _. right. now apply check_tokens_accepts. }
  destruct (Py.contains "@" query) eqn:Hat; [| cbn [bind]; apply Htail].
  destruct (1 <? Py.count "@" query)%nat eqn:Hcount; [discriminate |].
  destruct (split_two "@" query) as (a & b & ->); try assumption;
    [discriminate |].
  cbn [Py.first hd].
  destruct (query_at_time_syntax_checker b) as [[] | e]; cbn [bind];
    [apply Htail | discriminate].
Qed.

(** X7.  An expression without [||] that passes the validator starts with
    [every], [in] or [on] and a blank, and its body is either one week day
    alone, or words that are an integer and a unit in turn once the first
    [minus] is taken out: a number with no unit after it, a unit with no
    number before it, or a second [minus] do not pass. *)
Theorem accepted_clause_shape (q : string) :
  Py.contains "||" q = false ->
  query_syntax_checker (VStr q) = Return tt ->
  existsb (fun token => Py.startswith (Py.strip (Py.lower q)) (token ++ " "))
          STARTING_TOKENS = true
  /\ (lone_weekday (body_text q) = true
      \/ number_unit_pairs (remove_minus (body_words q)) = true).
Proof.
  intros Hq. unfold query_syntax_checker.
  rewrite (checker_clause _ _ Hq). intros H. split.
  - unfold check_clause in H. cbv zeta in H.
    destruct (existsb _ STARTING_TOKENS); [reflexivity | discriminate H].
  - now apply check_clause_shape.
Qed.

Lemma accepted_clause_shape_witness :
  number_unit_pairs (remove_minus (body_words "In 1 hour minus 5 minutes @ 8pm"))
  = true
  /\ lone_weekday (body_text "on Friday @ 8:30") = true.
Proof.
  split.
  - destruct (accepted_clause_shape "In 1 hour minus 5 minutes @ 8pm")
      as [_ [Hday | Hpairs]];
      [reflexivity | reflexivity | discriminate Hday | exact Hpairs].
  - destruct (accepted_clause_shape "on Friday @ 8:30")
      as [_ [Hday | Hpairs]];
      [reflexivity | reflexivity | exact Hday | discriminate Hpairs].
Defined.

(** What does not pass, and what does though it reads oddly. *)
Example validator_edges :
  query_syntax_checker (VStr "every 2") <> Return tt
  /\ query_syntax_checker (VStr "every hours") <> Return tt
  /\ query_syntax_checker (VStr "every 2hours") <> Return tt
  /\ query_syntax_checker (VStr "every 1 hour minus 1 minute minus 1 second")
     <> Return tt
  /\ query_syntax_checker (VStr "every 1 hour minus") <> Return tt
  /\ query_syntax_checker (VStr "every") <> Return tt
  /\ query_syntax_checker (VStr "every 1 hour 2 minus hours 3 minutes") = Return tt
  /\ query_syntax_checker (VStr "every @ 8am") = Return tt
  /\ query_syntax_checker (VStr "every -5 hours") = Return tt.
Proof. vm_compute. repeat split; discriminate. Qed.

(** ** Clock hours the validator lets through *)

Lemma ready_false_not_run {json : Type} (json_loads : value -> outcome json)
    (invoke : value -> value -> json -> json -> outcome unit)
    (db_query : gmap string (gmap string value) -> string
                -> outcome (gmap string (gmap string value)))
    (tz : Z -> Z) (now t : Z) (db : gmap string (gmap string value))
    (row : gmap string value) (q : string) :
  row !! "query" = Some (VStr q) ->
  query_syntax_checker (VStr q) = Return tt ->
  ready tz now row = Return false ->
  process_row json_loads invoke db_query tz now t db row = Return db.
Proof.
  intros Hq Hvalid Hready. unfold process_row, getitem.
  rewrite Hq. cbn [bind]. rewrite Hvalid. cbn [bind].
  now rewrite Hready.
Qed.

Lemma hour_cases (h : Z) :
  24 <= h <= 99 -> exists n : nat, (n < 76)%nat /\ h = 24 + Z.of_nat n.
Proof. intros Hh. exists (Z.to_nat (h - 24)). lia. Qed.

Lemma late_hour_checked (h : Z) :
  24 <= h <= 99 -> query_syntax_checker (VStr (daily_at_hour h)) = Return tt.
Proof.
  intros (n & Hn & ->)%hour_cases.
  do 76 (destruct n as [| n]; [vm_compute; reflexivity |]). lia.
Qed.

Lemma late_hour_not_ready (h : Z) (tz : Z -> Z) (now last : Z) :
  24 <= h <= 99 ->
  ready_at_clock tz now last (daily_at_hour h) = Raise ValueError.
Proof.
  intros (n & Hn & ->)%hour_cases.
  do 76 (destruct n as [| n]; [vm_compute; reflexivity |]). lia.
Qed.

Lemma late_hour_branch (h : Z) :
  24 <= h <= 99 ->
  Py.lower (daily_at_hour h) = daily_at_hour h
  /\ Py.contains "||" (daily_at_hour h) = false
  /\ existsb (fun d => Py.contains d (daily_at_hour h)) DAYS_OF_THE_WEEK = false
  /\ Py.contains "@" (daily_at_hour h) = true.
Proof.
  intros (n & Hn & ->)%hour_cases.
  do 76 (destruct n as [| n]; [vm_compute; auto |]). lia.
Qed.

(** X8.  The validator accepts the daily clause at any hour from 24 to 99,
    its range test being empty; [ready] then answers false for the row at
    every instant, on every host, and the manager leaves the row in the
    table as it is: the event is never launched and never removed. *)
Theorem late_hour_never_due {json : Type}
    (json_loads : value -> outcome json)
    (invoke : value -> value -> json -> json -> outcome unit)
    (db_query : gmap string (gmap string value) -> string
                -> outcome (gmap string (gmap string value)))
    (tz : Z -> Z) (now t h : Z) (db : gmap string (gmap string value))
    (row : gmap string value) (epoch utcoffset : Z) :
  24 <= h <= 99 ->
  row !! "query" = Some (VStr (daily_at_hour h)) ->
  row !! "last" = Some (VDatetime epoch utcoffset) ->
  query_syntax_checker (VStr (daily_at_hour h)) = Return tt
  /\ ready tz now row = Return false
  /\ process_row json_loads invoke db_query tz now t db row = Return db.
Proof.
  intros Hh Hq Hlast.
  assert (Hready : ready tz now row = Return false).
  { destruct (late_hour_branch h Hh) as (Hlower & Hbars & Hdays & Hat).
    unfold ready. rewrite ready_at_unfold.
    unfold ready_body, getitem. rewrite Hq, Hlast.
    unfold bind at 1 2. unfold lower_of. rewrite Hlower, Hbars.
    unfold bind at 1 2. unfold last_timestamp.
    rewrite Hdays, Hat. unfold negb.
    now rewrite (late_hour_not_ready h tz now _ Hh). }
  split; [now apply late_hour_checked |].
  split; [exact Hready |].
  apply (ready_false_not_run json_loads invoke db_query tz now t db row
           (daily_at_hour h));
    auto using late_hour_checked.
Qed.

Lemma late_hour_never_due_witness :
  let row : gmap string value :=
    <["id" := VStr "jobs|ping"]> (<["query" := VStr "every 1 day @ 24:00:00"]>
      (<["last" := VDatetime 0 0]> ∅)) in
  ready (fun _ => 0) 1704186000 row = Return false.
Proof.
  intros row.
  apply (late_hour_never_due (fun v => Return v) (fun _ _ _ _ => Return tt)
           plain_store (fun _ => 0) 1704186000 1704186000 24 ∅ row 0 0);
    [lia | reflexivity | reflexivity].
Defined.

(** ** The manager's step and the other rows *)

Lemma row_id_last (t : value) (row : gmap string value) :
  row_id (<["last" := t]> row) = row_id row.
Proof.
  unfold row_id, getitem. now rewrite lookup_insert_ne by discriminate.
Qed.

Lemma removeprefix_app (p r : string) : Py.removeprefix p (p ++ r) = Some r.
Proof.
  induction p as [| c p IH]; [reflexivity |].
  cbn [String.append Py.removeprefix]. now rewrite Ascii.eqb_refl.
Qed.

Lemma plain_store_contract : deletes_by_id plain_store.
Proof.
  intros db i Hi. unfold plain_store, delete_statement.
  rewrite removeprefix_app.
  rewrite (cut_skip "'" "" i "'" Hi).
  cbn [Py.cut Py.removeprefix Ascii.eqb Bool.eqb].
  now rewrite append_nil_r.
Qed.

Lemma delete_row_effect
    (db_query : gmap string (gmap string value) -> string
                -> outcome (gmap string (gmap string value)))
    (db db' : gmap string (gmap string value)) (row : gmap string value) :
  deletes_by_id db_query ->
  (forall i, row_id row = Return i -> avoids "'" i = true) ->
  delete_row db_query db row = Return db' ->
  exists i, row_id row = Return i /\ db' = delete i db.
Proof.
  intros Hstore Hid. unfold delete_row.
  destruct (row_id row) as [i |]; cbn [bind]; [| discriminate].
  rewrite (Hstore db i) by now apply Hid.
  intros [= <-]. eauto.
Qed.

Lemma update_effect
    (db_query : gmap string (gmap string value) -> string
                -> outcome (gmap string (gmap string value)))
    (t : Z) (db db' : gmap string (gmap string value))
    (row : gmap string value) :
  deletes_by_id db_query ->
  (forall i, row_id row = Return i -> avoids "'" i = true) ->
  update db_query t db row = Return db' ->
  db' = db
  \/ exists i, row_id row = Return i
               /\ (db' = delete i db
                   \/ db' = <[i := <["last" := VDatetime t 0]> row]> db).
Proof.
  intros Hstore Hid. unfold update.
  destruct (getitem row "query") as [qv |]; cbn [bind]; [| discriminate].
  destruct (lower_of qv) as [query |]; cbn [bind]; [| discriminate].
  destruct (Py.startswith (Py.strip query) "every").
  - unfold upload_table. rewrite row_id_last.
    destruct (row_id row) as [i |]; cbn [bind]; [| discriminate].
    intros [= <-]. right. exists i. auto.
  - destruct (existsb _ _).
    + intros H.
      destruct (delete_row_effect _ _ _ _ Hstore Hid H) as (i & Hi & ->).
      right. exists i. auto.
    + intros [= <-]. now left.
Qed.

Lemma process_row_effect {json : Type} (json_loads : value -> outcome json)
    (invoke : value -> value -> json -> json -> outcome unit)
    (db_query : gmap string (gmap string value) -> string
                -> outcome (gmap string (gmap string value)))
    (tz : Z -> Z) (now t : Z) (db db' : gmap string (gmap string value))
    (row : gmap string value) :
  deletes_by_id db_query ->
  (forall i, row_id row = Return i -> avoids "'" i = true) ->
  process_row json_loads invoke db_query tz now t db row = Return db' ->
  db' = db
  \/ exists i, row_id row = Return i
               /\ (db' = delete i db
                   \/ db' = <[i := <["last" := VDatetime t 0]> row]> db).
Proof.
  intros Hstore Hid.
  assert (Hdel : delete_row db_query db row = Return db' ->
            db' = db
            \/ exists i, row_id row = Return i
                 /\ (db' = delete i db
                     \/ db' = <[i := <["last" := VDatetime t 0]> row]> db)).
  { intros H.
    destruct (delete_row_effect _ _ _ _ Hstore Hid H) as (i & Hi & ->).
    right. exists i. auto. }
  unfold process_row, getitem.
  destruct (row !! "query") as [qv |]; cbn [bind]; [| discriminate].
  destruct (query_syntax_checker qv) as [[] | e]; cbn [bind].
  - destruct (ready tz now row) as [[|] | e]; cbn [bind].
    + destruct (run json_loads invoke row) as [[] | e]; cbn [bind].
      * destruct (update db_query t db row) as [db'' | e] eqn:Hupdate.
        -- intros [= <-]. now apply (update_effect db_query t db).
        -- destruct e; try discriminate. exact Hdel.
      * destruct e; try discriminate. exact Hdel.
    + intros [= <-]. now left.
    + destruct e; try discriminate. exact Hdel.
  - destruct e; try discriminate. exact Hdel.
Qed.

(** A row of the table whose expression the validator rejects is deleted
    by the manager's step, whatever the launcher would do: the row is not
    launched, its entry is gone, and no other entry changes. *)
Lemma rejected_row_deleted {json : Type} (json_loads : value -> outcome json)
    (invoke : value -> value -> json -> json -> outcome unit)
    (db_query : gmap string (gmap string value) -> string
                -> outcome (gmap string (gmap string value)))
    (tz : Z -> Z) (now t : Z) (db : gmap string (gmap string value))
    (row : gmap string value) (qv : value) (i msg : string) :
  deletes_by_id db_query ->
  avoids "'" i = true ->
  row !! "query" = Some qv ->
  row !! "id" = Some (VStr i) ->
  query_syntax_checker qv = Raise (CronEventSyntaxError msg) ->
  process_row json_loads invoke db_query tz now t db row
  = Return (delete i db)
  /\ (delete i db) !! i = None
  /\ forall j, j <> i -> (delete i db) !! j = db !! j.
Proof.
  intros Hstore Hquote Hq Hi Hbad. split; [| split].
  - unfold process_row, getitem. rewrite Hq. cbn [bind]. rewrite Hbad.
    cbn [bind]. unfold delete_row, row_id, getitem. rewrite Hi.
    cbn [bind]. now apply Hstore.
  - apply lookup_delete_eq.
  - intros j Hj. now apply lookup_delete_ne.
Qed.

Example rejected_row_deleted_example :
  let row : gmap string value :=
    <["id" := VStr "jobs|ping"]> (<["query" := VStr "every banana hours"]>
      (<["last" := VDatetime 0 0]> ∅)) in
  let other : gmap string value :=
    <["id" := VStr "jobs|pong"]> (<["query" := VStr "every 2 hours"]>
      (<["last" := VDatetime 0 0]> ∅)) in
  let db : gmap string (gmap string value) :=
    <["jobs|ping" := row]> (<["jobs|pong" := other]> ∅) in
  process_row (fun v : value => Return v) (fun _ _ _ _ => Raise StoreError)
              plain_store (fun _ => 0) 10 11 db row
  = Return (delete "jobs|ping" db)
  /\ (delete "jobs|ping" db) !! "jobs|pong" = Some other.
Proof.
  intros row other db.
  destruct (rejected_row_deleted (fun v : value => Return v)
              (fun _ _ _ _ => Raise StoreError) plain_store
              (fun _ => 0) 10 11 db row (VStr "every banana hours")
              "jobs|ping" (expected_number "banana") plain_store_contract)
    as (Hstep & _ & Hframe);
    [reflexivity | reflexivity | reflexivity | reflexivity |].
  split; [exact Hstep |].
  rewrite Hframe by discriminate. reflexivity.
Qed.

Lemma main_rows_frame {json : Type} (json_loads : value -> outcome json)
    (invoke : nat -> value -> value -> json -> json -> outcome unit)
    (db_query : gmap string (gmap string value) -> string
                -> outcome (gmap string (gmap string value)))
    (tz : Z -> Z) (clock : nat -> Z) (rows : list (gmap string value)) :
  deletes_by_id db_query ->
  (forall row i, In row rows -> row_id row = Return i -> avoids "'" i = true) ->
  forall (n : nat) (db : gmap string (gmap string value)) (j : string),
    (forall row, In row rows -> row_id row <> Return j) ->
    snd (main_rows json_loads invoke db_query tz clock n db rows) !! j
    = db !! j.
Proof.
  intros Hstore.
  induction rows as [| row rows IH]; intros Hids n db j Hj; [reflexivity |].
  cbn [main_rows].
  destruct (process_row _ _ _ _ _ _ db row) as [db' | e] eqn:Hstep;
    [| reflexivity].
  rewrite IH;
    [| intros r i Hr; apply (Hids r i); now right
     | intros r Hr; apply Hj; now right].
  destruct (process_row_effect _ _ _ _ _ _ _ _ _ Hstore
              (fun i => Hids row i (or_introl eq_refl)) Hstep)
    as [-> | (i & Hi & [-> | ->])]; [reflexivity | |].
  - apply lookup_delete_ne. intros ->. now apply (Hj row (or_introl eq_refl)).
  - apply lookup_insert_ne. intros ->. now apply (Hj row (or_introl eq_refl)).
Qed.

Lemma main_rows_dom {json : Type} (json_loads : value -> outcome json)
    (invoke : nat -> value -> value -> json -> json -> outcome unit)
    (db_query : gmap string (gmap string value) -> string
                -> outcome (gmap string (gmap string value)))
    (tz : Z -> Z) (clock : nat -> Z) (rows : list (gmap string value)) :
  deletes_by_id db_query ->
  (forall row i, In row rows -> row_id row = Return i -> avoids "'" i = true) ->
  forall (n : nat) (db : gmap string (gmap string value)) (j : string),
    snd (main_rows json_loads invoke db_query tz clock n db rows) !! j <> None ->
    db !! j <> None \/ exists row, In row rows /\ row_id row = Return j.
Proof.
  intros Hstore.
  induction rows as [| row rows IH]; intros Hids n db j Hj; [now left |].
  cbn [main_rows] in Hj.
  destruct (process_row _ _ _ _ _ _ db row) as [db' | e] eqn:Hstep;
    [| now left].
  destruct (IH (fun r i Hr => Hids r i (or_intror Hr)) _ _ _ Hj)
    as [Hdb' | (r & Hr & Hid)];
    [| right; exists r; split; [now right | exact Hid]].
  destruct (process_row_effect _ _ _ _ _ _ _ _ _ Hstore
              (fun i => Hids row i (or_introl eq_refl)) Hstep)
    as [-> | (i & Hi & [-> | ->])]; [now left | |].
  - destruct (decide (j = i)) as [-> | Hne].
    + now rewrite lookup_delete_eq in Hdb'.
    + rewrite lookup_delete_ne in Hdb' by congruence. now left.
  - destruct (decide (j = i)) as [-> | Hne].
    + right. exists row. split; [now left | exact Hi].
    + rewrite lookup_insert_ne in Hdb' by congruence. now left.
Qed.

(** X10.  With a store that deletes by id, one pass of the manager over
    rows whose ids hold no quote touches only the entries of those rows: an
    entry under another id is after the pass what it was before, whether
    the pass ends or is left by an exception; and the pass adds no entry
    under an id that is neither in the table nor the id of one of the
    rows. *)
Theorem pass_touches_its_rows_only {json : Type}
    (json_loads : value -> outcome json)
    (invoke : nat -> value -> value -> json -> json -> outcome unit)
    (db_query : gmap string (gmap string value) -> string
                -> outcome (gmap string (gmap string value)))
    (tz : Z -> Z) (clock : nat -> Z) (n : nat)
    (db : gmap string (gmap string value))
    (rows : list (gmap string value)) (j : string) :
  deletes_by_id db_query ->
  (forall row i, In row rows -> row_id row = Return i -> avoids "'" i = true) ->
  ((forall row, In row rows -> row_id row <> Return j) ->
   snd (main_rows json_loads invoke db_query tz clock n db rows) !! j
   = db !! j)
  /\ (snd (main_rows json_loads invoke db_query tz clock n db rows) !! j
      <> None ->
      db !! j <> None \/ exists row, In row rows /\ row_id row = Return j).
Proof.
  intros Hstore Hids. split.
  - now apply main_rows_frame.
  - now apply main_rows_dom.
Qed.

Lemma pass_touches_its_rows_only_witness :
  let mk := fun (i q : string) =>
    (<["id" := VStr i]> (<["query" := VStr q]> (<["last" := VDatetime 0 0]>
     (<["module" := VStr "jobs"]> (<["func" := VStr i]>
     (<["args" := VStr "[]"]> (<["kwargs" := VStr "{}"]> ∅))))))
     : gmap string value) in
  let a := mk "a" "every 2 hours" in
  let b := mk "b" "in 10 minutes" in
  let c := mk "c" "every 1 day" in
  let db : gmap string (gmap string value) :=
    <["a" := a]> (<["b" := b]> (<["c" := c]> ∅)) in
  snd (main_rows (fun v : value => Return v) (fun _ _ _ _ _ => Return tt)
                 plain_store (fun _ => 0) (fun n => 8000 + Z.of_nat n) 0 db
                 [a; b]) !! "c" = Some c.
Proof.
  intros mk a b c db.
  destruct (pass_touches_its_rows_only (fun v : value => Return v)
              (fun _ _ _ _ _ => Return tt) plain_store (fun _ => 0)
              (fun n => 8000 + Z.of_nat n) 0 db [a; b] "c"
              plain_store_contract) as [Hframe _].
  - intros row i [<- | [<- | []]] [= <-]; reflexivity.
  - rewrite Hframe; [reflexivity |].
    intros row [<- | [<- | []]]; discriminate.
Defined.

Example pass_over_three_rows :
  let mk := fun (i q : string) (last : Z) =>
    (<["id" := VStr i]> (<["query" := VStr q]> (<["last" := VDatetime last 0]>
     (<["module" := VStr "jobs"]> (<["func" := VStr i]>
     (<["args" := VStr "[]"]> (<["kwargs" := VStr "{}"]> ∅))))))
     : gmap string value) in
  let a := mk "a" "every 2 hours" 0 in
  let b := mk "b" "every banana" 0 in
  let c := mk "c" "in 10 minutes" 0 in
  let d := mk "d" "every 1 day" 0 in
  let db : gmap string (gmap string value) :=
    <["a" := a]> (<["b" := b]> (<["c" := c]> (<["d" := d]> ∅))) in
  main_rows (fun v : value => Return v) (fun _ _ _ _ _ => Return tt)
            plain_store (fun _ => 0) (fun n => 8000 + Z.of_nat n) 0 db
            [a; b; c; d]
  = (Return tt,
     <["a" := <["last" := VDatetime 8001 0]> a]> (<["d" := d]> ∅)).
Proof. vm_compute. reflexivity. Qed.

(** ** The scheduler's step on a row that fires *)




(** A recurring row stays, with [last] moved to the time of the update. *)
Example recurring_row_kept :
  let row : gmap string value :=
    <["id" := VStr "jobs|ping"]> (<["query" := VStr "Every 2 hours"]>
    (<["last" := VDatetime 0 0]> (<["module" := VStr "jobs"]>
    (<["func" := VStr "ping"]> (<["args" := VStr "[]"]>
    (<["kwargs" := VStr "{}"]> ∅)))))) in
  let db : gmap string (gmap string value) := <["jobs|ping" := row]> ∅ in
  process_row (fun v : value => Return v) (fun _ _ _ _ => Return tt)
              plain_store (fun _ => 0) 90000 90001 db row
  = Return (<["jobs|ping" := <["last" := VDatetime 90001 0]> row]> db).
Proof. vm_compute. reflexivity. Qed.

(** ** The table the log batcher writes *)

Section LoggerTable.

Import EventLogger.

Variable clock : nat -> Z.
Variable store_ok : nat -> bool.
Variable event_id : string.

Ltac out_of_range :=
  solve [ right; left; lia | right; right; lia | now left
        | match goal with
          | H : _ \/ _ \/ _ |- _ =>
              destruct H as [H | [H | H]];
              [left; exact H | right; left; lia | right; right; lia]
          end ].

Lemma stored_lines_refl (after : Z) (tbl : gmap (string * Z) log_row) :
  stored_lines event_id after [] tbl tbl.
Proof.
  split; [| reflexivity]. intros [| k] line H; discriminate H.
Qed.

Lemma stored_lines_app (after : Z) (l1 l2 : list string)
    (t0 t1 t2 : gmap (string * Z) log_row) :
  stored_lines event_id after l1 t0 t1 ->
  stored_lines event_id (after + Z.of_nat (List.length l1)) l2 t1 t2 ->
  stored_lines event_id after (List.app l1 l2) t0 t2.
Proof.
  intros [Hget1 Hframe1] [Hget2 Hframe2]. split.
  - intros k line Hk.
    destruct (Nat.lt_ge_cases k (List.length l1)) as [Hlt | Hge].
    + rewrite nth_error_app1 in Hk by assumption.
      destruct (Hget1 k line Hk) as (r & Hr & Hfields).
      exists r. split; [| exact Hfields].
      rewrite Hframe2 by out_of_range. exact Hr.
    + rewrite nth_error_app2 in Hk by assumption.
      destruct (Hget2 _ line Hk) as (r & Hr & He & Hi & Hl).
      exists r.
      replace (after + 1 + Z.of_nat k)
        with (after + Z.of_nat (List.length l1) + 1
              + Z.of_nat (k - List.length l1)) by lia.
      auto.
  - intros e i Hout. rewrite length_app, Nat2Z.inj_add in Hout.
    rewrite Hframe2 by out_of_range. apply Hframe1. out_of_range.
Qed.

(** The upsert of a call of the store. *)
Lemma upsert_stored (logs : list (string * Z)) :
  forall (rows : list log_row) (after : Z) (tbl : gmap (string * Z) log_row)
         (s s1 : state),
    current_index s = after ->
    create_row clock event_id logs s = (Return rows, s1) ->
    current_index s1 = after + Z.of_nat (List.length logs)
    /\ table s1 = table s /\ store_calls s1 = store_calls s
    /\ stored_lines event_id after (map fst logs) tbl
         (fold_left (fun tbl r => <[(row_event_id r, row_index r) := r]> tbl)
                    rows tbl).
Proof.
  induction logs as [| [log t] logs IH]; intros rows after tbl s s1 Hc Hrun.
  - cbn in Hrun. injection Hrun as <- <-.
    repeat split; try lia; try reflexivity.
    + rewrite Hc. cbn. lia.
    + intros [| k] line H; discriminate H.
  - cbn [create_row] in Hrun.
    unfold and_then, set_current_index, time_time, ret in Hrun.
    cbn beta iota in Hrun.
    match type of Hrun with
    | context [create_row _ _ logs ?s0] =>
        destruct (create_row clock event_id logs s0) as [[rows' | e] s'] eqn:Hrest;
          [| discriminate Hrun];
        destruct (IH rows' (after + 1)
                    (<[(event_id, after + 1) :=
                         {| row_event_id := event_id; row_index := after + 1;
                            row_line := log;
                            row_utc_time := clock (clock_reads s) |}]> tbl)
                    s0 s' ltac:(cbn; lia) Hrest)
          as (Hidx & Htbl & Hcalls & Hget & Hframe)
    end.
    cbn in Htbl, Hcalls. rewrite Hc in Hrun.
    injection Hrun as <- <-.
    cbn [List.length map fst]. rewrite Nat2Z.inj_succ.
    repeat split; try assumption; try lia.
    + intros [| k] line Hk.
      * injection Hk as <-. cbn [fold_left row_event_id row_index].
        change (Z.of_nat 0) with 0. rewrite Z.add_0_r.
        rewrite Hframe by out_of_range. rewrite lookup_insert_eq.
        eexists. repeat split; reflexivity.
      * cbn [nth_error] in Hk.
        destruct (Hget k line Hk) as (r & Hr & He & Hi & Hl).
        exists r. cbn [fold_left row_event_id row_index].
        replace (after + 1 + Z.of_nat (S k)) with (after + 1 + 1 + Z.of_nat k)
          by lia.
        auto.
    + intros e i Hout. cbn [fold_left row_event_id row_index].
      simpl in Hout. rewrite Nat2Z.inj_succ in Hout.
      rewrite Hframe by out_of_range.
      apply lookup_insert_ne. intros [= -> <-].
      destruct Hout as [H | [H | H]]; [congruence | lia | lia].
Qed.

Lemma stored_lines_twice (after : Z) (lines : list string)
    (t0 t1 t2 : gmap (string * Z) log_row) :
  stored_lines event_id after lines t0 t1 ->
  stored_lines event_id after lines t1 t2 ->
  stored_lines event_id after lines t0 t2.
Proof.
  intros [_ Hframe1] [Hget2 Hframe2]. split; [exact Hget2 |].
  intros e i Hout. rewrite Hframe2 by assumption. now apply Hframe1.
Qed.

Lemma upload_logs_stored (rows : list log_row) (after : Z)
    (lines : list string) (s s' : state) (res : outcome unit) :
  (forall tbl, stored_lines event_id after lines tbl
                 (fold_left (fun tbl r => <[(row_event_id r, row_index r) := r]> tbl)
                            rows tbl)) ->
  upload_logs store_ok rows s = (res, s') ->
  current_index s' = current_index s
  /\ match res with
     | Return _ => (rows = [] /\ table s' = table s)
                   \/ stored_lines event_id after lines (table s) (table s')
     | Raise _ => table s' = table s
                  \/ stored_lines event_id after lines (table s) (table s')
     end.
Proof.
  intros Hrows. destruct rows as [| r rows].
  - cbn. intros [= <- <-]. auto.
  - cbn [upload_logs]. unfold and_then, store_call.
    destruct (store_ok (store_calls s)); cbn beta iota.
    + cbn [store_calls]. destruct (store_ok (S (store_calls s)));
        intros [= <- <-]; cbn [current_index table fold_left];
        (split; [reflexivity |]); right; apply (Hrows (table s)).
    + intros [= <- <-]. cbn. auto.
Qed.

Lemma upload_stored (logs : list (string * Z)) (s s' : state) :
  logs <> [] ->
  upload clock store_ok event_id logs s = (Return tt, s') ->
  current_index s' = current_index s + Z.of_nat (List.length logs)
  /\ stored_lines event_id (current_index s) (map fst logs)
       (table s) (table s').
Proof.
  intros Hne Hrun.
  destruct (upload_run clock store_ok event_id logs s)
    as (rows & s1 & Hcreate & Hlines & _ & _ & _ & _ & Hup).
  rewrite Hup in Hrun. clear Hup.
  assert (Hrowsne : rows <> []).
  { intros ->. destruct logs; [congruence | discriminate Hlines]. }
  assert (Hshape : forall tbl,
             stored_lines event_id (current_index s) (map fst logs) tbl
               (fold_left (fun tbl r => <[(row_event_id r, row_index r) := r]> tbl)
                          rows tbl)).
  { intros tbl.
    now apply (upsert_stored logs rows (current_index s) tbl
                 (snd (note_flush logs s)) s1). }
  destruct (upsert_stored logs rows (current_index s) ∅
              (snd (note_flush logs s)) s1 eq_refl Hcreate)
    as (Hidx & Htbl & _ & _).
  cbn in Htbl.
  destruct (upload_logs store_ok rows s1) as [[[] | e] s2] eqn:Hfirst.
  - injection Hrun as <-.
    destruct (upload_logs_stored rows _ _ s1 s2 _ Hshape Hfirst)
      as [Hc [[Hnil _] | Hst]]; [congruence |].
    rewrite Hc, Hidx. split; [reflexivity |]. now rewrite <- Htbl.
  - destruct (upload_logs_stored rows _ _ s1 s2 _ Hshape Hfirst) as [Hc Hst].
    destruct (upload_logs_stored rows _ _ (snd (reconnect s2)) s' _ Hshape Hrun)
      as [Hc' [[Hnil _] | Hst']]; [congruence |].
    cbn in Hc', Hst'. rewrite Hc', Hc, Hidx. split; [reflexivity |].
    rewrite <- Htbl.
    destruct Hst as [Heq | Hst]; [rewrite Heq in Hst'; exact Hst' |].
    now apply (stored_lines_twice _ _ _ (table s2)).
Qed.

Lemma logger_loop_stored (queue : list string) :
  forall (buf : list (string * Z)) (s s' : state),
    logger_loop clock store_ok event_id queue buf s = (Return tt, s') ->
    current_index s'
    = current_index s + Z.of_nat (List.length buf + List.length queue)
    /\ stored_lines event_id (current_index s)
         (List.app (map fst buf) queue) (table s) (table s').
Proof.
  induction queue as [| log queue IH]; intros buf s s' Hrun.
  - cbn [logger_loop] in Hrun. rewrite app_nil_r, Nat.add_0_r.
    destruct buf as [| entry buf].
    + injection Hrun as <-. split; [cbn; lia | apply stored_lines_refl].
    + now apply upload_stored.
  - rewrite logger_loop_line in Hrun. cbv zeta in Hrun.
    set (batch := List.app buf [(log, clock (clock_reads s))]) in *.
    set (s2 := snd (time_time clock (snd (time_time clock s)))) in *.
    assert (Hlines : List.app (map fst buf) (log :: queue)
                     = List.app (map fst batch) queue).
    { subst batch. rewrite List.map_app, <- app_assoc. reflexivity. }
    assert (Hlen : (List.length buf + List.length (log :: queue)
                    = List.length batch + List.length queue)%nat).
    { subst batch. rewrite length_app. cbn. lia. }
    rewrite Hlines, Hlen.
    destruct (flush_due (last_log s) _ batch).
    + destruct (upload clock store_ok event_id batch s2)
        as [[[] | e] s3] eqn:Hup; [| discriminate Hrun].
      destruct (upload_stored batch s2 s3) as [Hidx Hst];
        [subst batch; destruct buf; discriminate | exact Hup |].
      destruct (IH _ _ _ Hrun) as [Hidx' Hst'].
      cbn in Hidx', Hst'. cbn in Hidx, Hst. split.
      * rewrite Hidx', Hidx. lia.
      * apply (stored_lines_app _ _ _ _ (table s3)); [exact Hst |].
        rewrite length_map, <- Hidx. exact Hst'.
    + destruct (IH _ _ _ Hrun) as [Hidx' Hst'].
      cbn in Hidx', Hst'. split; [exact Hidx' | exact Hst'].
Qed.

End LoggerTable.

(** A line that is alone in the buffer waits for the next line: time that
    passes does not flush it.  The first line is taken in the second in
    which the batcher was created and is kept; nothing is written until the
    second line comes, a hundred seconds later, and both go to the store in
    one batch then. *)
Lemma idle_line_waits :
  let clock := fun n : nat => if (n <=? 2)%nat then 0 else 100 in
  let s0 := EventLogger.init clock in
  let s2 := snd (EventLogger.time_time clock
                   (snd (EventLogger.time_time clock s0))) in
  let r := EventLogger.logger clock (fun _ => true) "e" ["a"; "b"] s0 in
  flush_due (EventLogger.last_log s0) 0 [("a", 0)] = false
  /\ EventLogger.logger clock (fun _ => true) "e" ["a"; "b"] s0
     = EventLogger.logger_loop clock (fun _ => true) "e" ["b"] [("a", 0)] s2
  /\ EventLogger.table s2 = ∅
  /\ EventLogger.flushes s2 = []
  /\ fst r = Return tt
  /\ EventLogger.flushes (snd r) = [[("a", 0); ("b", 100)]]
  /\ option_map EventLogger.row_utc_time (EventLogger.table (snd r) !! ("e", 0))
     = Some 100.
Proof.
  intros clock s0 s2 r.
  repeat (split; [vm_compute; reflexivity |]).
  vm_compute. reflexivity.
Qed.

(** C9, as the code has it.  The batcher tests once per line: when [logger]
    has taken a line from the queue and put it in its buffer, it hands the
    buffer to [upload] exactly when more than one second has passed since
    the last flush or the buffer holds more than 100 lines; the table is
    not written otherwise, and the buffer is kept for the next line.  A
    flush that returns has put the lines of the buffer in the table, under
    the indices that follow the logger's index, and has changed no other
    entry.  On the sentinel the lines still in the buffer are flushed in
    the same way.  When the worker ends without an exception, every line of
    the queue is in the table, in order; with a store that takes the writes
    it does end so.  101 lines within the same second are flushed at the
    101st; a line that comes more than one second after the last flush is
    flushed alone, when it comes. *)
Theorem logger_flushes_when_due (clock : nat -> Z) (store_ok : nat -> bool)
    (event_id : string) :
  (forall (log : string) (queue : list string) (buf : list (string * Z))
      (s : EventLogger.state),
      let t := clock (EventLogger.clock_reads s) in
      let now := clock (S (EventLogger.clock_reads s)) in
      let batch := List.app buf [(log, t)] in
      let s2 := snd (EventLogger.time_time clock
                       (snd (EventLogger.time_time clock s))) in
      if flush_due (EventLogger.last_log s) now batch then
        match EventLogger.upload clock store_ok event_id batch s2 with
        | (Return _, s3) =>
            stored_lines event_id (EventLogger.current_index s)
              (map fst batch) (EventLogger.table s) (EventLogger.table s3)
            /\ EventLogger.current_index s3
               = EventLogger.current_index s + Z.of_nat (List.length batch)
            /\ EventLogger.logger_loop clock store_ok event_id (log :: queue) buf s
               = EventLogger.logger_loop clock store_ok event_id queue []
                   (snd (EventLogger.set_last_log
                           (clock (EventLogger.clock_reads s3))
                           (snd (EventLogger.time_time clock s3))))
        | (Raise e, s3) =>
            EventLogger.logger_loop clock store_ok event_id (log :: queue) buf s
            = (Raise e, s3)
        end
      else
        EventLogger.table s2 = EventLogger.table s
        /\ EventLogger.current_index s2 = EventLogger.current_index s
        /\ EventLogger.logger_loop clock store_ok event_id (log :: queue) buf s
           = EventLogger.logger_loop clock store_ok event_id queue batch s2)
  /\ (forall (buf : list (string * Z)) (s : EventLogger.state),
         EventLogger.logger_loop clock store_ok event_id [] buf s
         = match buf with
           | [] => (Return tt, s)
           | _ => EventLogger.upload clock store_ok event_id buf s
           end)
  /\ (forall (buf : list (string * Z)) (s s' : EventLogger.state),
         buf <> [] ->
         EventLogger.logger_loop clock store_ok event_id [] buf s
         = (Return tt, s') ->
         stored_lines event_id (EventLogger.current_index s) (map fst buf)
           (EventLogger.table s) (EventLogger.table s'))
  /\ (forall (queue : list string) (s s' : EventLogger.state),
         EventLogger.logger clock store_ok event_id queue s = (Return tt, s') ->
         stored_lines event_id (EventLogger.current_index s) queue
           (EventLogger.table s) (EventLogger.table s'))
  /\ (forall (queue : list string) (s : EventLogger.state),
         exists s',
           EventLogger.logger clock (fun _ => true) event_id queue s
           = (Return tt, s'))
  /\ (let r := EventLogger.logger (fun _ => 0) (fun _ => true) "e"
                 (repeat "line" 102) (EventLogger.init (fun _ => 0)) in
      map (@List.length _) (EventLogger.flushes (snd r)) = [101; 1]%nat
      /\ EventLogger.store_calls (snd r) = 4%nat
      /\ option_map EventLogger.row_line
           (EventLogger.table (snd r) !! ("e", 101)) = Some "line")
  /\ (let clock := fun n : nat => if (n =? 0)%nat then 0 else 5 in
      let r := EventLogger.logger clock (fun _ => true) "e" ["a"; "b"]
                 (EventLogger.init clock) in
      EventLogger.flushes (snd r) = [[("a", 5)]; [("b", 5)]]
      /\ option_map EventLogger.row_line
           (EventLogger.table (snd r) !! ("e", 0)) = Some "a").
Proof.
  split; [| split; [| split; [| split; [| split; [| split]]]]].
  - intros log queue buf s t now batch s2.
    pose proof (logger_loop_line clock store_ok event_id log queue buf s) as Hline.
    cbv zeta in Hline. fold t now batch s2 in Hline.
    destruct (flush_due _ now batch).
    + destruct (EventLogger.upload clock store_ok event_id batch s2)
        as [[[] | e] s3] eqn:Hup; [| exact Hline].
      destruct (upload_stored clock store_ok event_id batch s2 s3) as [Hidx Hst];
        [subst batch; destruct buf; discriminate | exact Hup |].
      split; [exact Hst | split; [exact Hidx | exact Hline]].
    + split; [reflexivity | split; [reflexivity | exact Hline]].
  - intros [| entry buf] s; reflexivity.
  - intros buf s s' Hne Hrun. destruct buf as [| entry buf]; [congruence |].
    cbn [EventLogger.logger_loop] in Hrun.
    now apply (upload_stored clock store_ok event_id (entry :: buf) s s').
  - intros queue s s' Hrun. unfold EventLogger.logger in Hrun.
    now destruct (logger_loop_stored clock store_ok event_id queue [] s s' Hrun).
  - intros queue s.
    destruct (logger_loop_complete clock event_id queue [] s)
      as (s' & new & Hrun & _); [cbn; lia |].
    now exists s'.
  - vm_compute. auto.
  - vm_compute. auto.
Qed.

(** X11.  When the worker of a new [EventLogger] ends without an exception,
    whatever the store did on the way, the table holds every line of the
    queue: the [k]-th line stands under the key [(event_id, k)], counting
    from 0, the logger's index stands after the last line, and the table
    holds nothing else. *)
Theorem logger_stores_every_line (clock : nat -> Z) (store_ok : nat -> bool)
    (event_id : string) (queue : list string) (s' : EventLogger.state) :
  EventLogger.logger clock store_ok event_id queue (EventLogger.init clock)
  = (Return tt, s') ->
  (forall (k : nat) (line : string),
      nth_error queue k = Some line ->
      exists r, EventLogger.table s' !! (event_id, Z.of_nat k) = Some r
                /\ EventLogger.row_event_id r = event_id
                /\ EventLogger.row_index r = Z.of_nat k
                /\ EventLogger.row_line r = line)
  /\ EventLogger.current_index s' = Z.of_nat (List.length queue) - 1
  /\ (forall (e : string) (i : Z),
         EventLogger.table s' !! (e, i) <> None ->
         e = event_id /\ 0 <= i < Z.of_nat (List.length queue)).
Proof.
  intros Hrun. unfold EventLogger.logger in Hrun.
  destruct (logger_loop_stored clock store_ok event_id queue [] _ _ Hrun)
    as [Hidx [Hget Hframe]].
  cbn in Hidx, Hget, Hframe. split; [| split].
  - intros k line Hk. destruct (Hget k line Hk) as (r & Hr & He & Hi & Hl).
    replace (-1 + 1 + Z.of_nat k) with (Z.of_nat k) in * by lia. eauto.
  - lia.
  - intros e i Hin.
    destruct (decide (e = event_id)) as [-> | Hne].
    + split; [reflexivity |].
      destruct (Z_le_gt_dec i (-1)) as [Hlow | Hlow];
        [rewrite Hframe in Hin by (right; left; lia);
         now rewrite lookup_empty in Hin |].
      destruct (Z_lt_le_dec (-1 + Z.of_nat (List.length queue)) i) as [Hhigh | Hhigh];
        [rewrite Hframe in Hin by (right; right; lia);
         now rewrite lookup_empty in Hin |].
      lia.
    + rewrite Hframe in Hin by auto. now rewrite lookup_empty in Hin.
Qed.

Lemma logger_stores_every_line_witness :
  let clock := fun n : nat => Z.of_nat n in
  let store_ok := fun n : nat => negb (n =? 0)%nat in
  let r := EventLogger.logger clock store_ok "e" ["a"; "b"; "c"]
             (EventLogger.init clock) in
  fst r = Return tt
  /\ EventLogger.connections (snd r) = 1%nat
  /\ exists row, EventLogger.table (snd r) !! ("e", 2) = Some row
                 /\ EventLogger.row_line row = "c".
Proof.
  intros clock store_ok r.
  assert (Hrun : r = (Return tt, snd r)) by (vm_compute; reflexivity).
  split; [reflexivity |]. split; [reflexivity |].
  destruct (logger_stores_every_line clock store_ok "e" ["a"; "b"; "c"]
              (snd r) Hrun) as (Hget & _ & _).
  destruct (Hget 2%nat "c" eq_refl) as (row & Hrow & _ & _ & Hline).
  exists row. split; [exact Hrow | exact Hline].
Defined.

(** ** Registration *)

Lemma event_key_cut (m f : string) :
  avoids "|" m = true -> Py.cut "|" (event_key m f) = Some (m, f).
Proof.
  intros Hm. unfold event_key.
  rewrite (cut_skip "|" "" m ("|" ++ f) Hm).
  change ("|" ++ f) with (String "|" f).
  cbn [Py.cut Py.removeprefix Ascii.eqb Bool.eqb].
  now rewrite append_nil_r.
Qed.

(** X12.  The rows of two registrations are kept under different ids as
    soon as the two differ in module or function and the module names
    hold no [|]: then the second registration does not overwrite the
    first, and each row is found under its id. *)
Theorem registrations_kept_apart (t t' : Z)
    (db : gmap string (gmap string value))
    (m f a k q m' f' a' k' q' : string) :
  avoids "|" m = true -> avoids "|" m' = true ->
  (m, f) <> (m', f') ->
  exists db1 db2,
    create_event t db m f a k q = Return db1
    /\ create_event t' db1 m' f' a' k' q' = Return db2
    /\ db2 !! event_key m f = Some (event_row m f a k q t)
    /\ db2 !! event_key m' f' = Some (event_row m' f' a' k' q' t').
Proof.
  intros Hm Hm' Hne.
  assert (Hkey : event_key m f <> event_key m' f').
  { intros Heq. apply Hne.
    pose proof (event_key_cut m f Hm) as Hcut.
    rewrite Heq, (event_key_cut m' f' Hm') in Hcut. congruence. }
  exists (<[event_key m f := event_row m f a k q t]> db),
         (<[event_key m' f' := event_row m' f' a' k' q' t']>
            (<[event_key m f := event_row m f a k q t]> db)).
  repeat split.
  - rewrite lookup_insert_ne by congruence. apply lookup_insert_eq.
  - apply lookup_insert_eq.
Qed.

Lemma registrations_kept_apart_witness :
  exists db1 db2,
    create_event 10 ∅ "jobs" "ping" "[]" "{}" "every 2 hours" = Return db1
    /\ create_event 20 db1 "jobs" "pong" "[]" "{}" "on monday" = Return db2
    /\ db2 !! "jobs|ping"
       = Some (event_row "jobs" "ping" "[]" "{}" "every 2 hours" 10)
    /\ db2 !! "jobs|pong"
       = Some (event_row "jobs" "pong" "[]" "{}" "on monday" 20).
Proof.
  apply (registrations_kept_apart 10 20 ∅ "jobs" "ping" "[]" "{}"
           "every 2 hours" "jobs" "pong" "[]" "{}" "on monday");
    [reflexivity | reflexivity | discriminate].
Defined.

(** With [|] in a module name two registrations can meet under one id. *)
Example registrations_meet :
  event_key "a|b" "c" = event_key "a" "b|c"
  /\ exists db1 db2,
       create_event 10 ∅ "a|b" "c" "[]" "{}" "every 2 hours" = Return db1
       /\ create_event 20 db1 "a" "b|c" "[]" "{}" "on monday" = Return db2
       /\ db2 !! event_key "a|b" "c"
          = Some (event_row "a" "b|c" "[]" "{}" "on monday" 20).
Proof.
  split; [reflexivity |]. eexists _, _.
  split; [reflexivity |]. split; [reflexivity |]. reflexivity.
Qed.

Lemma row_id_column (column : string) (v : value) (row : gmap string value) :
  column <> "id" -> row_id (<[column := v]> row) = row_id row.
Proof.
  intros Hne. unfold row_id, getitem. now rewrite lookup_insert_ne.
Qed.

(** X13.  Registration of an expression the validator accepts.  When the
    store knows no row for the module and the function, or cannot answer,
    a row is created under [module|func] with [last] at the time of the
    registration.  When it knows one, that row gets the expression and the
    arguments of the registration, and its [last] is kept if the
    expression is the one it had, and set to the time of the registration
    if not. *)
Theorem registration_keeps_timer (t : Z)
    (download : gmap string (gmap string value) -> string -> string
                -> outcome (list (gmap string value)))
    (db : gmap string (gmap string value))
    (query m f args kwargs : string) :
  query_syntax_checker (VStr query) = Return tt ->
  ((download db m f = Return [] \/ exists e, download db m f = Raise e) ->
   event true download t db query (Some m) (Some f) m f args kwargs
   = Return (<[event_key m f := event_row m f args kwargs query t]> db))
  /\ (forall (old : gmap string value) (i : string) (stored : value),
         download db m f = Return [old] ->
         row_id old = Return i ->
         old !! "query" = Some stored ->
         exists new,
           event true download t db query (Some m) (Some f) m f args kwargs
           = Return (<[i := new]> db)
           /\ new !! "query" = Some (VStr query)
           /\ new !! "args" = Some (VStr args)
           /\ new !! "kwargs" = Some (VStr kwargs)
           /\ new !! "last" = (if differs query stored
                               then Some (VDatetime t 0) else old !! "last")
           /\ forall column,
               column <> "query" -> column <> "args" -> column <> "kwargs"
               -> column <> "last" -> new !! column = old !! column).
Proof.
  intros Hvalid. split.
  - intros Hnone. unfold event. rewrite Hvalid. cbn [bind].
    destruct Hnone as [-> | [e ->]]; reflexivity.
  - intros old i stored Hdown Hid Hstored.
    unfold event. rewrite Hvalid, Hdown. cbn [bind].
    unfold getitem. rewrite Hstored. cbn [bind upload_rows].
    exists (<["kwargs" := VStr kwargs]>
              (<["args" := VStr args]>
                 (<["query" := VStr query]>
                    (if differs query stored
                     then <["last" := VDatetime t 0]> old else old)))).
    split; [| split; [| split; [| split; [| split]]]].
    + unfold upload_table.
      rewrite !row_id_column by discriminate.
      destruct (differs query stored);
        rewrite ?row_id_column by discriminate; rewrite Hid; reflexivity.
    + rewrite !lookup_insert_ne by discriminate. apply lookup_insert_eq.
    + rewrite lookup_insert_ne by discriminate. apply lookup_insert_eq.
    + apply lookup_insert_eq.
    + rewrite !lookup_insert_ne by discriminate.
      destruct (differs query stored); [apply lookup_insert_eq | reflexivity].
    + intros column Hq Ha Hk Hl.
      rewrite !lookup_insert_ne by congruence.
      destruct (differs query stored);
        [now rewrite lookup_insert_ne by congruence | reflexivity].
Qed.

Lemma registration_keeps_timer_witness :
  let old := event_row "jobs" "ping" "[]" "{}" "every 2 hours" 100 in
  let db : gmap string (gmap string value) := <["jobs|ping" := old]> ∅ in
  let download := fun (db : gmap string (gmap string value)) (m f : string) =>
    Return (match db !! event_key m f with Some r => [r] | None => [] end) in
  exists new,
    event true download 900 db "every 2 hours" (Some "jobs") (Some "ping")
          "jobs" "ping" "[1]" "{}" = Return (<["jobs|ping" := new]> db)
    /\ new !! "last" = Some (VDatetime 100 0)
    /\ new !! "args" = Some (VStr "[1]").
Proof.
  intros old db download.
  destruct (registration_keeps_timer 900 download db "every 2 hours"
              "jobs" "ping" "[1]" "{}" eq_refl) as [_ Hknown].
  destruct (Hknown old "jobs|ping" (VStr "every 2 hours")
              eq_refl eq_refl eq_refl)
    as (new & Hrun & _ & Hargs & _ & Hlast & _).
  exists new. split; [exact Hrun |]. split; [exact Hlast | exact Hargs].
Defined.

Example registration_cases :
  let old := event_row "jobs" "ping" "[]" "{}" "every 2 hours" 100 in
  let db : gmap string (gmap string value) := <["jobs|ping" := old]> ∅ in
  let download := fun (db : gmap string (gmap string value)) (m f : string) =>
    Return (match db !! event_key m f with Some r => [r] | None => [] end) in
  event true download 900 db "every 3 hours" (Some "jobs") (Some "ping")
        "jobs" "ping" "[]" "{}"
  = Return (<["jobs|ping" :=
               event_row "jobs" "ping" "[]" "{}" "every 3 hours" 900]> db)
  /\ event true download 900 db "every banana" (Some "jobs") (Some "ping")
           "jobs" "ping" "[]" "{}"
     = Raise (CronEventSyntaxError (expected_number "banana"))
  /\ event false download 900 db "every banana" None None
           "jobs" "ping" "[]" "{}" = Return db
  /\ event true download 900 db "in 5 minutes" None None
           "jobs" "pong" "[]" "{}"
     = Return (<["jobs|pong" :=
                  event_row "jobs" "pong" "[]" "{}" "in 5 minutes" 900]> db).
Proof.
  repeat split; vm_compute; reflexivity.
Qed.

(** ** Clock values *)

Lemma final_split_at (p rest : string) :
  Py.final (Py.split "@" (p ++ String "@" rest))
  = Py.final (Py.split "@" rest).
Proof.
  induction p as [| c p IH].
  - change ("" ++ String "@" rest) with (String "@" rest).
    rewrite (split_cut_some "@" (String "@" rest) "" rest)
      by (discriminate || reflexivity).
    apply final_cons, split_nonempty.
  - change (String c p ++ String "@" rest)
      with (String c (p ++ String "@" rest)).
    destruct (Py.cut "@" (String c (p ++ String "@" rest)))
      as [[a b] |] eqn:Hcut.
    + rewrite (split_cut_some "@" _ a b ltac:(discriminate) Hcut).
      rewrite final_cons by apply split_nonempty.
      cbn [Py.cut Py.removeprefix] in Hcut.
      destruct (Ascii.eqb "@" c).
      * injection Hcut as <- <-. exact IH.
      * destruct (Py.cut "@" (p ++ String "@" rest)) as [[a' b'] |] eqn:Hcut';
          [| discriminate Hcut].
        injection Hcut as <- <-.
        rewrite <- IH.
        rewrite (split_cut_some "@" _ a' b' ltac:(discriminate) Hcut').
        symmetry. apply final_cons, split_nonempty.
    + pose proof (cut_spec "@" (String c (p ++ String "@" rest))) as Hspec.
      rewrite Hcut in Hspec.
      pose proof (contains_app_r "@" (String c p) (String "@" rest) eq_refl)
        as Hin.
      change (String c p ++ String "@" rest)
        with (String c (p ++ String "@" rest)) in Hin.
      congruence.
Qed.

Lemma clock_after_last_at (p k : string) :
  parse_time_timedelta (p ++ String "@" k) = parse_time_timedelta (String "@" k).
Proof.
  unfold parse_time_timedelta.
  pose proof (final_split_at "" k) as Hnil.
  change ("" ++ String "@" k) with (String "@" k) in Hnil.
  rewrite (final_split_at p k), Hnil. reflexivity.
Qed.

Lemma small_hour_cases (h : Z) :
  1 <= h <= 12 -> exists n : nat, (n < 12)%nat /\ h = 1 + Z.of_nat n.
Proof. intros Hh. exists (Z.to_nat (h - 1)). lia. Qed.

(** X14.  The clock value of a week-day clause is read after the last
    [@], whatever stands before it.  An hour from 1 to 12 followed by [am]
    is that hour, so that [12am] is noon; followed by [pm] it is twelve
    hours later, [12pm] being noon too.  The validator accepts each of
    these clock texts. *)
Theorem clock_am_pm (p : string) (h : Z) :
  1 <= h <= 12 ->
  parse_time_timedelta (p ++ "@ " ++ Py.str h ++ "am") = Return (h * 3600)
  /\ parse_time_timedelta (p ++ "@ " ++ Py.str h ++ "pm")
     = Return ((if h =? 12 then 12 else h + 12) * 3600)
  /\ query_at_time_syntax_checker (" " ++ Py.str h ++ "am") = Return tt
  /\ query_at_time_syntax_checker (" " ++ Py.str h ++ "pm") = Return tt.
Proof.
  intros (n & Hn & ->)%small_hour_cases.
  change (p ++ "@ " ++ Py.str (1 + Z.of_nat n) ++ "am")
    with (p ++ String "@" (" " ++ Py.str (1 + Z.of_nat n) ++ "am")).
  change (p ++ "@ " ++ Py.str (1 + Z.of_nat n) ++ "pm")
    with (p ++ String "@" (" " ++ Py.str (1 + Z.of_nat n) ++ "pm")).
  rewrite !clock_after_last_at.
  do 12 (destruct n as [| n]; [vm_compute; auto |]). lia.
Qed.

Lemma clock_am_pm_witness :
  parse_time_timedelta "on monday @ 12am" = Return 43200
  /\ parse_time_timedelta "on monday @ 12pm" = Return 43200.
Proof.
  destruct (clock_am_pm "on monday " 12 ltac:(lia)) as (Ham & Hpm & _).
  split; [exact Ham | exact Hpm].
Defined.

(** ** The fields of a clock text *)

Lemma avoids_app (x : ascii) (a b : string) :
  avoids x (a ++ b) = avoids x a && avoids x b.
Proof.
  unfold avoids. induction a as [| c a IH]; [reflexivity |].
  cbn [String.append list_ascii_of_string forallb]. rewrite IH.
  now rewrite andb_assoc.
Qed.

Lemma contains_avoids (x : ascii) (p w : string) :
  avoids x w = true -> Py.contains (String x p) w = false.
Proof.
  intros Hw. rewrite <- (append_nil_r w).
  now rewrite (contains_skip x p w "" Hw).
Qed.

Lemma integer_word_chars (w : string) :
  integer_word w = true ->
  number_chars w = true /\ w <> "" /\ is_word w = true
  /\ exists v, Py.int w = Some v.
Proof.
  unfold integer_word. intros [Hint Hword]%andb_prop.
  destruct (int_word_chars w Hint Hword) as [Hchars Hne].
  repeat split; try assumption.
  unfold is_int in Hint. destruct (Py.int w) as [v |]; [eauto | discriminate].
Qed.

Lemma replace_absent (p r s : string) :
  Py.contains p s = false -> Py.replace p r s = s.
Proof.
  intros H. unfold Py.replace. now rewrite (split_absent p s H).
Qed.

Lemma cut_colon (w rest : string) :
  number_chars w = true ->
  Py.cut ":" (w ++ String ":" rest) = Some (w, rest).
Proof.
  intros Hw.
  rewrite (cut_skip ":" "" w (String ":" rest))
    by (apply number_chars_avoids; [reflexivity | assumption]).
  cbn [Py.cut Py.removeprefix Ascii.eqb Bool.eqb].
  now rewrite append_nil_r.
Qed.

Lemma split_colon_word (w : string) :
  number_chars w = true -> Py.split ":" w = [w].
Proof.
  intros Hw. apply split_absent, contains_avoids.
  apply number_chars_avoids; [reflexivity | assumption].
Qed.

Lemma strip_padded (pad w rest : string) :
  pad = "" \/ pad = " " ->
  number_chars w = true -> w <> "" ->
  Py.rstrip (w ++ rest) = w ++ rest ->
  Py.strip (pad ++ w ++ rest) = w ++ rest.
Proof.
  intros Hpad Hw Hne Hr. unfold Py.strip.
  assert (Hl : Py.lstrip (w ++ rest) = w ++ rest).
  { destruct w as [| c w]; [congruence |].
    cbn [number_chars list_ascii_of_string forallb] in Hw.
    apply andb_prop in Hw as [Hc _].
    change (String c w ++ rest) with (String c (w ++ rest)).
    cbn [Py.lstrip]. now rewrite (number_char_not_space c Hc). }
  destruct Hpad as [-> | ->].
  - change ("" ++ w ++ rest) with (w ++ rest). now rewrite Hl.
  - change (" " ++ w ++ rest) with (String " " (w ++ rest)).
    cbn [Py.lstrip]. change (Py.is_space " ") with true. cbn iota.
    now rewrite Hl.
Qed.

Lemma clock_text_clean (pad rest : string) (x : ascii) (p : string) :
  pad = "" \/ pad = " " ->
  avoids x rest = true -> Ascii.eqb x " " = false ->
  Py.contains (String x p) (pad ++ rest) = false.
Proof.
  intros Hpad Hrest Hx. apply contains_avoids. rewrite avoids_app, Hrest.
  destruct Hpad as [-> | ->]; [reflexivity |].
  unfold avoids. cbn [list_ascii_of_string forallb]. now rewrite Hx.
Qed.

Lemma checker_on_fields (at_ clean h m s : string) :
  Py.contains "am" at_ = false -> Py.contains "pm" at_ = false ->
  Py.strip at_ = clean ->
  (Py.count ":" clean <= 2)%nat ->
  (if (Py.count ":" clean =? 2)%nat then Py.split ":" clean = [h; m; s]
   else if (Py.count ":" clean =? 1)%nat
        then Py.split ":" clean = [h; m] /\ s = "0"
        else clean = h /\ m = "0" /\ s = "0") ->
  is_int h = true -> is_int m = true -> is_int s = true ->
  query_at_time_syntax_checker at_ = Return tt.
Proof.
  intros Ham Hpm Hstrip Hcount Hfields Hh Hm Hs.
  unfold query_at_time_syntax_checker. rewrite Ham, Hpm. cbn [bind].
  rewrite (replace_absent "am" "" at_ Ham), (replace_absent "pm" "" at_ Hpm).
  rewrite Hstrip.
  replace (2 <? Py.count ":" clean)%nat with false
    by (symmetry; apply Nat.ltb_ge; exact Hcount).
  cbn [bind].
  assert (Hparse : forall w, is_int w = true ->
                     exists v, int_or_ValueError w = Return v).
  { intros w Hw. unfold int_or_ValueError, is_int in *.
    destruct (Py.int w) as [v |]; [eauto | discriminate]. }
  destruct (Hparse h Hh) as [vh Hvh].
  destruct (Hparse m Hm) as [vm Hvm].
  destruct (Hparse s Hs) as [vs Hvs].
  assert (Hrest : forall fields : outcome (string * string * string),
             fields = Return (h, m, s) ->
             bind fields (fun fields =>
               let '(hour, minute, second) := fields in
               hms <- try_except
                        (h0 <- int_or_ValueError hour ;;
                         let h0 := if false then h0 + 12 else h0 in
                         m0 <- int_or_ValueError minute ;;
                         s0 <- int_or_ValueError second ;;
                         Return (h0, m0, s0))
                        (fun _ => syntax_error
                           ("Non-int value for time found: `" ++ clean ++ "`")) ;;
               let '(hour, minute, second) := hms in
               (if chained_lt 23 hour 0
                then syntax_error ("Invalid hour value: `" ++ Py.str hour
                                   ++ "`. Must be 23 < hour < 0")
                else Return tt) ;;;
               (if chained_lt 59 minute 0
                then syntax_error ("Invalid minute value: `" ++ Py.str minute
                                   ++ "`. Must be 59 < minute < 0")
                else Return tt) ;;;
               (if chained_lt 59 second 0
                then syntax_error ("Invalid second value: `" ++ Py.str second
                                   ++ "`. Must be 59 < second < 0")
                else Return tt)) = Return tt).
  { intros fields ->. cbn [bind]. rewrite Hvh, Hvm, Hvs.
    cbn [bind try_except].
    rewrite !chained_lt_empty by lia. reflexivity. }
  apply Hrest.
  destruct (Py.count ":" clean =? 2)%nat; [now rewrite Hfields |].
  destruct (Py.count ":" clean =? 1)%nat.
  - destruct Hfields as [-> ->]. reflexivity.
  - destruct Hfields as (-> & -> & ->). reflexivity.
Qed.

(** X15.  The clock checker accepts one, two or three integer words joined
    by [:], with or without a blank before them, whatever the integers
    are: no field is held to the range of an hour, a minute or a
    second. *)
Theorem clock_fields_unchecked (pad h m s : string) :
  pad = "" \/ pad = " " ->
  integer_word h = true -> integer_word m = true -> integer_word s = true ->
  query_at_time_syntax_checker (pad ++ h) = Return tt
  /\ query_at_time_syntax_checker (pad ++ h ++ ":" ++ m) = Return tt
  /\ query_at_time_syntax_checker (pad ++ h ++ ":" ++ m ++ ":" ++ s) = Return tt.
Proof.
  intros Hpad (Hh & Hhne & Hhw & vh & Hvh)%integer_word_chars
         (Hm & Hmne & Hmw & vm & Hvm)%integer_word_chars
         (Hs & Hsne & Hsw & vs & Hvs)%integer_word_chars.
  assert (Hint : forall w v, Py.int w = Some v -> is_int w = true)
    by (intros w v H; unfold is_int; now rewrite H).
  change (":" ++ m ++ ":" ++ s) with (String ":" (m ++ String ":" s)).
  change (":" ++ m) with (String ":" m).
  assert (Hcons : forall x w, Ascii.eqb x ":" = false ->
            avoids x (String ":" w) = avoids x w).
  { intros x w Hx. unfold avoids. cbn [list_ascii_of_string forallb].
    now rewrite Hx. }
  assert (Hav : forall x, number_char x = false -> Ascii.eqb x ":" = false ->
            avoids x h = true /\ avoids x (h ++ String ":" m) = true
            /\ avoids x (h ++ String ":" (m ++ String ":" s)) = true).
  { intros x Hx Hcolon.
    rewrite !avoids_app, !Hcons, !avoids_app, !Hcons by assumption.
    now rewrite !(number_chars_avoids x) by assumption. }
  destruct (Hav "a"%char eq_refl eq_refl) as (Ha1 & Ha2 & Ha3).
  destruct (Hav "p"%char eq_refl eq_refl) as (Hp1 & Hp2 & Hp3).
  assert (Hr1 : Py.rstrip h = h) by now apply rstrip_word.
  assert (Hrs : Py.rstrip (String ":" s) = String ":" s)
    by (rewrite rstrip_cons by reflexivity; now rewrite rstrip_word).
  assert (Hrm : Py.rstrip (String ":" m) = String ":" m)
    by (rewrite rstrip_cons by reflexivity; now rewrite rstrip_word).
  assert (Hr2 : Py.rstrip (h ++ String ":" m) = h ++ String ":" m)
    by (apply rstrip_app_clean; [assumption | discriminate]).
  assert (Hr3 : Py.rstrip (h ++ String ":" (m ++ String ":" s))
                = h ++ String ":" (m ++ String ":" s)).
  { apply rstrip_app_clean; [| discriminate].
    rewrite rstrip_cons by reflexivity. f_equal.
    apply rstrip_app_clean; [assumption | discriminate]. }
  assert (Hsplit2 : Py.split ":" (h ++ String ":" m) = [h; m]).
  { rewrite (split_cut_some ":" _ h m ltac:(discriminate) (cut_colon h m Hh)).
    now rewrite split_colon_word. }
  assert (Hsplit3 : Py.split ":" (h ++ String ":" (m ++ String ":" s))
                    = [h; m; s]).
  { rewrite (split_cut_some ":" _ h (m ++ String ":" s) ltac:(discriminate)
               (cut_colon h _ Hh)).
    rewrite (split_cut_some ":" _ m s ltac:(discriminate) (cut_colon m s Hm)).
    now rewrite split_colon_word. }
  split; [| split].
  - apply (checker_on_fields _ h h "0" "0");
      try (apply clock_text_clean; auto);
      eauto.
    + rewrite <- (append_nil_r h) at 1.
      rewrite (strip_padded pad h "" Hpad Hh Hhne)
        by now rewrite append_nil_r.
      apply append_nil_r.
    + unfold Py.count. rewrite split_colon_word by assumption. cbn. lia.
    + unfold Py.count. rewrite split_colon_word by assumption. cbn. auto.
  - apply (checker_on_fields _ (h ++ String ":" m) h m "0");
      try (apply clock_text_clean; auto);
      eauto.
    + now apply strip_padded.
    + unfold Py.count. rewrite Hsplit2. cbn. lia.
    + unfold Py.count. rewrite Hsplit2. cbn. auto.
  - apply (checker_on_fields _ (h ++ String ":" (m ++ String ":" s)) h m s);
      try (apply clock_text_clean; auto);
      eauto.
    + now apply strip_padded.
    + unfold Py.count. rewrite Hsplit3. cbn. lia.
    + unfold Py.count. rewrite Hsplit3. cbn. auto.
Qed.

Lemma clock_fields_unchecked_witness :
  query_at_time_syntax_checker " 99:-7:1000" = Return tt.
Proof.
  destruct (clock_fields_unchecked " " "99" "-7" "1000")
    as (_ & _ & H); [now right | reflexivity | reflexivity | reflexivity |].
  exact H.
Defined.

(** ** A row that raises *)

Lemma main_rows_app {json : Type} (json_loads : value -> outcome json)
    (invoke : nat -> value -> value -> json -> json -> outcome unit)
    (db_query : gmap string (gmap string value) -> string
                -> outcome (gmap string (gmap string value)))
    (tz : Z -> Z) (clock : nat -> Z) (before : list (gmap string value)) :
  forall (n : nat) (db db1 : gmap string (gmap string value))
         (rest : list (gmap string value)),
    main_rows json_loads invoke db_query tz clock n db before
    = (Return tt, db1) ->
    main_rows json_loads invoke db_query tz clock n db (List.app before rest)
    = main_rows json_loads invoke db_query tz clock
                (n + List.length before) db1 rest.
Proof.
  induction before as [| row before IH]; intros n db db1 rest Hrun.
  - injection Hrun as <-. cbn. now rewrite Nat.add_0_r.
  - cbn [main_rows List.app] in *.
    destruct (process_row _ _ _ _ _ _ db row) as [db' | e];
      [| discriminate Hrun].
    rewrite (IH _ _ _ rest Hrun). cbn [List.length]. f_equal. lia.
Qed.

(** X16.  The pass of the manager stops at the first row that raises
    anything but a syntax error: the rows after it in the list are not
    looked at in that pass, whatever they hold, and the table is left as
    the rows before it made it. *)
Theorem pass_stops_at_raise {json : Type}
    (json_loads : value -> outcome json)
    (invoke : nat -> value -> value -> json -> json -> outcome unit)
    (db_query : gmap string (gmap string value) -> string
                -> outcome (gmap string (gmap string value)))
    (tz : Z -> Z) (clock : nat -> Z) (n : nat)
    (db db1 : gmap string (gmap string value))
    (before after : list (gmap string value)) (row : gmap string value)
    (e : exn) :
  main_rows json_loads invoke db_query tz clock n db before
  = (Return tt, db1) ->
  process_row json_loads (invoke (n + List.length before)%nat) db_query tz
              (clock (2 * (n + List.length before))%nat)
              (clock (2 * (n + List.length before) + 1)%nat) db1 row
  = Raise e ->
  main_rows json_loads invoke db_query tz clock n db
            (List.app before (row :: after))
  = (Raise e, db1).
Proof.
  intros Hbefore Hrow.
  rewrite (main_rows_app _ _ _ _ _ _ _ _ _ _ Hbefore).
  cbn [main_rows]. now rewrite Hrow.
Qed.

Lemma pass_stops_at_raise_witness :
  let mk := fun (i q : string) =>
    (<["id" := VStr i]> (<["query" := VStr q]> (<["last" := VDatetime 0 0]>
     (<["module" := VStr "jobs"]> (<["func" := VStr i]>
     (<["args" := VStr "[]"]> (<["kwargs" := VStr "{}"]> ∅))))))
     : gmap string value) in
  let a := mk "a" "every 1 day" in
  let b := delete "module" (mk "b" "every 2 hours") in
  let c := mk "c" "in 10 minutes" in
  let db : gmap string (gmap string value) :=
    <["a" := a]> (<["b" := b]> (<["c" := c]> ∅)) in
  main_rows (fun v : value => Return v) (fun _ _ _ _ _ => Return tt)
            plain_store (fun _ => 0)
            (fun n => 8000 + Z.of_nat n) 0 db [a; b; c]
  = (Raise (KeyError "module"), db).
Proof.
  intros mk a b c db.
  apply (pass_stops_at_raise (fun v : value => Return v)
           (fun _ _ _ _ _ => Return tt) plain_store (fun _ => 0)
           (fun n => 8000 + Z.of_nat n) 0 db db [a] [c] b (KeyError "module"));
    vm_compute; reflexivity.
Defined.

(** ** The word before a unit *)

Lemma split_upto_piece_inside (q : string) (n : nat) :
  forall (s x : string),
    In x (Py.split_upto n q s) -> exists a b, s = a ++ x ++ b.
Proof.
  induction n as [| n IH]; intros s x Hin.
  - destruct Hin as [<- | []]. exists "", "". cbn. now rewrite append_nil_r.
  - cbn [Py.split_upto] in Hin.
    pose proof (cut_spec q s) as Hspec.
    destruct (Py.cut q s) as [[a b] |].
    + destruct Hspec as [-> _]. destruct Hin as [<- | Hin].
      * exists "", (q ++ b). reflexivity.
      * destruct (IH b x Hin) as (a' & b' & ->).
        exists (a ++ q ++ a'), b'. now rewrite !append_assoc.
    + destruct Hin as [<- | []]. exists "", "". cbn. now rewrite append_nil_r.
Qed.

Lemma final_piece_inside (q s : string) :
  exists a b, s = a ++ Py.final (Py.split q s) ++ b.
Proof.
  apply (split_upto_piece_inside q (String.length s)).
  apply final_in, split_nonempty.
Qed.

Lemma first_piece_inside (q s : string) :
  exists b, s = Py.first (Py.split q s) ++ b.
Proof.
  unfold Py.split, Py.first. destruct (String.length s) as [| n].
  - exists "". cbn. now rewrite append_nil_r.
  - cbn [Py.split_upto]. pose proof (cut_spec q s) as Hspec.
    destruct (Py.cut q s) as [[a b] |].
    + destruct Hspec as [-> _]. exists (q ++ b). reflexivity.
    + exists "". cbn. now rewrite append_nil_r.
Qed.

Lemma strip_inside (s : string) : exists a b, s = a ++ Py.strip s ++ b.
Proof.
  unfold Py.strip.
  destruct (lstrip_suffix s) as [a Ha].
  destruct (rstrip_prefix (Py.lstrip s)) as [b Hb].
  exists a, b. now rewrite <- Hb.
Qed.

Lemma inside_trans (x y z : string) :
  (exists a b, y = a ++ x ++ b) -> (exists a b, z = a ++ y ++ b) ->
  exists a b, z = a ++ x ++ b.
Proof.
  intros (a & b & ->) (a' & b' & ->).
  exists (a' ++ a), (b ++ b'). now rewrite !append_assoc.
Qed.

Lemma inside_clean (p x y : string) :
  (exists a b, y = a ++ x ++ b) -> Py.contains p y = false ->
  Py.contains p x = false.
Proof.
  intros (a & b & ->) Hy.
  destruct (Py.contains p x) eqn:Hx; [| reflexivity].
  rewrite (contains_app_r p a (x ++ b)) in Hy; [discriminate |].
  now apply contains_app_l.
Qed.

Lemma cut_unfold (p s : string) :
  Py.cut p s
  = match Py.removeprefix p s with
    | Some r => Some ("", r)
    | None =>
        match s with
        | EmptyString => None
        | String c s' =>
            match Py.cut p s' with
            | Some (a, b) => Some (String c a, b)
            | None => None
            end
        end
    end.
Proof. destruct s; reflexivity. Qed.

Lemma prefix_of_longer (p r u v : string) :
  p ++ r = u ++ v -> (String.length p <= String.length u)%nat ->
  exists w, u = p ++ w.
Proof.
  revert u. induction p as [| c p IH]; intros u Heq Hlen; [now exists u |].
  destruct u as [| d u]; [cbn in Hlen; lia |].
  cbn [String.append] in Heq. injection Heq as -> Heq.
  destruct (IH u Heq) as [w ->]; [cbn in Hlen; lia |].
  now exists w.
Qed.

Lemma startswith_suffix_free (p x b b' : string) :
  Py.startswith (x ++ p ++ b) p = true -> Py.startswith (x ++ p ++ b') p = true.
Proof.
  intros [r Hr]%startswith_spec. apply startswith_spec.
  destruct (prefix_of_longer p r (x ++ p) b) as [w Hw].
  - now rewrite append_assoc.
  - rewrite length_append. lia.
  - exists (w ++ b'). now rewrite <- !append_assoc, <- Hw, !append_assoc.
Qed.

Lemma cut_suffix_free (p a b b' : string) :
  Py.cut p (a ++ p ++ b) = Some (a, b) -> Py.cut p (a ++ p ++ b') = Some (a, b').
Proof.
  induction a as [| c a IH].
  - intros _. change ("" ++ p ++ b') with (p ++ b').
    now rewrite cut_unfold, removeprefix_app.
  - change (String c a ++ p ++ b) with (String c (a ++ p ++ b)).
    change (String c a ++ p ++ b') with (String c (a ++ p ++ b')).
    rewrite !(cut_unfold p (String c _)).
    pose proof (removeprefix_spec p (String c (a ++ p ++ b))) as Hb.
    pose proof (removeprefix_spec p (String c (a ++ p ++ b'))) as Hb'.
    destruct (Py.removeprefix p (String c (a ++ p ++ b))) as [r |];
      [discriminate |].
    destruct (Py.removeprefix p (String c (a ++ p ++ b'))) as [r' |].
    + assert (Hs : Py.startswith (String c a ++ p ++ b') p = true)
        by (apply startswith_spec; now exists r').
      apply (startswith_suffix_free p (String c a) b' b) in Hs.
      change (String c a ++ p ++ b) with (String c (a ++ p ++ b)) in Hs.
      congruence.
    + destruct (Py.cut p (a ++ p ++ b)) as [[a0 b0] |]; [| discriminate].
      intros [= -> ->]. now rewrite IH.
Qed.

(** X17.  [get_word_before_word] raises [ValueError] for the empty word.
    For another word it returns: the empty text when the word is not in
    the text, and otherwise a piece of what stands before the first
    occurrence of the word, a piece that holds no blank, no line feed and
    no tab.  What follows the first occurrence is not read: with any other
    text after it the answer is the same. *)
Theorem word_before_first (word txt : string) :
  get_word_before_word "" txt = Raise ValueError
  /\ (word <> "" ->
      exists w,
        get_word_before_word word txt = Return w
        /\ (Py.contains word txt = false -> w = "")
        /\ (exists a b, Py.first (Py.split word txt) = a ++ w ++ b)
        /\ Py.contains " " w = false
        /\ Py.contains NL w = false
        /\ Py.contains TAB w = false
        /\ forall before after after',
            Py.cut word txt = Some (before, after) ->
            get_word_before_word word (before ++ word ++ after') = Return w).
Proof.
  split.
  { unfold get_word_before_word.
    replace (Py.contains "" txt) with true by (destruct txt; reflexivity).
    reflexivity. }
  intros Hword.
  assert (Hnot : String.eqb word "" = false) by now apply String.eqb_neq.
  unfold get_word_before_word. rewrite Hnot.
  destruct (Py.contains word txt) eqn:Hin; cbn [negb].
  2:{ exists "". split; [reflexivity |]. split; [reflexivity |].
      split; [exists "", (Py.first (Py.split word txt)); reflexivity |].
      repeat (split; [reflexivity |]).
      intros before after after' Hcut.
      pose proof (cut_spec word txt) as Hspec. rewrite Hcut in Hspec.
      destruct Hspec as [-> _].
      rewrite contains_app_r in Hin; [discriminate |].
      apply contains_app_l, contains_spec. exists "", "".
      cbn. now rewrite append_nil_r. }
  set (before := Py.first (Py.split word txt)).
  set (w1 := Py.final (Py.split " " (Py.strip before))).
  set (w2 := Py.final (Py.split NL (Py.strip w1))).
  set (w3 := Py.final (Py.split TAB (Py.strip w2))).
  exists (Py.strip w3).
  assert (H1 : exists a b, before = a ++ w1 ++ b)
    by (apply (inside_trans _ (Py.strip before));
        [apply final_piece_inside | apply strip_inside]).
  assert (H2 : exists a b, w1 = a ++ w2 ++ b)
    by (apply (inside_trans _ (Py.strip w1));
        [apply final_piece_inside | apply strip_inside]).
  assert (H3 : exists a b, w2 = a ++ w3 ++ b)
    by (apply (inside_trans _ (Py.strip w2));
        [apply final_piece_inside | apply strip_inside]).
  assert (H4 : exists a b, w3 = a ++ Py.strip w3 ++ b) by apply strip_inside.
  assert (Hblank : Py.contains " " w1 = false)
    by (apply final_piece_clean; discriminate).
  assert (Hnl : Py.contains NL w2 = false)
    by (apply final_piece_clean; discriminate).
  assert (Htab : Py.contains TAB w3 = false)
    by (apply final_piece_clean; discriminate).
  split; [reflexivity |]. split; [discriminate |].
  split; [| split; [| split; [| split]]].
  - eauto using inside_trans.
  - apply (inside_clean _ _ w1); [| exact Hblank].
    eauto using inside_trans.
  - apply (inside_clean _ _ w2); [| exact Hnl].
    eauto using inside_trans.
  - apply (inside_clean _ _ w3); [exact H4 | exact Htab].
  - intros a b b' Hcut.
    pose proof (cut_spec word txt) as Hspec. rewrite Hcut in Hspec.
    destruct Hspec as [Htxt _].
    assert (Hcut' : Py.cut word (a ++ word ++ b') = Some (a, b'))
      by (apply (cut_suffix_free word a b b'); now rewrite <- Htxt).
    assert (Hin' : Py.contains word (a ++ word ++ b') = true).
    { apply contains_app_r, contains_app_l, contains_spec. exists "", "".
      cbn. now rewrite append_nil_r. }
    rewrite Hin'. cbn [negb].
    rewrite (split_cut_some word _ a b' Hword Hcut').
    subst w3 w2 w1 before.
    rewrite (split_cut_some word txt a b Hword Hcut).
    reflexivity.
Qed.

Example word_before_examples :
  get_word_before_word "hour" "every 1 hour 2 hours" = Return "1"
  /\ get_word_before_word "day" "every monday" = Return "mon"
  /\ get_word_before_word "hour" "every 2hours" = Return "2"
  /\ get_word_before_word "hour" "hours" = Return ""
  /\ get_word_before_word "day" "every 2 hours" = Return ""
  /\ get_word_before_word "" "every 2 hours" = Raise ValueError.
Proof. vm_compute. auto 10. Qed.

(** ** Rejected rows and the pass *)

Lemma main_rows_app_returns {json : Type} (json_loads : value -> outcome json)
    (invoke : nat -> value -> value -> json -> json -> outcome unit)
    (db_query : gmap string (gmap string value) -> string
                -> outcome (gmap string (gmap string value)))
    (tz : Z -> Z) (clock : nat -> Z) (before : list (gmap string value)) :
  forall (n : nat) (db db' : gmap string (gmap string value))
         (rest : list (gmap string value)),
    main_rows json_loads invoke db_query tz clock n db (List.app before rest)
    = (Return tt, db') ->
    exists db1,
      main_rows json_loads invoke db_query tz clock n db before
      = (Return tt, db1)
      /\ main_rows json_loads invoke db_query tz clock
                   (n + List.length before) db1 rest
         = (Return tt, db').
Proof.
  induction before as [| row before IH]; intros n db db' rest Hrun.
  - exists db. cbn. now rewrite Nat.add_0_r.
  - cbn [main_rows List.app] in *.
    destruct (process_row _ _ _ _ _ _ db row) as [db2 | e];
      [| discriminate Hrun].
    destruct (IH _ _ _ _ Hrun) as (db1 & Hbefore & Hrest).
    exists db1. split; [exact Hbefore |].
    cbn [List.length]. now replace (n + S (List.length before))%nat
                          with (S n + List.length before)%nat by lia.
Qed.

(** X9.  With a store that deletes by id, and ids that hold no quote:
    after a pass of the manager that ends without an exception, a row of
    the list whose expression the validator rejects is no longer in the
    table, provided no row after it in the list bears its id: the pass
    deletes it, without launching it, and nothing puts it back. *)
Theorem pass_purges_rejected_rows {json : Type}
    (json_loads : value -> outcome json)
    (invoke : nat -> value -> value -> json -> json -> outcome unit)
    (db_query : gmap string (gmap string value) -> string
                -> outcome (gmap string (gmap string value)))
    (tz : Z -> Z) (clock : nat -> Z) (n : nat)
    (db db' : gmap string (gmap string value))
    (before after : list (gmap string value)) (row : gmap string value)
    (qv : value) (i msg : string) :
  deletes_by_id db_query ->
  avoids "'" i = true ->
  (forall r k, In r after -> row_id r = Return k -> avoids "'" k = true) ->
  main_rows json_loads invoke db_query tz clock n db
            (List.app before (row :: after))
  = (Return tt, db') ->
  row !! "query" = Some qv ->
  row !! "id" = Some (VStr i) ->
  query_syntax_checker qv = Raise (CronEventSyntaxError msg) ->
  (forall r, In r after -> row_id r <> Return i) ->
  db' !! i = None.
Proof.
  intros Hstore Hquote Hids Hrun Hq Hi Hbad Hafter.
  destruct (main_rows_app_returns _ _ _ _ _ _ _ _ _ _ Hrun)
    as (db1 & _ & Hrest).
  cbn [main_rows] in Hrest.
  destruct (rejected_row_deleted json_loads
              (invoke (n + List.length before)%nat) db_query tz
              (clock (2 * (n + List.length before))%nat)
              (clock (2 * (n + List.length before) + 1)%nat)
              db1 row qv i msg Hstore Hquote Hq Hi Hbad) as (Hstep & Hgone & _).
  rewrite Hstep in Hrest.
  pose proof (main_rows_frame json_loads invoke db_query tz clock after
                Hstore Hids
                (S (n + List.length before)) (delete i db1) i Hafter) as Hframe.
  rewrite Hrest in Hframe. cbn [snd] in Hframe.
  now rewrite Hframe.
Qed.

Lemma pass_purges_rejected_rows_witness :
  let mk := fun (i q : string) =>
    (<["id" := VStr i]> (<["query" := VStr q]> (<["last" := VDatetime 0 0]>
     (<["module" := VStr "jobs"]> (<["func" := VStr i]>
     (<["args" := VStr "[]"]> (<["kwargs" := VStr "{}"]> ∅))))))
     : gmap string value) in
  let a := mk "a" "every 2 hours" in
  let b := mk "b" "every banana hours" in
  let c := mk "c" "every 1 day" in
  let db : gmap string (gmap string value) :=
    <["a" := a]> (<["b" := b]> (<["c" := c]> ∅)) in
  snd (main_rows (fun v : value => Return v) (fun _ _ _ _ _ => Return tt)
                 plain_store (fun _ => 0)
                 (fun n => 8000 + Z.of_nat n) 0 db [a; b; c]) !! "b" = None.
Proof.
  intros mk a b c db.
  apply (pass_purges_rejected_rows (fun v : value => Return v)
           (fun _ _ _ _ _ => Return tt) plain_store (fun _ => 0)
           (fun n => 8000 + Z.of_nat n) 0 db _ [a] [c] b
           (VStr "every banana hours") "b" (expected_number "banana")
           plain_store_contract).
  - reflexivity.
  - intros r k [<- | []] [= <-]. reflexivity.
  - vm_compute. reflexivity.
  - reflexivity.
  - reflexivity.
  - reflexivity.
  - intros r [<- | []]. discriminate.
Defined.
